(** * WaveTracker: acquisition core, shallow embedding

    Embedded parts of the repository:
    - [core/imu/imu_protocol.py]      : the IMU telemetry decoder;
    - [core/imu/imu_writer_thread.py],
      [core/camera/video_writer_thread.py] : the writer (consumer) threads;
    - [core/imu/imu_manager.py], [core/camera/camera_manager.py] :
      the device managers (scan, connect, reconnect);
    - [core/multiprocessing/process_manager.py] : the process supervisor
      (start, stop, broadcast, monitoring, status summary);
    - [core/imu/imu_reader_thread.py],
      [core/camera/camera_reader_thread.py] : the data buffers;
    - [core/imu/imu_recorder.py]      : the recording coordinator.

    Python dictionaries are finite maps ([gmap]) where only membership and
    lookup matter, and insertion-ordered association lists where the order
    of the keys is observable.  Exceptions are explicit results. *)

From Stdlib Require Import ZArith QArith List Lia Bool String Ascii.
From stdpp Require Import gmap strings list fin_maps.

#[local] Set Warnings "-register-all,-clear-no-such-hyp".

Open Scope Z_scope.

(* ===================================================================== *)
(** * Python exceptions as results *)
(* ===================================================================== *)

Inductive exn : Type :=
| IndexError
| KeyError.

Inductive result (A : Type) : Type :=
| Ok (a : A)
| Raise (e : exn).

Arguments Ok {A} a.
Arguments Raise {A} e.

Definition rbind {A B : Type} (r : result A) (k : A -> result B) : result B :=
  match r with
  | Ok a => k a
  | Raise e => Raise e
  end.

Notation "x <-- r ;; k" := (rbind r (fun x => k))
  (at level 100, r at next level, right associativity).

(* ===================================================================== *)
(** * core/imu/imu_protocol.py *)
(* ===================================================================== *)

Module IMUProtocol.

(** Scale constants of the class; a scaled reading [raw * SCALE] is a
    float in the source and is kept here as the pair of the raw integer
    and the constant it is multiplied with. *)
Inductive scale : Type :=
| SCALE_ACCEL
| SCALE_ANGLE_SPEED
| SCALE_QUAT
| SCALE_ANGLE
| SCALE_MAG
| SCALE_TEMPERATURE
| SCALE_AIR_PRESSURE
| SCALE_HEIGHT.

(** Values stored in the decoded dictionary. *)
Inductive value : Type :=
| VInt (n : Z)
| VMul (raw : Z) (s : scale)        (* raw * SCALE_x *)
| VDiv1000 (raw : Z)                (* raw / 1000.0 *)
| VBool (b : bool)
| VDict (d : list (string * value)).

(** A Python [dict] with string keys, in insertion order. *)
Definition dict : Type := list (string * value).

Definition keys (d : dict) : list string := map fst d.

(** [d[k] = v]: replaces in place when the key exists, appends otherwise. *)
Fixpoint setitem (d : dict) (k : string) (v : value) : dict :=
  match d with
  | [] => [(k, v)]
  | (k', v') :: r =>
      if String.eqb k k' then (k, v) :: r else (k', v') :: setitem r k v
  end.

(** [k in d] *)
Definition contains (d : dict) (k : string) : bool :=
  existsb (String.eqb k) (keys d).

Definition len (buf : list Z) : Z := Z.of_nat (length buf).

(** [buf[i]] with Python's index rules: negative indices count from the
    end, anything else out of range raises [IndexError]. *)
Definition getitem (buf : list Z) (i : Z) : result Z :=
  let n := len buf in
  let j := if i <? 0 then n + i else i in
  if (0 <=? j) && (j <? n) then
    match nth_error buf (Z.to_nat j) with
    | Some b => Ok b
    | None => Raise IndexError
    end
  else Raise IndexError.

(** [_parse_int16_from_buffer] *)
Definition _parse_int16_from_buffer (buf : list Z) (offset : Z) : result Z :=
  if offset + 1 >=? len buf then Ok 0
  else
    hi <-- getitem buf (offset + 1) ;;
    lo <-- getitem buf offset ;;
    let value := Z.lor (Z.shiftl hi 8) lo in
    Ok (if value >=? 32768 then value - 65536 else value).

(** [int(np.int32(value))]: the conversion to a signed 32-bit integer
    with wrap-around, which is what the source relies on to extend a
    negative 24-bit value (see the comment next to it).  A NumPy release
    that rejects integers outside the int32 range would raise here
    instead; [parse_imu_data] catches that and returns [None]. *)
Definition int32 (value : Z) : Z :=
  (value + 2147483648) mod 4294967296 - 2147483648.

(** [_parse_int24_from_buffer] *)
Definition _parse_int24_from_buffer (buf : list Z) (offset : Z) : result Z :=
  if offset + 2 >=? len buf then Ok 0
  else
    b2 <-- getitem buf (offset + 2) ;;
    b1 <-- getitem buf (offset + 1) ;;
    b0 <-- getitem buf offset ;;
    let value := Z.lor (Z.lor (Z.shiftl b2 16) (Z.shiftl b1 8)) b0 in
    let value :=
      if Z.land value 0x800000 =? 0x800000
      then Z.lor value 0xff000000 else value in
    Ok (int32 value).

(** Three consecutive 16-bit readings scaled by the same constant. *)
Definition read3 (buf : list Z) (L : Z) (mk : Z -> value)
    (k1 k2 k3 : string) : result value :=
  a <-- _parse_int16_from_buffer buf L ;;
  b <-- _parse_int16_from_buffer buf (L + 2) ;;
  c <-- _parse_int16_from_buffer buf (L + 4) ;;
  Ok (VDict [(k1, mk a); (k2, mk b); (k3, mk c)]).

Definition xyz (buf : list Z) (L : Z) (mk : Z -> value) : result value :=
  read3 buf L mk "x" "y" "z".

(** The bodies of the twelve optional blocks of [parse_imu_data]; each
    receives the buffer, the running offset [L] and the dictionary. *)
Definition dec_linear_accel (buf : list Z) (L : Z) (data : dict) : result dict :=
  v <-- xyz buf L (fun r => VMul r SCALE_ACCEL) ;;
  Ok (setitem data "linear_accel" v).

Definition dec_accel_with_gravity (buf : list Z) (L : Z) (data : dict) : result dict :=
  v <-- xyz buf L (fun r => VMul r SCALE_ACCEL) ;;
  Ok (setitem data "accel_with_gravity" v).

Definition dec_gyro (buf : list Z) (L : Z) (data : dict) : result dict :=
  v <-- xyz buf L (fun r => VMul r SCALE_ANGLE_SPEED) ;;
  Ok (setitem data "gyro" v).

Definition dec_mag (buf : list Z) (L : Z) (data : dict) : result dict :=
  v <-- xyz buf L (fun r => VMul r SCALE_MAG) ;;
  Ok (setitem data "mag" v).

Definition dec_env (buf : list Z) (L : Z) (data : dict) : result dict :=
  temp <-- _parse_int16_from_buffer buf L ;;
  let data := setitem data "temperature" (VMul temp SCALE_TEMPERATURE) in
  let L := L + 2 in
  pressure_raw <-- _parse_int24_from_buffer buf L ;;
  let data := setitem data "pressure" (VMul pressure_raw SCALE_AIR_PRESSURE) in
  let L := L + 3 in
  height_raw <-- _parse_int24_from_buffer buf L ;;
  Ok (setitem data "height" (VMul height_raw SCALE_HEIGHT)).

Definition dec_quat (buf : list Z) (L : Z) (data : dict) : result dict :=
  qw <-- _parse_int16_from_buffer buf L ;;
  qx <-- _parse_int16_from_buffer buf (L + 2) ;;
  qy <-- _parse_int16_from_buffer buf (L + 4) ;;
  qz <-- _parse_int16_from_buffer buf (L + 6) ;;
  Ok (setitem data "quat"
        (VDict [("w", VMul qw SCALE_QUAT); ("x", VMul qx SCALE_QUAT);
                ("y", VMul qy SCALE_QUAT); ("z", VMul qz SCALE_QUAT)])).

Definition dec_angle (buf : list Z) (L : Z) (data : dict) : result dict :=
  v <-- read3 buf L (fun r => VMul r SCALE_ANGLE) "roll" "pitch" "yaw" ;;
  Ok (setitem data "angle" v).

Definition dec_offset (buf : list Z) (L : Z) (data : dict) : result dict :=
  v <-- xyz buf L VDiv1000 ;;
  Ok (setitem data "offset" v).

Definition dec_steps (buf : list Z) (L : Z) (data : dict) : result dict :=
  b3 <-- getitem buf (L + 3) ;;
  b2 <-- getitem buf (L + 2) ;;
  b1 <-- getitem buf (L + 1) ;;
  b0 <-- getitem buf L ;;
  let steps :=
    Z.lor (Z.lor (Z.lor (Z.shiftl b3 24) (Z.shiftl b2 16)) (Z.shiftl b1 8)) b0 in
  let data := setitem data "steps" (VInt steps) in
  let L := L + 4 in
  motion_state <-- getitem buf L ;;
  Ok (setitem data "motion"
        (VDict [("walking", VBool (negb (Z.land motion_state 0x01 =? 0)));
                ("running", VBool (negb (Z.land motion_state 0x02 =? 0)));
                ("biking", VBool (negb (Z.land motion_state 0x04 =? 0)));
                ("driving", VBool (negb (Z.land motion_state 0x08 =? 0)))])).

Definition dec_high_precision (buf : list Z) (L : Z) (data : dict) : result dict :=
  v <-- xyz buf L (fun r => VMul r SCALE_ACCEL) ;;
  Ok (setitem data "high_precision_linear_accel" v).

Definition dec_adc (buf : list Z) (L : Z) (data : dict) : result dict :=
  hi <-- getitem buf (L + 1) ;;
  lo <-- getitem buf L ;;
  Ok (setitem data "adc" (VInt (Z.lor (Z.shiftl hi 8) lo))).

Definition dec_gpio (buf : list Z) (L : Z) (data : dict) : result dict :=
  gpio_value <-- getitem buf L ;;
  Ok (setitem data "gpio"
        (VDict [("mode", VInt (Z.land (Z.shiftr gpio_value 4) 0x0f));
                ("value", VInt (Z.land gpio_value 0x0f))])).

(** One optional block:
    [if (ctl & mask) != 0: if L + size <= len(buf): <body>; L += size]. *)
Record block : Type := Block {
  mask : Z;
  size : Z;
  block_keys : list string;
  body : list Z -> Z -> dict -> result dict
}.

Definition run_block (b : block) (buf : list Z) (ctl : Z)
    (st : dict * Z) : result (dict * Z) :=
  let '(data, L) := st in
  if negb (Z.land ctl (mask b) =? 0) then
    if L + size b <=? len buf then
      data' <-- body b buf L data ;;
      Ok (data', L + size b)
    else Ok (data, L)
  else Ok (data, L).

(** The blocks in the order the source tests them. *)
Definition blocks : list block :=
  [ Block 0x0001 6 ["linear_accel"] dec_linear_accel;
    Block 0x0002 6 ["accel_with_gravity"] dec_accel_with_gravity;
    Block 0x0004 6 ["gyro"] dec_gyro;
    Block 0x0008 6 ["mag"] dec_mag;
    Block 0x0010 8 ["temperature"; "pressure"; "height"] dec_env;
    Block 0x0020 8 ["quat"] dec_quat;
    Block 0x0040 6 ["angle"] dec_angle;
    Block 0x0080 6 ["offset"] dec_offset;
    Block 0x0100 5 ["steps"; "motion"] dec_steps;
    Block 0x0200 6 ["high_precision_linear_accel"] dec_high_precision;
    Block 0x0400 2 ["adc"] dec_adc;
    Block 0x0800 1 ["gpio"] dec_gpio ].

Fixpoint run_blocks (bs : list block) (buf : list Z) (ctl : Z)
    (st : dict * Z) : result (dict * Z) :=
  match bs with
  | [] => Ok st
  | b :: bs' =>
      st' <-- run_block b buf ctl st ;;
      run_blocks bs' buf ctl st'
  end.

(** The [try] part of [parse_imu_data]. *)
Definition parse_body (buf : list Z) : result dict :=
  b2 <-- getitem buf 2 ;;
  b1 <-- getitem buf 1 ;;
  let ctl := Z.lor (Z.shiftl b2 8) b1 in
  b6 <-- getitem buf 6 ;;
  b5 <-- getitem buf 5 ;;
  b4 <-- getitem buf 4 ;;
  b3 <-- getitem buf 3 ;;
  let timestamp :=
    Z.lor (Z.lor (Z.lor (Z.shiftl b6 24) (Z.shiftl b5 16)) (Z.shiftl b4 8)) b3 in
  let data := [("timestamp", VInt timestamp); ("control", VInt ctl)] in
  st <-- run_blocks blocks buf ctl (data, 7) ;;
  Ok (fst st).

(** [parse_imu_data]: [None] for an invalid packet and for any exception
    caught by the [except Exception] clause. *)
Definition parse_imu_data (buf : list Z) : result (option dict) :=
  invalid <-- (if len buf <? 7 then Ok true
               else b0 <-- getitem buf 0 ;; Ok (negb (b0 =? 0x11))) ;;
  if (invalid : bool) then Ok None
  else
    match parse_body buf with
    | Ok data => Ok (Some data)
    | Raise _ => Ok None
    end.

(** The control word and the device timestamp of the header. *)
Definition control_word (buf : list Z) : Z :=
  Z.lor (Z.shiftl (nth 2 buf 0) 8) (nth 1 buf 0).






(** ** Device configuration *)

(** [ba[i] = v] on a [bytearray]: a value outside [range(256)] raises
    [ValueError], rendered by [None]. *)
Definition bytearray_set (i : nat) (v : Z) (ba : list Z) : option (list Z) :=
  if (0 <=? v) && (v <? 256) then Some (<[i := v]> ba) else None.

(** [create_configuration_sequence(is_compass_on, barometer_filter,
    report_tag, report_rate)]; [None] when building the parameter block
    raises. *)
Definition create_configuration_sequence
    (is_compass_on barometer_filter report_tag report_rate : Z)
    : option (list (list Z)) :=
  let params := repeat 0 11 in
  params ← bytearray_set 0 0x12 params;
  params ← bytearray_set 1 5 params;
  params ← bytearray_set 2 255 params;
  params ← bytearray_set 3 0 params;
  params ← bytearray_set 4
    (Z.lor (Z.shiftl (Z.land barometer_filter 3) 1) (Z.land is_compass_on 1)) params;
  params ← bytearray_set 5 report_rate params;
  params ← bytearray_set 6 1 params;
  params ← bytearray_set 7 3 params;
  params ← bytearray_set 8 5 params;
  params ← bytearray_set 9 (Z.land report_tag 0xff) params;
  params ← bytearray_set 10 (Z.land (Z.shiftr report_tag 8) 0xff) params;
  Some [[0x29]; [0x46]; params; [0x19]].



End IMUProtocol.

(* ===================================================================== *)
(** * core/imu/imu_writer_thread.py, core/camera/video_writer_thread.py *)
(* ===================================================================== *)

(** The two writer threads have the same structure.  [IMUWriterThread]
    keys its dictionaries by device address and consumes [IMUData];
    [VideoWriterThread] keys them by camera id and consumes [FrameData]
    (its extra dictionaries [csv_files] and [csv_writers] are filled and
    emptied together with [writers]).  The model is written once over the
    key type [K] and the unit type [U], with the names of the IMU writer. *)

Module Writer.

Inductive WriterState : Type :=
| IDLE
| WRITING
| STOPPING
| ERROR.

#[global] Instance WriterState_eq_dec : EqDecision WriterState.
Proof. solve_decision. Defined.

(** [writer_stats[device]] *)
Record Stats : Type := mkStats {
  start_time : Z;
  data_count : Z;
  dropped_data : Z;
  last_data_time : option Z
}.

(** [final_stats] of [_finalize_writer]; the derived floats (duration in
    seconds, average rate) and the file size are computed from these. *)
Record FinalStats : Type := mkFinalStats {
  final_data_count : Z;
  final_dropped_data : Z;
  final_start_time : Z;
  final_end_time : Z
}.

Section WriterThread.

Context {K : Type} `{Countable K}.
Context {U : Type}.

(** [imu_data.device_address] / [frame_data.camera_id], and
    [imu_data.timestamp] / [frame_data.timestamp]. *)
Variable device_of : U -> K.
Variable timestamp_of : U -> Z.

(** Qt signals emitted by the thread. *)
Inductive Signal : Type :=
| writer_started (d : K)
| writer_stopped (d : K) (final_stats : FinalStats)
| writer_error (d : K)
| data_written (d : K) (count : Z).

(** The thread object.  [writers] maps a device to its open output
    artifact, modelled by the units written to it so far; an artifact
    closed by [_finalize_writer] moves to [closed_files].  Of a writer
    configuration only its presence in [writer_configs] is kept. *)
Record WriterThread : Type := mkWriterThread {
  queue_size : Z;                       (* maxsize of the queue *)
  data_queue : list U;
  writers : gmap K (list U);
  writer_configs : gmap K unit;
  writer_states : gmap K WriterState;
  writer_stats : gmap K Stats;
  should_stop : bool;
  closed_files : list (K * list U);
  signals : list Signal
}.

Definition set_queue (q : list U) (w : WriterThread) : WriterThread :=
  mkWriterThread (queue_size w) q (writers w) (writer_configs w)
    (writer_states w) (writer_stats w) (should_stop w) (closed_files w) (signals w).

Definition set_writers (m : gmap K (list U)) (w : WriterThread) : WriterThread :=
  mkWriterThread (queue_size w) (data_queue w) m (writer_configs w)
    (writer_states w) (writer_stats w) (should_stop w) (closed_files w) (signals w).

Definition set_configs (m : gmap K unit) (w : WriterThread) : WriterThread :=
  mkWriterThread (queue_size w) (data_queue w) (writers w) m
    (writer_states w) (writer_stats w) (should_stop w) (closed_files w) (signals w).

Definition set_states (m : gmap K WriterState) (w : WriterThread) : WriterThread :=
  mkWriterThread (queue_size w) (data_queue w) (writers w) (writer_configs w)
    m (writer_stats w) (should_stop w) (closed_files w) (signals w).

Definition set_stats (m : gmap K Stats) (w : WriterThread) : WriterThread :=
  mkWriterThread (queue_size w) (data_queue w) (writers w) (writer_configs w)
    (writer_states w) m (should_stop w) (closed_files w) (signals w).

Definition set_should_stop (b : bool) (w : WriterThread) : WriterThread :=
  mkWriterThread (queue_size w) (data_queue w) (writers w) (writer_configs w)
    (writer_states w) (writer_stats w) b (closed_files w) (signals w).

Definition close_file (d : K) (rows : list U) (w : WriterThread) : WriterThread :=
  mkWriterThread (queue_size w) (data_queue w) (writers w) (writer_configs w)
    (writer_states w) (writer_stats w) (should_stop w)
    (closed_files w ++ [(d, rows)]) (signals w).

Definition emit (s : Signal) (w : WriterThread) : WriterThread :=
  mkWriterThread (queue_size w) (data_queue w) (writers w) (writer_configs w)
    (writer_states w) (writer_stats w) (should_stop w) (closed_files w)
    (signals w ++ [s]).

(** [__init__] *)
Definition init (queue_size : Z) : WriterThread :=
  mkWriterThread queue_size [] ∅ ∅ ∅ ∅ false [] [].

(** [d in self.writers] *)
Definition has_writer (w : WriterThread) (d : K) : bool :=
  bool_decide (is_Some (writers w !! d)).

(** [start_writer(config)] for the device [d] of the configuration, at
    system time [now]; [open_ok] tells whether creating the directory and
    the output artifact succeeds. *)
Definition start_writer (w : WriterThread) (d : K) (now : Z) (open_ok : bool)
    : bool * WriterThread :=
  if has_writer w d then (false, w)
  else if open_ok then
    (true,
     emit (writer_started d)
       (set_stats (<[d := mkStats now 0 0 None]> (writer_stats w))
          (set_states (<[d := WRITING]> (writer_states w))
             (set_configs (<[d := tt]> (writer_configs w))
                (set_writers (<[d := []]> (writers w)) w)))))
  else (false, emit (writer_error d) w).

(** [stop_writer(device)] *)
Definition stop_writer (w : WriterThread) (d : K) : bool * WriterThread :=
  if has_writer w d
  then (true, set_states (<[d := STOPPING]> (writer_states w)) w)
  else (false, w).

(** [Queue.full()] of the standard library: a queue whose [maxsize] is
    not positive is unbounded. *)
Definition queue_full (w : WriterThread) : bool :=
  (0 <? queue_size w) && (queue_size w <=? Z.of_nat (length (data_queue w))).

(** [add_data(imu_data)] / [add_frame(frame_data)].  A missing entry of
    [writer_states] is a [KeyError], which the method does not catch. *)
Definition add_data (w : WriterThread) (u : U) : result bool * WriterThread :=
  let d := device_of u in
  if has_writer w d then
    match writer_states w !! d with
    | None => (Raise KeyError, w)
    | Some state =>
        if bool_decide (state = WRITING) then
          if queue_full w then
            (* except queue.Full *)
            match writer_stats w !! d with
            | Some st =>
                (Ok false,
                 set_stats
                   (<[d := mkStats (start_time st) (data_count st)
                                    (dropped_data st + 1) (last_data_time st)]>
                      (writer_stats w)) w)
            | None => (Ok false, w)
            end
          else (Ok true, set_queue (data_queue w ++ [u]) w)
        else (Ok false, w)
    end
  else (Ok false, w).

(** The statistics after one more dropped unit, and a burst of adds. *)
Definition drop_one (s : Stats) : Stats :=
  mkStats (start_time s) (data_count s) (dropped_data s + 1) (last_data_time s).

Definition add_all (w : WriterThread) (us : list U) : WriterThread :=
  foldl (fun w u => (add_data w u).2) w us.

(** [_process_data(imu_data)] / [_process_frame(frame_data)]; [write_ok]
    tells whether writing to the artifact succeeds.  An exception raised
    before the [try] is caught in [run] and changes nothing. *)
Definition _process_data (w : WriterThread) (u : U) (write_ok : bool) : WriterThread :=
  let d := device_of u in
  match writers w !! d with
  | None => w
  | Some rows =>
      match writer_states w !! d with
      | None => w
      | Some state =>
          if bool_decide (state = STOPPING) then w
          else if write_ok then
            let w := set_writers (<[d := rows ++ [u]]> (writers w)) w in
            match writer_stats w !! d with
            | Some st =>
                let count := data_count st + 1 in
                emit (data_written d count)
                  (set_stats
                     (<[d := mkStats (start_time st) count (dropped_data st)
                                      (Some (timestamp_of u))]> (writer_stats w)) w)
            | None =>
                emit (writer_error d)
                  (set_states (<[d := ERROR]> (writer_states w)) w)
            end
          else
            emit (writer_error d)
              (set_states (<[d := ERROR]> (writer_states w)) w)
      end
  end.

(** [_finalize_writer(device)] at system time [now]. *)
Definition _finalize_writer (w : WriterThread) (d : K) (now : Z) : WriterThread :=
  match writers w !! d, writer_configs w !! d, writer_stats w !! d with
  | Some rows, Some _, Some st =>
      let w := close_file d rows w in
      let final_stats :=
        mkFinalStats (data_count st) (dropped_data st) (start_time st) now in
      let w := set_writers (delete d (writers w)) w in
      let w := set_configs (delete d (writer_configs w)) w in
      match writer_states w !! d with
      | Some _ =>
          let w := set_states (delete d (writer_states w)) w in
          let w := set_stats (delete d (writer_stats w)) w in
          emit (writer_stopped d final_stats) w
      | None => emit (writer_error d) w
      end
  | _, _, _ => emit (writer_error d) w
  end.

(** Devices whose state is [STOPPING]. *)
Definition stopping_writers (w : WriterThread) : list K :=
  (map_to_list (filter (fun kv => kv.2 = STOPPING) (writer_states w))).*1.

(** [_check_stopping_writers()] *)
Definition _check_stopping_writers (w : WriterThread) (now : Z) : WriterThread :=
  foldl (fun w d => _finalize_writer w d now) w (stopping_writers w).

(** One iteration of the loop of [run]: take a unit from the queue and
    process it, or, when the queue is empty, finalize the writers that
    are stopping. *)
Definition run_iteration (w : WriterThread) (write_ok : bool) (now : Z) : WriterThread :=
  match data_queue w with
  | u :: q => _process_data (set_queue q w) u write_ok
  | [] => _check_stopping_writers w now
  end.

(** Iterations of the loop while [should_stop] is not set, one per
    element of the list of write outcomes. *)
Fixpoint run (w : WriterThread) (oks : list bool) (now : Z) : WriterThread :=
  match oks with
  | [] => w
  | ok :: oks' =>
      if should_stop w then w else run (run_iteration w ok now) oks' now
  end.

(** [_cleanup_all_writers()] *)
Definition _cleanup_all_writers (w : WriterThread) (now : Z) : WriterThread :=
  foldl (fun w d => _finalize_writer w d now) w (map_to_list (writers w)).*1.

(** [stop_thread()] *)
Definition stop_thread (w : WriterThread) : WriterThread :=
  let w := set_should_stop true w in
  foldl (fun w d => set_states (<[d := STOPPING]> (writer_states w)) w) w
    (map_to_list (writers w)).*1.

(** The four dictionaries hold the same devices: a device has a job, with
    one entry in each dictionary, or none. *)
Definition consistent (w : WriterThread) : Prop :=
  dom (writer_configs w) = dom (writers w) /\
  dom (writer_states w) = dom (writers w) /\
  dom (writer_stats w) = dom (writers w).

(** Operations of the writer as seen from outside. *)
Inductive Op : Type :=
| OpStart (d : K) (now : Z) (open_ok : bool)
| OpStop (d : K)
| OpAdd (u : U)
| OpIterate (write_ok : bool) (now : Z)
| OpStopThread
| OpCleanupAll (now : Z).

Definition apply_op (w : WriterThread) (op : Op) : WriterThread :=
  match op with
  | OpStart d now ok => (start_writer w d now ok).2
  | OpStop d => (stop_writer w d).2
  | OpAdd u => (add_data w u).2
  | OpIterate ok now => run_iteration w ok now
  | OpStopThread => stop_thread w
  | OpCleanupAll now => _cleanup_all_writers w now
  end.

(** ** Invariants of the thread object *)

(** The sample count of a job is the number of units written to its
    artifact. *)
Definition counted (w : WriterThread) : Prop :=
  forall d rows st,
    writers w !! d = Some rows -> writer_stats w !! d = Some st ->
    data_count st = Z.of_nat (length rows).

(** A bounded queue (positive [maxsize]) never holds more than [maxsize]
    units. *)
Definition queue_bounded (w : WriterThread) : Prop :=
  0 < queue_size w -> Z.of_nat (length (data_queue w)) <= queue_size w.

(** The units of device [d] in a list, in order. *)
Definition units_of (d : K) (us : list U) : list U :=
  List.filter (fun u => bool_decide (device_of u = d)) us.

End WriterThread.

Arguments Signal K : clear implicits.
Arguments WriterThread K {_ _} U.
Arguments Op K U : clear implicits.

End Writer.

(** ** The two instances *)

Module IMUWriter.

(** [IMUData] of [core/imu/data_type.py] *)
Record IMUData : Type := mkIMUData {
  device_address : string;
  timestamp : Z;
  data : IMUProtocol.dict;
  data_count : Z
}.

Abbreviation IMUWriterThread := (Writer.WriterThread string IMUData).

Definition init (queue_size : Z) : IMUWriterThread := Writer.init queue_size.
Definition add_data := Writer.add_data device_address.
Definition _process_data := Writer._process_data device_address timestamp.
Definition run := Writer.run device_address timestamp.
Definition apply_op := Writer.apply_op device_address timestamp.

(** A recording session used in the examples: one device, two samples. *)
Definition sample (t : Z) : IMUData :=
  mkIMUData "AA:BB" t
    [("timestamp", IMUProtocol.VInt t); ("control", IMUProtocol.VInt 0)] t.

Definition started (queue_size : Z) : IMUWriterThread :=
  (Writer.start_writer (init queue_size) "AA:BB" 0 true).2.

Definition two_queued (queue_size : Z) : IMUWriterThread :=
  (add_data (add_data (started queue_size) (sample 1)).2 (sample 2)).2.

End IMUWriter.

Module VideoWriter.

(** [FrameData] of [core/camera/data_type.py]; the frame is kept as its
    bytes. *)
Record FrameData : Type := mkFrameData {
  camera_id : Z;
  frame : list Z;
  timestamp : Z;
  frame_number : Z
}.

Abbreviation VideoWriterThread := (Writer.WriterThread Z FrameData).

Definition add_frame := Writer.add_data camera_id.
Definition _process_frame := Writer._process_data camera_id timestamp.
Definition run := Writer.run camera_id timestamp.

End VideoWriter.

(* ===================================================================== *)
(** * core/imu/imu_manager.py *)
(* ===================================================================== *)

Module IMUManager.

(** [IMUConnectionState] *)
Inductive IMUConnectionState : Type :=
| DISCONNECTED
| CONNECTING
| CONNECTED
| ERROR.

#[global] Instance IMUConnectionState_eq_dec : EqDecision IMUConnectionState.
Proof. solve_decision. Defined.

(** [IMUDevice]; [client] tells whether a BLE client object is attached. *)
Record IMUDevice : Type := mkIMUDevice {
  address : string;
  name : string;
  rssi : option Z;
  state : IMUConnectionState;
  client : bool;
  last_data_time : option Z;
  error_message : option string;
  manual_disconnect : bool;
  custom_name : option string
}.


Definition set_state (s : IMUConnectionState) (d : IMUDevice) : IMUDevice :=
  mkIMUDevice (address d) (name d) (rssi d) s (client d) (last_data_time d)
    (error_message d) (manual_disconnect d) (custom_name d).

Definition set_client (c : bool) (d : IMUDevice) : IMUDevice :=
  mkIMUDevice (address d) (name d) (rssi d) (state d) c (last_data_time d)
    (error_message d) (manual_disconnect d) (custom_name d).

Definition set_last_data_time (t : option Z) (d : IMUDevice) : IMUDevice :=
  mkIMUDevice (address d) (name d) (rssi d) (state d) (client d) t
    (error_message d) (manual_disconnect d) (custom_name d).

Definition set_error_message (e : option string) (d : IMUDevice) : IMUDevice :=
  mkIMUDevice (address d) (name d) (rssi d) (state d) (client d) (last_data_time d)
    e (manual_disconnect d) (custom_name d).

Definition set_manual_disconnect (b : bool) (d : IMUDevice) : IMUDevice :=
  mkIMUDevice (address d) (name d) (rssi d) (state d) (client d) (last_data_time d)
    (error_message d) b (custom_name d).


(** Callbacks invoked by the manager. *)
Inductive Callback : Type :=
| on_device_discovered (d : IMUDevice)
| on_device_connected (a : string)
| on_device_disconnected (a : string)
| on_error (who : string) (msg : string).

(** The manager object; [reconnect_tasks] holds the addresses that have a
    reconnection task. *)
Record Manager : Type := mkManager {
  max_devices : Z;
  reconnect_attempts : Z;
  reconnect_delay : Q;
  device_custom_names : gmap string string;
  devices : gmap string IMUDevice;
  is_scanning : bool;
  reconnect_tasks : gset string;
  callbacks : list Callback
}.

Definition set_devices (ds : gmap string IMUDevice) (m : Manager) : Manager :=
  mkManager (max_devices m) (reconnect_attempts m) (reconnect_delay m)
    (device_custom_names m) ds (is_scanning m) (reconnect_tasks m) (callbacks m).


Definition set_reconnect_tasks (t : gset string) (m : Manager) : Manager :=
  mkManager (max_devices m) (reconnect_attempts m) (reconnect_delay m)
    (device_custom_names m) (devices m) (is_scanning m) t (callbacks m).

Definition notify (c : Callback) (m : Manager) : Manager :=
  mkManager (max_devices m) (reconnect_attempts m) (reconnect_delay m)
    (device_custom_names m) (devices m) (is_scanning m) (reconnect_tasks m)
    (callbacks m ++ [c]).

(** ** Strings: [str.lower] on ASCII letters and the [in] test *)






(** Truth value of [name_filter]: [None] and the empty list are falsy. *)
Definition filter_given (name_filter : option (list string)) : bool :=
  match name_filter with
  | Some (_ :: _) => true
  | _ => false
  end.





(** ** Connecting *)

(** What happens inside [_connect_device_task]. *)
Inductive ConnectOutcome : Type :=
| ConnectOk (now : Z)
| ConnectFailed (msg : string)            (* before the client is attached *)
| ConfigureFailed (now : Z) (msg : string) (* after [client.connect()] *)
| ConnectCancelled.                       (* the awaiting task is cancelled *)

(** [sum(1 for d in self.devices.values() if d.state == CONNECTED)] *)
Definition connected_count (m : Manager) : Z :=
  Z.of_nat (length (filter (fun kv => state kv.2 = CONNECTED) (map_to_list (devices m)))).

Definition update_device (a : string) (f : IMUDevice -> IMUDevice) (m : Manager)
    : Manager :=
  set_devices (alter f a (devices m)) m.

(** [connect_device(address)]; the result is [None] when the call is
    cancelled while it awaits the connection. *)
Definition connect_device (m : Manager) (a : string) (outcome : ConnectOutcome)
    : option bool * Manager :=
  match devices m !! a with
  | None => (Some false, m)
  | Some device =>
      if bool_decide (state device = CONNECTED) then (Some true, m)
      else if bool_decide (state device = CONNECTING) then (Some false, m)
      else if max_devices m <=? connected_count m then (Some false, m)
      else
        let m :=
          update_device a
            (fun d => set_error_message None
                        (set_state CONNECTING (set_manual_disconnect false d))) m in
        match outcome with
        | ConnectOk now =>
            (Some true,
             notify (on_device_connected a)
               (update_device a
                  (fun d => set_last_data_time (Some now)
                              (set_state CONNECTED (set_client true d))) m))
        | ConnectFailed msg =>
            (Some false,
             notify (on_error a msg)
               (update_device a
                  (fun d => set_error_message (Some msg) (set_state ERROR d)) m))
        | ConfigureFailed now msg =>
            (Some false,
             notify (on_error a msg)
               (update_device a
                  (fun d => set_error_message (Some msg)
                              (set_state ERROR
                                 (set_last_data_time (Some now) (set_client true d))))
                  m))
        | ConnectCancelled => (None, m)
        end
  end.

(** [disconnect_device(address)]; [ok] tells whether [client.disconnect()]
    returns normally. *)
Definition disconnect_device (m : Manager) (a : string) (ok : bool)
    : bool * Manager :=
  match devices m !! a with
  | None => (false, m)
  | Some device =>
      let m := update_device a (set_manual_disconnect true) m in
      let m := set_reconnect_tasks (reconnect_tasks m ∖ {[a]}) m in
      if client device && negb ok then (false, m)
      else (true, update_device a (fun d => set_client false (set_state DISCONNECTED d)) m)
  end.

(** [device.manual_disconnect] of the device at address [a]. *)
Definition manual_flag (m : Manager) (a : string) : bool :=
  match devices m !! a with
  | Some device => manual_disconnect device
  | None => false
  end.

(** ** Automatic reconnection *)

(** What the reconnection task does, in order. *)
Inductive Step : Type :=
| Sleep (delay : Q)
| Attempt (a : string) (success : bool).

(** What the rest of the program does around the [attempt]-th iteration:
    other tasks run while this one sleeps, either await may be cancelled,
    and the connection has an outcome. *)
Record Tick : Type := mkTick {
  during_sleep : Manager -> Manager;
  sleep_cancelled : bool;
  outcome : ConnectOutcome
}.

Inductive Exit : Type :=
| Reconnected
| StoppedByManualDisconnect
| Cancelled
| RetriesExhausted
| NotScheduled.

(** The [for attempt in range(max_retries)] loop of
    [_reconnect_device_task], from iteration [attempt] with [remaining]
    iterations to go; [retry_delay] is read once, before the loop. *)
Fixpoint reconnect_loop (env : nat -> Tick) (a : string) (retry_delay : Q)
    (attempt remaining : nat) (m : Manager) : Manager * list Step * Exit :=
  match remaining with
  | O => (m, [], RetriesExhausted)
  | S remaining' =>
      if manual_flag m a then (m, [], StoppedByManualDisconnect)
      else
        let tick := env attempt in
        let m1 := during_sleep tick m in
        if sleep_cancelled tick then (m1, [Sleep retry_delay], Cancelled)
        else
          match connect_device m1 a (outcome tick) with
          | (None, m2) => (m2, [Sleep retry_delay], Cancelled)
          | (Some true, m2) =>
              (m2, [Sleep retry_delay; Attempt a true], Reconnected)
          | (Some false, m2) =>
              let '(m3, steps, exit) :=
                reconnect_loop env a retry_delay (S attempt) remaining' m2 in
              (m3, Sleep retry_delay :: Attempt a false :: steps, exit)
          end
  end.

(** [_reconnect_device_task(device)] *)
Definition _reconnect_device_task (m : Manager) (a : string) (env : nat -> Tick)
    : Manager * list Step * Exit :=
  let max_retries := Z.to_nat (reconnect_attempts m) in
  let retry_delay := reconnect_delay m in
  let '(m', steps, exit) := reconnect_loop env a retry_delay 0 max_retries m in
  match exit with
  | Cancelled => (m', steps, exit)
  | _ => (set_reconnect_tasks (reconnect_tasks m' ∖ {[a]}) m', steps, exit)
  end.

(** [disconnected_callback(client)] for the device at address [a]; the
    boolean tells whether a reconnection task is created. *)
Definition disconnected_callback (m : Manager) (a : string) : bool * Manager :=
  let m := update_device a (fun d => set_client false (set_state DISCONNECTED d)) m in
  let m := notify (on_device_disconnected a) m in
  if negb (manual_flag m a) && bool_decide (a ∉ reconnect_tasks m)
  then (true, set_reconnect_tasks (reconnect_tasks m ∪ {[a]}) m)
  else (false, m).

(** A device-side disconnect followed by the task it schedules, if any. *)
Definition device_disconnects (m : Manager) (a : string) (env : nat -> Tick)
    : Manager * list Step * Exit :=
  match disconnected_callback m a with
  | (true, m1) => _reconnect_device_task m1 a env
  | (false, m1) => (m1, [], NotScheduled)
  end.



(** ** A manager with two known devices, used in the examples *)

Definition known_imu : IMUDevice :=
  mkIMUDevice "AA:BB" "IMU-1" (Some (-40)) CONNECTED true (Some 100) None false None.

Definition other_imu : IMUDevice :=
  mkIMUDevice "CC:DD" "IMU-2" (Some (-55)) DISCONNECTED false None None false None.

Definition example_manager : Manager :=
  mkManager 2 3 (2 # 1)%Q ∅
    (<["AA:BB" := known_imu]> (<["CC:DD" := other_imu]> ∅)) false ∅ [].


(** An environment in which nothing interferes and every connection
    attempt fails. *)
Definition failing_env : nat -> Tick :=
  fun _ => mkTick (fun m => m) false (ConnectFailed "timeout").

(** ** Data notifications *)


End IMUManager.

(* ===================================================================== *)
(** * core/camera/camera_manager.py *)
(* ===================================================================== *)

Module CameraManager.

(** [CameraState] *)
Inductive CameraState : Type :=
| DISCONNECTED
| CONNECTING
| CONNECTED
| RECORDING
| ERROR.

#[global] Instance CameraState_eq_dec : EqDecision CameraState.
Proof. solve_decision. Defined.

(** [CameraDevice]; [capture] tells whether a capture object is attached,
    the frame rate is kept as a rational. *)
Record CameraDevice : Type := mkCameraDevice {
  id : Z;
  name : string;
  width : Z;
  height : Z;
  fps : Q;
  state : CameraState;
  capture : bool;
  error_message : option string;
  frame_timestamps : list Z
}.

Inductive Callback : Type :=
| on_camera_connected (camera_id : Z)
| on_error (camera_id : Z) (msg : string).

Record Manager : Type := mkManager {
  max_cameras : Z;
  device_names : gmap Z string;
  default_fps : Q;
  default_width : Z;
  default_height : Z;
  cameras : gmap Z CameraDevice;
  callbacks : list Callback
}.

Definition set_cameras (cs : gmap Z CameraDevice) (m : Manager) : Manager :=
  mkManager (max_cameras m) (device_names m) (default_fps m) (default_width m)
    (default_height m) cs (callbacks m).

Definition notify (c : Callback) (m : Manager) : Manager :=
  mkManager (max_cameras m) (device_names m) (default_fps m) (default_width m)
    (default_height m) (cameras m) (callbacks m ++ [c]).

(** [_get_camera_name]; the default name is a formatted string, kept
    here as a fixed one. *)
Definition _get_camera_name (m : Manager) (camera_id : Z) : string :=
  default "camera" (device_names m !! camera_id).

(** What opening the device does. *)
Inductive OpenOutcome : Type :=
| Opened (actual_width actual_height : Z) (actual_fps : Q) (now : Z)
| OpenFailed (msg : string).

(** [sum(1 for c in self.cameras.values()
          if c.state in [CONNECTED, RECORDING])] *)
Definition connected_count (m : Manager) : Z :=
  Z.of_nat (length (filter (fun kv => state kv.2 = CONNECTED \/ state kv.2 = RECORDING)
                      (map_to_list (cameras m)))).

(** [connect_camera(camera_id, width, height, fps)] *)
Definition connect_camera (m : Manager) (camera_id : Z)
    (width height : option Z) (fps : option Q) (outcome : OpenOutcome)
    : bool * Manager :=
  let m :=
    match cameras m !! camera_id with
    | Some _ => m
    | None =>
        set_cameras
          (<[camera_id :=
               mkCameraDevice camera_id (_get_camera_name m camera_id)
                 (default_width m) (default_height m) (default_fps m)
                 DISCONNECTED false None []]> (cameras m)) m
    end in
  match cameras m !! camera_id with
  | None => (false, m)
  | Some camera =>
      if bool_decide (state camera = CONNECTED) then (true, m)
      else if bool_decide (state camera = CONNECTING) then (false, m)
      else if max_cameras m <=? connected_count m then (false, m)
      else
        let w := default (default_width m) width in
        let h := default (default_height m) height in
        let f := default (default_fps m) fps in
        match outcome with
        | Opened aw ah af now =>
            (true,
             notify (on_camera_connected camera_id)
               (set_cameras
                  (<[camera_id :=
                       mkCameraDevice (id camera) (name camera) aw ah af
                         CONNECTED true None [now]]> (cameras m)) m))
        | OpenFailed msg =>
            (false,
             notify (on_error camera_id msg)
               (set_cameras
                  (<[camera_id :=
                       mkCameraDevice (id camera) (name camera) w h f
                         ERROR (capture camera) (Some msg)
                         (frame_timestamps camera)]> (cameras m)) m))
        end
  end.

(** ** A manager whose only allowed connection is taken *)

Definition connected_camera : CameraDevice :=
  mkCameraDevice 0 "front" 1920 1080 (30 # 1)%Q CONNECTED true None [100].

Definition full_manager : Manager :=
  mkManager 1 ∅ (30 # 1)%Q 1920 1080 (<[0 := connected_camera]> ∅) [].

(** ** Disconnecting, capturing, scanning, and the lock *)

(** Callbacks of these methods, in the order of the calls. *)
Inductive Event : Type :=
| camera_discovered (c : CameraDevice)
| camera_disconnected (camera_id : Z)
| frame_received (camera_id : Z) (frame : list Z).

(** A call of a method returns, or blocks on [self.lock].  The lock is a
    [threading.Lock], which is not reentrant: a thread that enters
    [with self.lock] while it holds the lock waits for itself. *)
Inductive Call (A : Type) : Type :=
| Returns (a : A)
| Blocks.

Arguments Returns {A} a.
Arguments Blocks {A}.

(** [with self.lock:] entered by a thread that holds the lock ([held]) or
    does not. *)
Definition with_lock {A : Type} (held : bool) (body : Call A) : Call A :=
  if held then Blocks else body.

(** The record of a camera after a disconnect. *)
Definition disconnected_device (c : CameraDevice) : CameraDevice :=
  mkCameraDevice (id c) (name c) (width c) (height c) (fps c) DISCONNECTED false
    (error_message c) [].

(** [disconnect_camera(camera_id)]; [release_ok] tells whether
    [capture.release()] returns normally. *)
Definition disconnect_camera (held : bool) (m : Manager) (camera_id : Z)
    (release_ok : bool) : Call (bool * Manager * list Event) :=
  with_lock held
    (Returns
       match cameras m !! camera_id with
       | None => (false, m, [])
       | Some camera =>
           if capture camera && negb release_ok then (false, m, [])
           else
             (true,
              set_cameras (<[camera_id := disconnected_device camera]> (cameras m)) m,
              [camera_disconnected camera_id])
       end).

(** [deque(maxlen=30).append]: a full deque drops its oldest element. *)
Definition maxlen : nat := 30.

Definition deque_append (t : Z) (ts : list Z) : list Z :=
  drop (length (ts ++ [t]) - maxlen) (ts ++ [t]).

(** What [capture.read()] gives: a frame, read at system time [now], or
    a failure (no frame, or an exception). *)
Inductive ReadOutcome : Type :=
| FrameRead (frame : list Z) (now : Z)
| ReadFailed.

(** [capture_frame(camera_id)]; after a failed read the lock is released
    and [disconnect_camera] is called. *)
Definition capture_frame (held : bool) (m : Manager) (camera_id : Z)
    (read : ReadOutcome) (release_ok : bool)
    : Call (option (list Z) * Manager * list Event) :=
  with_lock held
    match cameras m !! camera_id with
    | None => Returns (None, m, [])
    | Some camera =>
        if negb (bool_decide (state camera = CONNECTED)) || negb (capture camera)
        then Returns (None, m, [])
        else
          match read with
          | FrameRead frame now =>
              Returns
                (Some frame,
                 set_cameras
                   (<[camera_id :=
                        mkCameraDevice (id camera) (name camera) (width camera)
                          (height camera) (fps camera) (state camera)
                          (capture camera) (error_message camera)
                          (deque_append now (frame_timestamps camera))]>
                      (cameras m)) m,
                 [frame_received camera_id frame])
          | ReadFailed =>
              match disconnect_camera held m camera_id release_ok with
              | Returns (_, m', events) => Returns (None, m', events)
              | Blocks => Blocks
              end
          end
    end.

(** [cleanup()]: under the lock, [disconnect_camera] is called for every
    known camera, then the table is cleared. *)
Fixpoint disconnect_all (held : bool) (ids : list Z) (release_ok : Z -> bool)
    (m : Manager) (events : list Event) : Call (Manager * list Event) :=
  match ids with
  | [] => Returns (m, events)
  | camera_id :: ids' =>
      match disconnect_camera held m camera_id (release_ok camera_id) with
      | Returns (_, m', events') =>
          disconnect_all held ids' release_ok m' (events ++ events')
      | Blocks => Blocks
      end
  end.

Definition cleanup (held : bool) (m : Manager) (release_ok : Z -> bool)
    : Call (Manager * list Event) :=
  with_lock held
    match disconnect_all true ((map_to_list (cameras m)).*1) release_ok m [] with
    | Returns (m', events) => Returns (set_cameras ∅ m', events)
    | Blocks => Blocks
    end.

(** [state in [CONNECTED, RECORDING]] *)
Definition in_use (c : CameraDevice) : Prop :=
  state c = CONNECTED \/ state c = RECORDING.

(** The body of the loop of [scan_cameras] for one device index; [probe]
    gives the width, height and frame rate reported by a device that
    opens and delivers a frame, or nothing. *)
Definition scan_probe (probe : Z -> option (Z * Z * Q))
    (acc : Manager * gset Z * list Event) (camera_id : Z)
    : Manager * gset Z * list Event :=
  let '(m, found_ids, events) := acc in
  if bool_decide (camera_id ∈ found_ids) then acc
  else
    match probe camera_id with
    | None => acc
    | Some (w, h, f) =>
        let w := if 0 <? w then w else default_width m in
        let h := if 0 <? h then h else default_height m in
        let f := if Qle_bool f 0 then default_fps m else f in
        let camera_name := _get_camera_name m camera_id in
        match cameras m !! camera_id with
        | None =>
            let c := mkCameraDevice camera_id camera_name w h f
                       DISCONNECTED false None [] in
            (set_cameras (<[camera_id := c]> (cameras m)) m,
             found_ids ∪ {[camera_id]},
             events ++ [camera_discovered c])
        | Some device =>
            (set_cameras
               (<[camera_id :=
                    mkCameraDevice (id device) camera_name w h f (state device)
                      (capture device) (error_message device)
                      (frame_timestamps device)]> (cameras m)) m,
             found_ids ∪ {[camera_id]},
             events)
        end
    end.

(** [scan_cameras()] *)
Definition scan_cameras (held : bool) (m : Manager)
    (probe : Z -> option (Z * Z * Q)) : Call (Manager * list Event) :=
  with_lock held
    (let found_ids : gset Z :=
       dom (filter (fun kv : Z * CameraDevice => in_use kv.2) (cameras m)) in
     let '(m, found_ids, events) :=
       foldl (scan_probe probe) (m, found_ids, []) (seqZ 0 11) in
     Returns
       (set_cameras
          (filter (fun kv : Z * CameraDevice =>
                     ~ ((kv.1 ∉ found_ids) /\ state kv.2 = DISCONNECTED))
             (cameras m)) m,
        events)).

(** No camera keeps more than [maxlen] frame timestamps, and no more
    cameras are in use than allowed. *)
Definition timestamps_bounded (m : Manager) : Prop :=
  forall camera_id c,
    cameras m !! camera_id = Some c -> (length (frame_timestamps c) <= maxlen)%nat.

Definition within_limit (m : Manager) : Prop :=
  connected_count m <= max_cameras m.

(** The calls made by a thread that does not hold the lock, and the
    manager they leave. *)
Inductive Op : Type :=
| OpConnect (camera_id : Z) (width height : option Z) (fps : option Q)
    (outcome : OpenOutcome)
| OpDisconnect (camera_id : Z) (release_ok : bool)
| OpCapture (camera_id : Z) (read : ReadOutcome) (release_ok : bool)
| OpScan (probe : Z -> option (Z * Z * Q)).

Definition apply_op (m : Manager) (op : Op) : Manager :=
  match op with
  | OpConnect camera_id w h f outcome => (connect_camera m camera_id w h f outcome).2
  | OpDisconnect camera_id release_ok =>
      match disconnect_camera false m camera_id release_ok with
      | Returns (_, m', _) => m'
      | Blocks => m
      end
  | OpCapture camera_id read release_ok =>
      match capture_frame false m camera_id read release_ok with
      | Returns (_, m', _) => m'
      | Blocks => m
      end
  | OpScan probe =>
      match scan_cameras false m probe with
      | Returns (m', _) => m'
      | Blocks => m
      end
  end.

End CameraManager.

(* ===================================================================== *)
(** * core/multiprocessing/process_manager.py *)
(* ===================================================================== *)

Module ProcessManager.

(** [ProcessStatus] *)
Inductive ProcessStatus : Type :=
| STOPPED
| STARTING
| RUNNING
| STOPPING
| ERROR.

#[global] Instance ProcessStatus_eq_dec : EqDecision ProcessStatus.
Proof. solve_decision. Defined.

(** A command message [{"command": command, "data": data}], one line of
    JSON on the standard input of the subprocess. *)
Record Message : Type := mkMessage {
  command : string;
  data : list (string * string)
}.

(** A [subprocess.Popen] object: [stdin] is [None], or the pipe with the
    lines written to it so far. *)
Record Popen : Type := mkPopen {
  stdin : option (list Message)
}.

(** [ProcessInfo] *)
Record ProcessInfo : Type := mkProcessInfo {
  process_id : string;
  process_type : string;
  instance_id : Z;
  status : ProcessStatus;
  process : option Popen;
  start_time : option Z;
  error_message : option string
}.

Definition set_process (p : option Popen) (i : ProcessInfo) : ProcessInfo :=
  mkProcessInfo (process_id i) (process_type i) (instance_id i) (status i) p
    (start_time i) (error_message i).

(** [self.processes] *)
Abbreviation Processes := (gmap string ProcessInfo).

(** [start_process(process_id)] at time [now]; [spawn_ok] tells whether
    [subprocess.Popen] succeeds.  The subprocess is created with
    [stdin=subprocess.PIPE]. *)
Definition start_process (ps : Processes) (pid : string) (now : Z)
    (spawn_ok : bool) : bool * Processes :=
  match ps !! pid with
  | None => (false, ps)
  | Some info =>
      if bool_decide (status info = STOPPED) then
        if spawn_ok then
          (true,
           <[pid := mkProcessInfo (process_id info) (process_type info)
                      (instance_id info) RUNNING (Some (mkPopen (Some [])))
                      (Some now) None]> ps)
        else
          (false,
           <[pid := mkProcessInfo (process_id info) (process_type info)
                      (instance_id info) ERROR (process info)
                      (start_time info) (Some "spawn")]> ps)
      else (false, ps)
  end.

(** [send_command(process_id, command, data)]; [write_ok] tells, for each
    process, whether writing and flushing the line succeeds. *)
Definition send_command (ps : Processes) (pid : string) (msg : Message)
    (write_ok : string -> bool) : bool * Processes :=
  match ps !! pid with
  | None => (false, ps)
  | Some info =>
      if bool_decide (status info = RUNNING) then
        match process info with
        | None => (false, ps)
        | Some p =>
            match stdin p with
            | Some lines =>
                if write_ok pid then
                  (true,
                   <[pid := set_process (Some (mkPopen (Some (lines ++ [msg])))) info]> ps)
                else (false, ps)
            | None => (true, ps)
            end
        end
      else (false, ps)
  end.

(** The loop of [send_command_to_all]: the accumulator holds
    [success_count], [total_running] and the processes. *)
Definition broadcast_step (msg : Message) (write_ok : string -> bool)
    (pid : string) (info : ProcessInfo) (acc : Z * Z * Processes)
    : Z * Z * Processes :=
  let '(success_count, total_running, ps) := acc in
  if bool_decide (status info = RUNNING) then
    let '(sent, ps') := send_command ps pid msg write_ok in
    (if sent then success_count + 1 else success_count, total_running + 1, ps')
  else acc.

(** [send_command_to_all(command, data)] *)
Definition send_command_to_all (ps : Processes) (msg : Message)
    (write_ok : string -> bool) : bool * Processes :=
  let '(success_count, total_running, ps') :=
    map_fold (broadcast_step msg write_ok) (0, 0, ps) ps in
  if total_running =? 0 then (false, ps')
  else (0 <? success_count, ps').

(** A running process takes the line: it has a handle with a pipe and the
    write succeeds. *)
Definition accepts (write_ok : string -> bool) (pid : string)
    (info : ProcessInfo) : Prop :=
  status info = RUNNING /\
  (exists lines, process info = Some (mkPopen (Some lines))) /\
  write_ok pid = true.

(** Every handle has a standard-input pipe, as [start_process] creates
    them. *)
Definition piped (ps : Processes) : Prop :=
  forall pid info p,
    ps !! pid = Some info -> process info = Some p -> is_Some (stdin p).

(** ** Two tracked processes, one of them running *)

Definition example_processes : Processes :=
  <["imu_1" := mkProcessInfo "imu_1" "imu" 1 RUNNING
                 (Some (mkPopen (Some []))) (Some 0) None]>
    (<["camera_1" := mkProcessInfo "camera_1" "camera" 1 STOPPED None None None]> ∅).

Definition start_recording : Message := mkMessage "start_recording" [].

(** ** Stopping, starting all, monitoring and the summary *)

Definition set_status (s : ProcessStatus) (i : ProcessInfo) : ProcessInfo :=
  mkProcessInfo (process_id i) (process_type i) (instance_id i) s (process i)
    (start_time i) (error_message i).

(** The record of a process that has ended normally. *)
Definition stopped_info (i : ProcessInfo) : ProcessInfo :=
  mkProcessInfo (process_id i) (process_type i) (instance_id i) STOPPED None None
    (error_message i).

Definition stop_message : Message := mkMessage "stop" [].

(** What waiting for the subprocess does in [stop_process]: [wait]
    returns in time; or it times out and [terminate()] and the second
    [wait] return; or an exception reaches the handler, with its text. *)
Inductive WaitOutcome : Type :=
| Exited
| Terminated
| WaitRaised (msg : string).

(** [stop_process] up to the sending of the stop command: the status is
    set to STOPPING, then [send_command(process_id, "stop")] is called
    when the handle has a pipe. *)
Definition stop_request (ps : Processes) (pid : string) (info : ProcessInfo)
    (write_ok : string -> bool) : Processes :=
  let ps := <[pid := set_status STOPPING info]> ps in
  match process info with
  | Some p =>
      match stdin p with
      | Some _ => (send_command ps pid stop_message write_ok).2
      | None => ps
      end
  | None => ps
  end.

(** [stop_process(process_id)]; the record is read again after the
    request, as the method works on the one object of the dictionary. *)
Definition stop_process (ps : Processes) (pid : string)
    (write_ok : string -> bool) (wait : WaitOutcome) : bool * Processes :=
  match ps !! pid with
  | None => (false, ps)
  | Some info =>
      if bool_decide (status info = RUNNING) then
        let ps := stop_request ps pid info write_ok in
        match ps !! pid with
        | None => (false, ps)
        | Some info =>
            match process info, wait with
            | Some _, WaitRaised msg =>
                (false,
                 <[pid := mkProcessInfo (process_id info) (process_type info)
                            (instance_id info) ERROR (process info)
                            (start_time info) (Some msg)]> ps)
            | _, _ => (true, <[pid := stopped_info info]> ps)
            end
        end
      else (false, ps)
  end.

(** [start_all_processes()]; the time and the outcome of the spawn are
    given for each process. *)
Definition start_all_step (now : string -> Z) (spawn_ok : string -> bool)
    (pid : string) (_ : ProcessInfo) (acc : bool * Processes) : bool * Processes :=
  let '(success, ps) := acc in
  let '(started, ps') := start_process ps pid (now pid) (spawn_ok pid) in
  (if started then success else false, ps').

Definition start_all_processes (ps : Processes) (now : string -> Z)
    (spawn_ok : string -> bool) : bool * Processes :=
  map_fold (start_all_step now spawn_ok) (true, ps) ps.

(** [stop_all_processes()], which is also what [cleanup()] does. *)
Definition stop_all_step (write_ok : string -> bool) (wait : string -> WaitOutcome)
    (pid : string) (_ : ProcessInfo) (acc : bool * Processes) : bool * Processes :=
  let '(success, ps) := acc in
  let '(stopped, ps') := stop_process ps pid write_ok (wait pid) in
  (if stopped then success else false, ps').

Definition stop_all_processes (ps : Processes) (write_ok : string -> bool)
    (wait : string -> WaitOutcome) : bool * Processes :=
  map_fold (stop_all_step write_ok wait) (true, ps) ps.

(** The message recorded for an abnormal exit; the text, which includes
    the exit code, is kept as a fixed string. *)
Definition exit_message (code : Z) : string := "exit".

(** [monitor_processes()]; [poll] gives, for each process, the result of
    [process.poll()]: [None] while the subprocess runs, its exit code
    once it has ended. *)
Definition monitor_step (poll : string -> option Z) (pid : string)
    (info : ProcessInfo) (ps : Processes) : Processes :=
  if bool_decide (status info = RUNNING) then
    match process info with
    | Some _ =>
        match poll pid with
        | Some code =>
            if bool_decide (code = 0) then <[pid := stopped_info info]> ps
            else
              <[pid := mkProcessInfo (process_id info) (process_type info)
                         (instance_id info) ERROR None None
                         (Some (exit_message code))]> ps
        | None => ps
        end
    | None => ps
    end
  else ps.

Definition monitor_processes (ps : Processes) (poll : string -> option Z)
    : Processes :=
  map_fold (monitor_step poll) ps ps.

(** [get_process_status_summary()] *)
Record Summary : Type := mkSummary {
  total : Z;
  running : Z;
  stopped : Z;
  error : Z;
  starting : Z;
  stopping : Z
}.

Definition summary_step (info : ProcessInfo) (s : Summary) : Summary :=
  if bool_decide (status info = RUNNING) then
    mkSummary (total s) (running s + 1) (stopped s) (error s) (starting s) (stopping s)
  else if bool_decide (status info = STOPPED) then
    mkSummary (total s) (running s) (stopped s + 1) (error s) (starting s) (stopping s)
  else if bool_decide (status info = ERROR) then
    mkSummary (total s) (running s) (stopped s) (error s + 1) (starting s) (stopping s)
  else if bool_decide (status info = STARTING) then
    mkSummary (total s) (running s) (stopped s) (error s) (starting s + 1) (stopping s)
  else if bool_decide (status info = STOPPING) then
    mkSummary (total s) (running s) (stopped s) (error s) (starting s) (stopping s + 1)
  else s.

Definition get_process_status_summary (ps : Processes) : Summary :=
  map_fold (fun _ info s => summary_step info s)
    (mkSummary (Z.of_nat (size ps)) 0 0 0 0 0) ps.

(** Number of tracked processes with a given status. *)
Definition count_status (st : ProcessStatus) (ps : Processes) : Z :=
  Z.of_nat (size (filter (fun kv : string * ProcessInfo => status kv.2 = st) ps)).

(** The effect of [start_process] and of [stop_process] on the record of
    the process, with the value returned. *)
Definition start_outcome (now : Z) (spawn_ok : bool) (info : ProcessInfo)
    : bool * ProcessInfo :=
  if bool_decide (status info = STOPPED) then
    if spawn_ok then
      (true,
       mkProcessInfo (process_id info) (process_type info) (instance_id info)
         RUNNING (Some (mkPopen (Some []))) (Some now) None)
    else
      (false,
       mkProcessInfo (process_id info) (process_type info) (instance_id info)
         ERROR (process info) (start_time info) (Some "spawn"))
  else (false, info).

Definition stop_outcome (wait : WaitOutcome) (info : ProcessInfo)
    : bool * ProcessInfo :=
  if bool_decide (status info = RUNNING) then
    match process info, wait with
    | Some _, WaitRaised msg =>
        (false,
         mkProcessInfo (process_id info) (process_type info) (instance_id info)
           ERROR (process info) (start_time info) (Some msg))
    | _, _ => (true, stopped_info info)
    end
  else (false, info).

(** The operations of the supervisor on the tracked processes. *)
Inductive Op : Type :=
| OpStart (pid : string) (now : Z) (spawn_ok : bool)
| OpStop (pid : string) (write_ok : string -> bool) (wait : WaitOutcome)
| OpStartAll (now : string -> Z) (spawn_ok : string -> bool)
| OpStopAll (write_ok : string -> bool) (wait : string -> WaitOutcome)
| OpSend (pid : string) (msg : Message) (write_ok : string -> bool)
| OpSendAll (msg : Message) (write_ok : string -> bool)
| OpMonitor (poll : string -> option Z).

Definition apply_op (ps : Processes) (op : Op) : Processes :=
  match op with
  | OpStart pid now spawn_ok => (start_process ps pid now spawn_ok).2
  | OpStop pid write_ok wait => (stop_process ps pid write_ok wait).2
  | OpStartAll now spawn_ok => (start_all_processes ps now spawn_ok).2
  | OpStopAll write_ok wait => (stop_all_processes ps write_ok wait).2
  | OpSend pid msg write_ok => (send_command ps pid msg write_ok).2
  | OpSendAll msg write_ok => (send_command_to_all ps msg write_ok).2
  | OpMonitor poll => monitor_processes ps poll
  end.

End ProcessManager.

(* ===================================================================== *)
(** * core/imu/imu_reader_thread.py, core/camera/camera_reader_thread.py:
      the data buffers *)
(* ===================================================================== *)

Module Buffer.

Section Buffer.

Context {K : Type} `{Countable K}.
Context {A : Type}.

(** [IMUDataBuffer] / [CameraFrameBuffer]: for each device, a list of
    items. *)
Record Buffer : Type := mkBuffer {
  max_size : Z;
  buffer : gmap K (list A)
}.

(** [__init__(max_size)] *)
Definition init (max_size : Z) : Buffer := mkBuffer max_size ∅.

(** [add_data(device_address, data)] / [add_frame(...)]: append, then
    [pop(0)] when the list is longer than [max_size]. *)
Definition add_data (b : Buffer) (d : K) (x : A) : Buffer :=
  let items := default [] (buffer b !! d) ++ [x] in
  let items :=
    if max_size b <? Z.of_nat (length items) then drop 1 items else items in
  mkBuffer (max_size b) (<[d := items]> (buffer b)).

(** [get_latest_data(device_address)] / [get_latest_frame(camera_id)] *)
Definition get_latest_data (b : Buffer) (d : K) : option A :=
  match buffer b !! d with
  | Some items => last items
  | None => None
  end.

(** [get_all_data(device_address)] *)
Definition get_all_data (b : Buffer) (d : K) : list A :=
  default [] (buffer b !! d).

(** [clear_data(device_address)] / [clear_buffer(camera_id)] *)
Definition clear_data (b : Buffer) (d : option K) : Buffer :=
  match d with
  | None => mkBuffer (max_size b) ∅
  | Some d =>
      match buffer b !! d with
      | Some _ => mkBuffer (max_size b) (<[d := []]> (buffer b))
      | None => b
      end
  end.

(** A sequence of additions; the items added for device [d], in order;
    the last [n] elements of a list. *)
Definition add_all (b : Buffer) (xs : list (K * A)) : Buffer :=
  foldl (fun b kx => add_data b kx.1 kx.2) b xs.

Definition items_of (d : K) (xs : list (K * A)) : list A :=
  (List.filter (fun kx : K * A => bool_decide (kx.1 = d)) xs).*2.

Definition window (n : Z) (l : list A) : list A :=
  drop (length l - Z.to_nat n) l.

End Buffer.

Arguments Buffer K {_ _} A.

End Buffer.

(** The frame buffer stores a dictionary with the frame, its timestamp
    and the camera. *)
Module CameraFrameBuffer.

Record BufferedFrame : Type := mkBufferedFrame {
  frame : list Z;
  timestamp : Z;
  camera_id : Z
}.

Definition add_frame (b : Buffer.Buffer Z BufferedFrame) (camera_id : Z)
    (frame : list Z) (timestamp : Z) : Buffer.Buffer Z BufferedFrame :=
  Buffer.add_data b camera_id (mkBufferedFrame frame timestamp camera_id).

End CameraFrameBuffer.

(* ===================================================================== *)
(** * core/imu/imu_recorder.py *)
(* ===================================================================== *)

Module IMURecorder.

(** The coordinator: the devices being recorded, their sample counters,
    and the writer thread. *)
Record Recorder : Type := mkRecorder {
  recording_devices : gset string;
  data_counters : gmap string Z;
  imu_writer_thread : IMUWriter.IMUWriterThread
}.

Definition set_writer (w : IMUWriter.IMUWriterThread) (r : Recorder) : Recorder :=
  mkRecorder (recording_devices r) (data_counters r) w.

(** [start_recording(device_address, output_path)] at time [now] for the
    device table [m] of the reader thread; [get_device_info] returns a
    dictionary exactly for an address of the table. *)
Definition start_recording (r : Recorder) (m : IMUManager.Manager) (a : string)
    (now : Z) (open_ok : bool) : bool * Recorder :=
  match IMUManager.devices m !! a with
  | None => (false, r)
  | Some _ =>
      if bool_decide (a ∈ recording_devices r) then (false, r)
      else
        let '(started, w) :=
          Writer.start_writer (imu_writer_thread r) a now open_ok in
        if started then
          (true, mkRecorder (recording_devices r ∪ {[a]})
                   (<[a := 0]> (data_counters r)) w)
        else (false, set_writer w r)
  end.

(** [stop_recording(device_address)] *)
Definition stop_recording (r : Recorder) (a : string) : bool * Recorder :=
  if bool_decide (a ∈ recording_devices r) then
    let '(stopped, w) := Writer.stop_writer (imu_writer_thread r) a in
    if stopped then
      (true, mkRecorder (recording_devices r ∖ {[a]}) (delete a (data_counters r)) w)
    else (false, set_writer w r)
  else (false, r).

(** [_on_data_received(device_address, data)] at system time [now]; the
    result of [add_data] is only logged. *)
Definition _on_data_received (r : Recorder) (a : string) (data : IMUProtocol.dict)
    (now : Z) : Recorder :=
  if bool_decide (a ∈ recording_devices r) then
    let count := default 0 (data_counters r !! a) + 1 in
    let imu_data := IMUWriter.mkIMUData a now data count in
    mkRecorder (recording_devices r) (<[a := count]> (data_counters r))
      (IMUWriter.add_data (imu_writer_thread r) imu_data).2
  else r.

(** One iteration of the loop of the writer thread. *)
Definition writer_iteration (r : Recorder) (write_ok : bool) (now : Z) : Recorder :=
  set_writer
    (Writer.run_iteration IMUWriter.device_address IMUWriter.timestamp
       (imu_writer_thread r) write_ok now) r.

(** What happens to the coordinator, seen from outside. *)
Inductive Op : Type :=
| OpStartRecording (m : IMUManager.Manager) (a : string) (now : Z) (open_ok : bool)
| OpStopRecording (a : string)
| OpData (a : string) (data : IMUProtocol.dict) (now : Z)
| OpWriterIteration (write_ok : bool) (now : Z).

Definition apply_op (r : Recorder) (op : Op) : Recorder :=
  match op with
  | OpStartRecording m a now open_ok => (start_recording r m a now open_ok).2
  | OpStopRecording a => (stop_recording r a).2
  | OpData a data now => _on_data_received r a data now
  | OpWriterIteration write_ok now => writer_iteration r write_ok now
  end.

(** [__init__]: nothing is recorded, the writer thread is new. *)
Definition init (queue_size : Z) : Recorder :=
  mkRecorder ∅ ∅ (IMUWriter.init queue_size).

(** Every device being recorded has a job in the writer thread, and that
    job has not been asked to stop. *)
Definition recording_has_job (r : Recorder) : Prop :=
  forall a, a ∈ recording_devices r ->
    is_Some (Writer.writers (imu_writer_thread r) !! a) /\
    exists st, Writer.writer_states (imu_writer_thread r) !! a = Some st /\
               st <> Writer.STOPPING.

End IMURecorder.

(* ===================================================================== *)
(** * Facts about the decoder *)
(* ===================================================================== *)

Module ProtocolFacts.
Import IMUProtocol.

(** ** Bit arithmetic *)

Lemma lor_shiftl_add (hi lo k : Z) :
  0 <= k -> 0 <= lo < 2 ^ k -> Z.lor (Z.shiftl hi k) lo = hi * 2 ^ k + lo.
Proof.
  intros Hk Hlo.
  assert (Hland : Z.land (Z.shiftl hi k) lo = 0).
  { apply Z.bits_inj'. intros n Hn. rewrite Z.land_spec, Z.bits_0.
    destruct (Z.lt_ge_cases n k) as [Hlt | Hge].
    - rewrite Z.shiftl_spec_low by lia. reflexivity.
    - destruct (Z.eq_dec lo 0) as [-> | Hne].
      + rewrite Z.bits_0. apply andb_false_r.
      + rewrite (Z.bits_above_log2 lo n); [apply andb_false_r | lia |].
        apply Z.log2_lt_pow2; try lia.
        apply Z.lt_le_trans with (2 ^ k); [lia |].
        apply Z.pow_le_mono_r; lia. }
  rewrite <- Z.lxor_lor by exact Hland.
  rewrite <- Z.add_nocarry_lxor by exact Hland.
  rewrite Z.shiftl_mul_pow2 by lia. reflexivity.
Qed.

Lemma le32_value (b3 b4 b5 b6 : Z) :
  0 <= b3 < 256 -> 0 <= b4 < 256 -> 0 <= b5 < 256 -> 0 <= b6 < 256 ->
  Z.lor (Z.lor (Z.lor (Z.shiftl b6 24) (Z.shiftl b5 16)) (Z.shiftl b4 8)) b3 =
  b3 + 256 * b4 + 65536 * b5 + 16777216 * b6.
Proof.
  intros H3 H4 H5 H6.
  replace (Z.shiftl b6 24) with (Z.shiftl (Z.shiftl b6 8) 16)
    by (rewrite Z.shiftl_shiftl by lia; reflexivity).
  rewrite <- Z.shiftl_lor, (lor_shiftl_add b6 b5 8) by lia.
  replace (Z.shiftl (b6 * 2 ^ 8 + b5) 16)
    with (Z.shiftl (Z.shiftl (b6 * 2 ^ 8 + b5) 8) 8)
    by (rewrite Z.shiftl_shiftl by lia; reflexivity).
  rewrite <- Z.shiftl_lor, (lor_shiftl_add _ b4 8) by lia.
  rewrite (lor_shiftl_add _ b3 8) by lia. lia.
Qed.

(** ** Indexing *)

Lemma len_nonneg (buf : list Z) : 0 <= len buf.
Proof. unfold len. lia. Qed.

Lemma getitem_in_range (buf : list Z) (i : Z) :
  0 <= i < len buf -> exists b, getitem buf i = Ok b.
Proof.
  intros Hi. unfold getitem. cbv zeta.
  destruct (i <? 0) eqn:Hneg; [apply Z.ltb_lt in Hneg; lia |].
  replace ((0 <=? i) && (i <? len buf))%bool with true.
  2:{ symmetry. apply andb_true_iff. split; [apply Z.leb_le | apply Z.ltb_lt]; lia. }
  destruct (nth_error buf (Z.to_nat i)) as [b |] eqn:Hnth; [eauto |].
  apply nth_error_None in Hnth. unfold len in Hi. lia.
Qed.

Lemma getitem_nth (buf : list Z) (i : nat) (b : Z) :
  nth_error buf i = Some b -> getitem buf (Z.of_nat i) = Ok b.
Proof.
  intros Hnth. unfold getitem. cbv zeta.
  assert (Hlt : (i < length buf)%nat) by (apply nth_error_Some; congruence).
  destruct (Z.of_nat i <? 0) eqn:Hneg; [apply Z.ltb_lt in Hneg; lia |].
  replace ((0 <=? Z.of_nat i) && (Z.of_nat i <? len buf))%bool with true.
  2:{ symmetry. apply andb_true_iff. unfold len.
      split; [apply Z.leb_le | apply Z.ltb_lt]; lia. }
  rewrite Nat2Z.id, Hnth. reflexivity.
Qed.

(** ** The field readers do not raise on non-negative offsets *)

Lemma parse_int16_total (buf : list Z) (offset : Z) :
  0 <= offset -> exists v, _parse_int16_from_buffer buf offset = Ok v.
Proof.
  intros Hoff. unfold _parse_int16_from_buffer.
  destruct (offset + 1 >=? len buf) eqn:Hge; [eauto |].
  rewrite Z.geb_leb in Hge. apply Z.leb_gt in Hge.
  destruct (getitem_in_range buf (offset + 1)) as [hi ->]; [lia |].
  destruct (getitem_in_range buf offset) as [lo ->]; [lia |].
  cbn. eauto.
Qed.


Lemma read3_total (buf : list Z) (L : Z) mk k1 k2 k3 :
  0 <= L -> exists v, read3 buf L mk k1 k2 k3 = Ok v.
Proof.
  intros HL. unfold read3.
  destruct (parse_int16_total buf L) as [a ->]; [lia |].
  destruct (parse_int16_total buf (L + 2)) as [b ->]; [lia |].
  destruct (parse_int16_total buf (L + 4)) as [c ->]; [lia |].
  cbn. eauto.
Qed.

(** ** Dictionary assignment *)



(** ** Every block body succeeds when its bytes are in bounds *)





(** ** Layout of the optional blocks *)







(** When no block fits at the running offset, nothing is decoded. *)
Lemma run_blocks_nothing_fits (bs : list block) (buf : list Z) (ctl : Z)
    (data : dict) (L : Z) :
  Forall (fun b => len buf < L + size b) bs ->
  run_blocks bs buf ctl (data, L) = Ok (data, L).
Proof.
  induction 1 as [| b bs Hb _ IH]; cbn [run_blocks]; [reflexivity |].
  unfold run_block.
  replace (L + size b <=? len buf) with false by (symmetry; apply Z.leb_gt; lia).
  destruct (negb (Z.land ctl (mask b) =? 0)); cbn [rbind]; exact IH.
Qed.



(** ** The header *)

Lemma getitem_nth_default (buf : list Z) (i : Z) :
  0 <= i < len buf -> getitem buf i = Ok (nth (Z.to_nat i) buf 0).
Proof.
  intros Hi. rewrite <- (Z2Nat.id i) at 1 by lia.
  apply getitem_nth. unfold len in Hi.
  rewrite (nth_error_nth' buf 0) by lia. reflexivity.
Qed.

Lemma parse_body_header (buf : list Z) :
  7 <= len buf ->
  parse_body buf =
    (st <-- run_blocks blocks buf (control_word buf)
              ([("timestamp",
                 VInt (Z.lor (Z.lor (Z.lor (Z.shiftl (nth 6 buf 0) 24)
                                           (Z.shiftl (nth 5 buf 0) 16))
                                    (Z.shiftl (nth 4 buf 0) 8))
                             (nth 3 buf 0)));
                ("control", VInt (control_word buf))], 7) ;;
     Ok (fst st)).
Proof.
  intros Hlen. unfold parse_body.
  rewrite (getitem_nth_default buf 2), (getitem_nth_default buf 1),
    (getitem_nth_default buf 6), (getitem_nth_default buf 5),
    (getitem_nth_default buf 4), (getitem_nth_default buf 3) by lia.
  reflexivity.
Qed.

Lemma parse_valid_header (buf : list Z) :
  7 <= len buf -> nth 0 buf 0 = 0x11 ->
  parse_imu_data buf =
    match parse_body buf with Ok data => Ok (Some data) | Raise _ => Ok None end.
Proof.
  intros Hlen Htag. unfold parse_imu_data.
  replace (len buf <? 7) with false by (symmetry; apply Z.ltb_ge; lia).
  rewrite (getitem_nth_default buf 0) by lia.
  cbn [rbind]. change (Z.to_nat 0) with 0%nat. rewrite Htag. reflexivity.
Qed.

(** ** Theorems on the decoder *)

(** C6. A buffer shorter than 7 bytes, or one whose first byte is not
    0x11, decodes to [None]; a 7-byte buffer with tag 0x11 decodes to a
    dictionary holding only [timestamp] (bytes 3-6, little-endian) and
    [control] (bytes 1-2, little-endian), in particular for the bitmask
    0x0000. *)
Theorem header_only_packet :
  (forall buf, len buf < 7 -> parse_imu_data buf = Ok None) /\
  (forall buf, nth 0 buf 0 <> 0x11 -> parse_imu_data buf = Ok None) /\
  (forall b1 b2 b3 b4 b5 b6,
     0 <= b1 < 256 -> 0 <= b2 < 256 -> 0 <= b3 < 256 ->
     0 <= b4 < 256 -> 0 <= b5 < 256 -> 0 <= b6 < 256 ->
     parse_imu_data [0x11; b1; b2; b3; b4; b5; b6] =
       Ok (Some [("timestamp", VInt (b3 + 256 * b4 + 65536 * b5 + 16777216 * b6));
                 ("control", VInt (b1 + 256 * b2))])) /\
  (forall b3 b4 b5 b6,
     parse_imu_data [0x11; 0; 0; b3; b4; b5; b6] =
       Ok (Some [("timestamp",
                  VInt (Z.lor (Z.lor (Z.lor (Z.shiftl b6 24) (Z.shiftl b5 16))
                                     (Z.shiftl b4 8)) b3));
                 ("control", VInt 0)])).
Proof.
  assert (Hseven : forall b1 b2 b3 b4 b5 b6,
    parse_imu_data [0x11; b1; b2; b3; b4; b5; b6] =
      Ok (Some [("timestamp",
                 VInt (Z.lor (Z.lor (Z.lor (Z.shiftl b6 24) (Z.shiftl b5 16))
                                    (Z.shiftl b4 8)) b3));
                ("control", VInt (Z.lor (Z.shiftl b2 8) b1))])).
  { intros.
    assert (Hlen : len [0x11; b1; b2; b3; b4; b5; b6] = 7) by reflexivity.
    rewrite parse_valid_header by (rewrite ?Hlen; first [lia | reflexivity]).
    rewrite parse_body_header by (rewrite Hlen; lia).
    rewrite run_blocks_nothing_fits; [reflexivity |].
    rewrite Hlen. unfold blocks. repeat constructor; cbn; lia. }
  split; [| split; [| split]].
  - intros buf Hlen. unfold parse_imu_data.
    replace (len buf <? 7) with true by (symmetry; apply Z.ltb_lt; lia).
    reflexivity.
  - intros buf Htag. unfold parse_imu_data.
    destruct (len buf <? 7) eqn:Hlen; [reflexivity |].
    apply Z.ltb_ge in Hlen.
    rewrite (getitem_nth_default buf 0) by lia.
    cbn [rbind]. change (Z.to_nat 0) with 0%nat.
    apply Z.eqb_neq in Htag. rewrite Htag. reflexivity.
  - intros b1 b2 b3 b4 b5 b6 H1 H2 H3 H4 H5 H6. rewrite Hseven.
    do 4 f_equal.
    + f_equal. f_equal. apply le32_value; assumption.
    + rewrite (lor_shiftl_add b2 b1 8) by lia. do 2 f_equal. lia.
  - intros. rewrite Hseven. reflexivity.
Qed.

Lemma header_only_packet_witness :
  parse_imu_data [0x11; 0x02] = Ok None /\
  parse_imu_data [0x10; 0; 0; 1; 2; 3; 4] = Ok None /\
  parse_imu_data [0x11; 0; 0; 1; 2; 3; 4] =
    Ok (Some [("timestamp", VInt 67305985); ("control", VInt 0)]).
Proof.
  split; [| split].
  - apply (proj1 header_only_packet). unfold len. cbn. lia.
  - apply (proj1 (proj2 header_only_packet)). cbn. lia.
  - apply (proj1 (proj2 (proj2 header_only_packet)) 0 0 1 2 3 4); lia.
Defined.






(** ** The decoder on small packets *)

Example accel_with_gravity_zero :
  parse_imu_data [0x11; 0x02; 0x00; 0; 0; 0; 0; 0; 0; 0; 0; 0; 0] =
    Ok (Some [("timestamp", VInt 0); ("control", VInt 2);
              ("accel_with_gravity",
               VDict [("x", VMul 0 SCALE_ACCEL); ("y", VMul 0 SCALE_ACCEL);
                      ("z", VMul 0 SCALE_ACCEL)])]).
Proof. vm_compute. reflexivity. Qed.

Example int16_sign :
  _parse_int16_from_buffer [0xfe; 0xff] 0 = Ok (-2) /\
  _parse_int16_from_buffer [0xff; 0x7f] 0 = Ok 32767.
Proof. vm_compute. split; reflexivity. Qed.

Example int24_sign :
  _parse_int24_from_buffer [0xfe; 0xff; 0xff] 0 = Ok (-2) /\
  _parse_int24_from_buffer [0xff; 0xff; 0x7f] 0 = Ok 8388607.
Proof. vm_compute. split; reflexivity. Qed.

End ProtocolFacts.

(* ===================================================================== *)
(** * Facts about the writer threads *)
(* ===================================================================== *)

Module WriterFacts.
Import Writer.

Section Facts.

Context {K : Type} `{Countable K}.
Context {U : Type}.
Variable device_of : U -> K.
Variable timestamp_of : U -> Z.

Abbreviation WT := (WriterThread K U).
Abbreviation add_data := (add_data device_of).
Abbreviation add_all := (add_all device_of).
Abbreviation _process_data := (_process_data device_of timestamp_of).
Abbreviation run_iteration := (run_iteration device_of timestamp_of).
Abbreviation run := (run device_of timestamp_of).
Abbreviation apply_op := (apply_op device_of timestamp_of).

Lemma has_writer_true (w : WT) (d : K) :
  has_writer w d = true <-> is_Some (writers w !! d).
Proof. unfold has_writer. apply bool_decide_eq_true. Qed.

Lemma has_writer_false (w : WT) (d : K) :
  has_writer w d = false <-> writers w !! d = None.
Proof.
  unfold has_writer. rewrite bool_decide_eq_false.
  rewrite eq_None_not_Some. reflexivity.
Qed.

Lemma consistent_lookup (w : WT) (d : K) :
  consistent w -> is_Some (writers w !! d) ->
  is_Some (writer_configs w !! d) /\
  is_Some (writer_states w !! d) /\
  is_Some (writer_stats w !! d).
Proof.
  intros (Hc & Hs & Ht) Hd. apply elem_of_dom in Hd.
  rewrite <- !elem_of_dom, Hc, Hs, Ht. auto.
Qed.

Lemma consistent_lookup_None (w : WT) (d : K) :
  consistent w -> writers w !! d = None ->
  writer_configs w !! d = None /\
  writer_states w !! d = None /\
  writer_stats w !! d = None.
Proof.
  intros (Hc & Hs & Ht) Hd. apply not_elem_of_dom in Hd.
  rewrite <- !not_elem_of_dom, Hc, Hs, Ht. auto.
Qed.

(** ** Consistency is preserved *)

Lemma init_consistent (n : Z) : consistent (init n : WT).
Proof. unfold consistent, init. cbn. rewrite !dom_empty_L. auto. Qed.

Lemma start_writer_consistent (w : WT) d now ok :
  consistent w -> consistent (start_writer w d now ok).2.
Proof.
  intros Hw. unfold start_writer.
  destruct (has_writer w d); [exact Hw |].
  destruct ok; [| exact Hw].
  destruct Hw as (Hc & Hs & Ht). unfold consistent. cbn.
  rewrite !dom_insert_L, Hc, Hs, Ht. auto.
Qed.

Lemma stop_writer_consistent (w : WT) d :
  consistent w -> consistent (stop_writer w d).2.
Proof.
  intros Hw. unfold stop_writer.
  destruct (has_writer w d) eqn:Hd; [| exact Hw].
  apply has_writer_true, elem_of_dom in Hd.
  destruct Hw as (Hc & Hs & Ht). unfold consistent. cbn.
  rewrite dom_insert_L, Hs. repeat split; try assumption; set_solver.
Qed.

Lemma add_data_consistent (w : WT) u :
  consistent w -> consistent (add_data w u).2.
Proof.
  intros Hw. unfold Writer.add_data.
  destruct (has_writer w (device_of u)) eqn:Hd; [| exact Hw].
  destruct (writer_states w !! device_of u) as [st |]; [| exact Hw].
  case_bool_decide; [| exact Hw].
  destruct (queue_full w); [| exact Hw].
  destruct (writer_stats w !! device_of u) as [s |] eqn:Hs; [| exact Hw].
  apply has_writer_true, elem_of_dom in Hd.
  destruct Hw as (Hc & Hst & Ht). unfold consistent. cbn.
  rewrite dom_insert_L, Ht. repeat split; try assumption; set_solver.
Qed.

Lemma process_data_consistent (w : WT) u ok :
  consistent w -> consistent (_process_data w u ok).
Proof.
  intros Hw. unfold Writer._process_data.
  destruct (writers w !! device_of u) as [rows |] eqn:Hd; [| exact Hw].
  destruct (writer_states w !! device_of u) as [st |]; [| exact Hw].
  case_bool_decide; [exact Hw |].
  assert (Hin : device_of u ∈ dom (writers w)) by (apply elem_of_dom; eauto).
  destruct Hw as (Hc & Hst & Ht).
  destruct ok; cbn.
  - destruct (writer_stats w !! device_of u) as [s |]; unfold consistent; cbn;
      rewrite !dom_insert_L, ?Hc, ?Hst, ?Ht; repeat split; set_solver.
  - unfold consistent; cbn. rewrite !dom_insert_L, ?Hc, ?Hst, ?Ht.
    repeat split; set_solver.
Qed.

Lemma finalize_writer_consistent (w : WT) d now :
  consistent w -> consistent (_finalize_writer w d now).
Proof.
  intros Hw. unfold _finalize_writer.
  destruct (writers w !! d) as [rows |] eqn:Hd; [| exact Hw].
  destruct (consistent_lookup w d Hw) as ([c Hc] & [s Hs] & [t Ht]); [eauto |].
  rewrite Hc, Ht. cbn. rewrite Hs.
  destruct Hw as (Hdc & Hds & Hdt). unfold consistent. cbn.
  rewrite !dom_delete_L, Hdc, Hds, Hdt. auto.
Qed.

Lemma foldl_finalize_consistent (l : list K) (w : WT) now :
  consistent w -> consistent (foldl (fun w d => _finalize_writer w d now) w l).
Proof.
  revert w. induction l as [| d l IH]; intros w Hw; cbn; [exact Hw |].
  apply IH, finalize_writer_consistent, Hw.
Qed.

Lemma run_iteration_consistent (w : WT) ok now :
  consistent w -> consistent (run_iteration w ok now).
Proof.
  intros Hw. unfold Writer.run_iteration.
  destruct (data_queue w) as [| u q].
  - apply foldl_finalize_consistent, Hw.
  - apply process_data_consistent. exact Hw.
Qed.

Lemma stop_thread_consistent (w : WT) :
  consistent w -> consistent (stop_thread w).
Proof.
  intros Hw. unfold stop_thread.
  assert (Hgen : forall (l : list K) (w1 : WT),
    consistent w1 -> Forall (fun d => d ∈ dom (writers w1)) l ->
    consistent
      (foldl (fun w d => set_states (<[d := STOPPING]> (writer_states w)) w) w1 l)).
  { induction l as [| d l IH]; intros w1 Hw1 Hl; cbn; [exact Hw1 |].
    inversion Hl as [| ? ? Hd Hl']; subst.
    apply IH; [| exact Hl'].
    destruct Hw1 as (Hc & Hs & Ht). unfold consistent. cbn.
    rewrite dom_insert_L, Hs. repeat split; try assumption; set_solver. }
  apply Hgen; [exact Hw |]. cbn.
  apply Forall_forall. intros d Hd.
  apply list_elem_of_fmap in Hd as ([d' rows] & -> & Hd).
  apply elem_of_map_to_list in Hd. apply elem_of_dom. eauto.
Qed.

Lemma apply_op_consistent (w : WT) (op : Op K U) :
  consistent w -> consistent (apply_op w op).
Proof.
  intros Hw. destruct op; cbn.
  - apply start_writer_consistent, Hw.
  - apply stop_writer_consistent, Hw.
  - apply add_data_consistent, Hw.
  - apply run_iteration_consistent, Hw.
  - apply stop_thread_consistent, Hw.
  - apply foldl_finalize_consistent, Hw.
Qed.

(** ** [start_writer] and the single job of a device *)

(** C4. [start_writer] fails when the device already has a job and leaves
    the thread as it is; a second [start_writer] for the same device with
    no [stop_writer] in between returns failure and the device keeps the
    one job of the first call; every operation of the writer keeps the
    four per-device dictionaries on the same set of devices, so that a
    device has one job or none. *)
Theorem one_job_per_device :
  (forall (w : WT) d now ok,
     has_writer w d = true -> start_writer w d now ok = (false, w)) /\
  (forall (w : WT) d now now' ok',
     has_writer w d = false ->
     let w1 := (start_writer w d now true).2 in
     (start_writer w d now true).1 = true /\
     start_writer w1 d now' ok' = (false, w1) /\
     writers w1 !! d = Some [] /\
     writer_states w1 !! d = Some WRITING /\
     writer_stats w1 !! d = Some (mkStats now 0 0 None)) /\
  (forall (w : WT) (op : Op K U), consistent w -> consistent (apply_op w op)) /\
  (forall n, consistent (init n : WT)).
Proof.
  split; [| split; [| split]].
  - intros w d now ok Hd. unfold start_writer. now rewrite Hd.
  - intros w d now now' ok' Hd. cbn zeta.
    assert (Hs : exists w1, start_writer w d now true = (true, w1) /\
                   writers w1 = <[d := []]> (writers w) /\
                   writer_states w1 = <[d := WRITING]> (writer_states w) /\
                   writer_stats w1 = <[d := mkStats now 0 0 None]> (writer_stats w)).
    { unfold start_writer. rewrite Hd. eexists. split; [reflexivity |]. cbn. auto. }
    destruct Hs as (w1 & -> & Hw & Hst & Hstat). cbn [fst snd].
    split; [reflexivity |]. rewrite Hw, Hst, Hstat, !lookup_insert_eq.
    split; [| auto].
    unfold start_writer.
    replace (has_writer w1 d) with true; [reflexivity |].
    symmetry. apply has_writer_true. rewrite Hw, lookup_insert_eq. eauto.
  - apply apply_op_consistent.
  - apply init_consistent.
Qed.

(** ** [add_data]: rejection, enqueueing, drop on a full queue *)

Lemma add_data_full (w : WT) (u : U) (s : Stats) :
  is_Some (writers w !! device_of u) ->
  writer_states w !! device_of u = Some WRITING ->
  queue_full w = true ->
  writer_stats w !! device_of u = Some s ->
  add_data w u =
    (Ok false, set_stats (<[device_of u := drop_one s]> (writer_stats w)) w).
Proof.
  intros Hd Hst Hfull Hs. unfold Writer.add_data.
  replace (has_writer w (device_of u)) with true
    by (symmetry; now apply has_writer_true).
  rewrite Hst. rewrite bool_decide_eq_true_2 by reflexivity.
  rewrite Hfull, Hs. reflexivity.
Qed.

Lemma add_all_full (us : list U) (d : K) : forall (w : WT) (s : Stats),
  Forall (fun u => device_of u = d) us ->
  is_Some (writers w !! d) ->
  writer_states w !! d = Some WRITING ->
  queue_full w = true ->
  writer_stats w !! d = Some s ->
  data_queue (add_all w us) = data_queue w /\
  writer_stats (add_all w us) !! d =
    Some (mkStats (start_time s) (data_count s)
            (dropped_data s + Z.of_nat (length us)) (last_data_time s)).
Proof.
  induction us as [| u us IH]; intros w s Hus Hd Hst Hfull Hs.
  - cbn. split; [reflexivity |]. rewrite Hs. destruct s; cbn.
    do 2 f_equal. lia.
  - inversion Hus as [| ? ? Hu Hus']; subst. unfold add_all. cbn [foldl].
    rewrite (add_data_full w u s) by assumption. cbn [snd].
    destruct (IH (set_stats (<[device_of u := drop_one s]> (writer_stats w)) w)
                (drop_one s)) as [Hq Hcount]; try assumption.
    { cbn. apply lookup_insert_eq. }
    unfold add_all in Hq, Hcount. rewrite Hq, Hcount. cbn.
    split; [reflexivity |]. do 2 f_equal. lia.
Qed.

(** C3. A unit whose device has no job, or whose job is not in state
    WRITING, is rejected and nothing changes.  Otherwise it is appended
    to the queue when there is room; when the queue is full it is
    dropped, the queue is unchanged and the dropped-count of its device
    grows by one, so that [n] rejected enqueues add [n] to it.  Every case
    returns at once: no branch waits for room in the queue. *)
Theorem add_data_backpressure (w : WT) (u : U) :
  (writers w !! device_of u = None -> add_data w u = (Ok false, w)) /\
  (forall st,
     is_Some (writers w !! device_of u) ->
     writer_states w !! device_of u = Some st -> st <> WRITING ->
     add_data w u = (Ok false, w)) /\
  (is_Some (writers w !! device_of u) ->
   writer_states w !! device_of u = Some WRITING ->
   queue_full w = false ->
   add_data w u = (Ok true, set_queue (data_queue w ++ [u]) w)) /\
  (forall s,
     is_Some (writers w !! device_of u) ->
     writer_states w !! device_of u = Some WRITING ->
     queue_full w = true ->
     writer_stats w !! device_of u = Some s ->
     add_data w u =
       (Ok false, set_stats (<[device_of u := drop_one s]> (writer_stats w)) w)) /\
  (forall s us,
     Forall (fun u' => device_of u' = device_of u) us ->
     is_Some (writers w !! device_of u) ->
     writer_states w !! device_of u = Some WRITING ->
     queue_full w = true ->
     writer_stats w !! device_of u = Some s ->
     data_queue (add_all w us) = data_queue w /\
     writer_stats (add_all w us) !! device_of u =
       Some (mkStats (start_time s) (data_count s)
               (dropped_data s + Z.of_nat (length us)) (last_data_time s))).
Proof.
  split; [| split; [| split; [| split]]].
  - intros Hd. unfold Writer.add_data.
    replace (has_writer w (device_of u)) with false
      by (symmetry; now apply has_writer_false).
    reflexivity.
  - intros st Hd Hst Hne. unfold Writer.add_data.
    replace (has_writer w (device_of u)) with true
      by (symmetry; now apply has_writer_true).
    rewrite Hst. rewrite bool_decide_eq_false_2 by exact Hne. reflexivity.
  - intros Hd Hst Hfull. unfold Writer.add_data.
    replace (has_writer w (device_of u)) with true
      by (symmetry; now apply has_writer_true).
    rewrite Hst. rewrite bool_decide_eq_true_2 by reflexivity.
    rewrite Hfull. reflexivity.
  - intros s. apply add_data_full.
  - intros s us Hus Hd Hst Hfull Hs. now apply add_all_full.
Qed.

(** ** Stopping a writer: the queue is drained, then the job is finalized *)

Lemma process_data_frame (w : WT) u ok :
  data_queue (_process_data w u ok) = data_queue w /\
  closed_files (_process_data w u ok) = closed_files w /\
  should_stop (_process_data w u ok) = should_stop w.
Proof.
  unfold Writer._process_data.
  destruct (writers w !! device_of u); [| auto].
  destruct (writer_states w !! device_of u); [| auto].
  case_bool_decide; [auto |].
  destruct ok; cbn; [| auto].
  destruct (writer_stats w !! device_of u); cbn; auto.
Qed.

(** A unit of a device whose job is stopping is taken and not written. *)
Lemma process_data_stopping_skip (w : WT) u ok :
  writer_states w !! device_of u = Some STOPPING ->
  _process_data w u ok = w.
Proof.
  intros Hst. unfold Writer._process_data.
  destruct (writers w !! device_of u); [| reflexivity].
  rewrite Hst. rewrite bool_decide_eq_true_2 by reflexivity. reflexivity.
Qed.

Lemma process_data_keeps_stopping (w : WT) u ok d rows :
  writers w !! d = Some rows ->
  writer_states w !! d = Some STOPPING ->
  writers (_process_data w u ok) !! d = Some rows /\
  writer_states (_process_data w u ok) !! d = Some STOPPING.
Proof.
  intros Hd Hst.
  destruct (decide (device_of u = d)) as [<- | Hne].
  - rewrite process_data_stopping_skip by exact Hst. auto.
  - unfold Writer._process_data.
    destruct (writers w !! device_of u); [| auto].
    destruct (writer_states w !! device_of u); [| auto].
    case_bool_decide; [auto |].
    destruct ok; cbn.
    + destruct (writer_stats w !! device_of u); cbn;
        rewrite ?lookup_insert_ne by exact Hne; auto.
    + rewrite ?lookup_insert_ne by exact Hne. auto.
Qed.

Lemma finalize_writer_frame (w : WT) d now :
  data_queue (_finalize_writer w d now) = data_queue w /\
  should_stop (_finalize_writer w d now) = should_stop w /\
  exists l, closed_files (_finalize_writer w d now) = closed_files w ++ l.
Proof.
  unfold _finalize_writer.
  destruct (writers w !! d) as [rows |]; cbn.
  2:{ repeat split. exists []. now rewrite app_nil_r. }
  destruct (writer_configs w !! d); cbn.
  2:{ repeat split. exists []. now rewrite app_nil_r. }
  destruct (writer_stats w !! d); cbn.
  2:{ repeat split. exists []. now rewrite app_nil_r. }
  destruct (writer_states w !! d); cbn; repeat split; eauto.
Qed.

Lemma finalize_writer_self (w : WT) d now rows :
  consistent w -> writers w !! d = Some rows ->
  writers (_finalize_writer w d now) !! d = None /\
  closed_files (_finalize_writer w d now) = closed_files w ++ [(d, rows)].
Proof.
  intros Hw Hd. unfold _finalize_writer.
  destruct (consistent_lookup w d Hw) as ([c Hc] & [s Hs] & [t Ht]); [eauto |].
  rewrite Hd, Hc, Ht. cbn. rewrite Hs. cbn.
  rewrite lookup_delete_eq. auto.
Qed.

Lemma finalize_writer_other (w : WT) d d' now :
  d <> d' ->
  writers (_finalize_writer w d' now) !! d = writers w !! d.
Proof.
  intros Hne. unfold _finalize_writer.
  destruct (writers w !! d'); [| reflexivity].
  destruct (writer_configs w !! d'); [| reflexivity].
  destruct (writer_stats w !! d'); [| reflexivity]. cbn.
  destruct (writer_states w !! d'); cbn;
    rewrite lookup_delete_ne by congruence; reflexivity.
Qed.

Lemma finalize_writer_None (w : WT) d d' now :
  writers w !! d = None -> writers (_finalize_writer w d' now) !! d = None.
Proof.
  intros Hd. destruct (decide (d = d')) as [<- | Hne].
  - unfold _finalize_writer. rewrite Hd. exact Hd.
  - rewrite finalize_writer_other by exact Hne. exact Hd.
Qed.

Lemma foldl_finalize_frame (l : list K) now : forall (w : WT),
  let w' := foldl (fun w d => _finalize_writer w d now) w l in
  data_queue w' = data_queue w /\
  should_stop w' = should_stop w /\
  exists l1, closed_files w' = closed_files w ++ l1.
Proof.
  induction l as [| d' l IH]; intros w; cbn.
  - repeat split. exists []. now rewrite app_nil_r.
  - destruct (IH (_finalize_writer w d' now)) as (Hq & Hs & l1 & Hc).
    destruct (finalize_writer_frame w d' now) as (Hq' & Hs' & l0 & Hc').
    cbn zeta in Hq, Hs, Hc. rewrite Hq, Hs, Hc, Hq', Hs', Hc'.
    repeat split. exists (l0 ++ l1). now rewrite app_assoc.
Qed.

Lemma foldl_finalize_None (l : list K) now d : forall (w : WT),
  writers w !! d = None ->
  writers (foldl (fun w d => _finalize_writer w d now) w l) !! d = None.
Proof.
  induction l as [| d' l IH]; intros w Hd; cbn; [exact Hd |].
  apply IH, finalize_writer_None, Hd.
Qed.

Lemma foldl_finalize_closes (l : list K) now d rows : forall (w : WT),
  consistent w -> d ∈ l -> writers w !! d = Some rows ->
  let w' := foldl (fun w d => _finalize_writer w d now) w l in
  writers w' !! d = None /\
  exists l1, closed_files w' = closed_files w ++ l1 /\ In (d, rows) l1.
Proof.
  induction l as [| d' l IH]; intros w Hw Hin Hd; [inversion Hin |].
  cbn. destruct (decide (d = d')) as [<- | Hne].
  - destruct (finalize_writer_self w d now rows Hw Hd) as [Hnone Hclosed].
    split; [apply foldl_finalize_None, Hnone |].
    destruct (foldl_finalize_frame l now (_finalize_writer w d now))
      as (_ & _ & l1 & Hc).
    cbn zeta in Hc. rewrite Hc, Hclosed, <- app_assoc.
    eexists. split; [reflexivity |]. now left.
  - apply elem_of_cons in Hin as [-> | Hin]; [contradiction |].
    destruct (IH (_finalize_writer w d' now)) as (Hnone & l1 & Hc & Hl1).
    + apply finalize_writer_consistent, Hw.
    + exact Hin.
    + rewrite finalize_writer_other by exact Hne. exact Hd.
    + split; [exact Hnone |].
      destruct (finalize_writer_frame w d' now) as (_ & _ & l0 & Hc0).
      rewrite Hc, Hc0, <- app_assoc.
      eexists. split; [reflexivity |]. apply in_app_iff. now right.
Qed.

Lemma stopping_writers_elem (w : WT) (d : K) :
  writer_states w !! d = Some STOPPING -> d ∈ stopping_writers w.
Proof.
  intros Hst. unfold stopping_writers.
  apply list_elem_of_fmap. exists (d, STOPPING). split; [reflexivity |].
  apply elem_of_map_to_list, map_lookup_filter_Some. auto.
Qed.

Lemma run_drains_then_finalizes (oks : list bool) now d rows : forall (w : WT),
  consistent w -> should_stop w = false ->
  writers w !! d = Some rows ->
  writer_states w !! d = Some STOPPING ->
  length oks = S (length (data_queue w)) ->
  data_queue (run w oks now) = [] /\
  writers (run w oks now) !! d = None /\
  exists l1, closed_files (run w oks now) = closed_files w ++ l1 /\ In (d, rows) l1.
Proof.
  induction oks as [| ok oks IH]; intros w Hw Hstop Hd Hst Hlen; [discriminate |].
  cbn [Writer.run]. rewrite Hstop. unfold Writer.run_iteration.
  destruct (data_queue w) as [| u q] eqn:Hq.
  - destruct oks; [| discriminate]. cbn [Writer.run].
    destruct (foldl_finalize_frame (stopping_writers w) now w) as (Hq' & _ & _).
    destruct (foldl_finalize_closes (stopping_writers w) now d rows w Hw)
      as (Hnone & l1 & Hc & Hl1); [now apply stopping_writers_elem | exact Hd |].
    unfold _check_stopping_writers. cbn zeta in *.
    rewrite Hq', Hq. eauto.
  - set (w1 := _process_data (set_queue q w) u ok).
    destruct (process_data_frame (set_queue q w) u ok) as (Hq1 & Hc1 & Hs1).
    destruct (process_data_keeps_stopping (set_queue q w) u ok d rows Hd Hst)
      as [Hd1 Hst1].
    destruct (IH w1) as (Hqf & Hnone & l1 & Hc & Hl1).
    + apply process_data_consistent. exact Hw.
    + unfold w1. rewrite Hs1. exact Hstop.
    + exact Hd1.
    + exact Hst1.
    + unfold w1. rewrite Hq1. cbn in *. lia.
    + repeat split; try assumption.
      exists l1. split; [| exact Hl1]. rewrite Hc. unfold w1. rewrite Hc1. reflexivity.
Qed.


End Facts.

End WriterFacts.

(** ** The IMU writer on a concrete session *)

Module IMUWriterFacts.
Import Writer IMUWriter.

Lemma started_consistent (n : Z) : consistent (started n).
Proof.
  unfold started. apply WriterFacts.start_writer_consistent.
  apply WriterFacts.init_consistent.
Qed.

Lemma two_queued_consistent (n : Z) : consistent (two_queued n).
Proof.
  unfold two_queued, add_data.
  do 2 apply (WriterFacts.add_data_consistent device_address timestamp).
  apply started_consistent.
Qed.

Lemma one_job_per_device_witness :
  Writer.start_writer (started 1000) "AA:BB" 7 true = (false, started 1000) /\
  writers (started 1000) !! "AA:BB" = Some [] /\
  consistent (apply_op (started 1000) (OpAdd (sample 1))).
Proof.
  split; [| split].
  - apply (proj1 (WriterFacts.one_job_per_device device_address timestamp)).
    vm_compute. reflexivity.
  - apply (proj1 (proj2 (WriterFacts.one_job_per_device device_address timestamp))
             (init 1000) "AA:BB" 0 7 true).
    vm_compute. reflexivity.
  - apply (proj1 (proj2 (proj2
      (WriterFacts.one_job_per_device device_address timestamp)))).
    apply started_consistent.
Defined.

Lemma add_data_backpressure_witness :
  add_data (init 2) (sample 1) = (Ok false, init 2) /\
  (add_data (started 2) (sample 1)).1 = Ok true /\
  (add_data (two_queued 2) (sample 3)).1 = Ok false /\
  data_queue (Writer.add_all device_address (two_queued 2) [sample 3; sample 4])
    = [sample 1; sample 2] /\
  dropped_data <$>
    (writer_stats
       (Writer.add_all device_address (two_queued 2) [sample 3; sample 4])
     !! "AA:BB") = Some 2.
Proof.
  pose proof (WriterFacts.add_data_backpressure device_address (init 2) (sample 1))
    as (Hnone & _).
  pose proof (WriterFacts.add_data_backpressure device_address (started 2) (sample 1))
    as (_ & _ & Hroom & _).
  pose proof (WriterFacts.add_data_backpressure device_address (two_queued 2) (sample 3))
    as (_ & _ & _ & Hfull & Hmany).
  split; [| split; [| split]].
  - apply Hnone. vm_compute. reflexivity.
  - unfold add_data. rewrite Hroom; [reflexivity | | |].
    + exists []. vm_compute. reflexivity.
    + vm_compute. reflexivity.
    + vm_compute. reflexivity.
  - unfold add_data. rewrite (Hfull (mkStats 0 0 0 None)); [reflexivity | | | |].
    + exists []. vm_compute. reflexivity.
    + vm_compute. reflexivity.
    + vm_compute. reflexivity.
    + vm_compute. reflexivity.
  - destruct (Hmany (mkStats 0 0 0 None) [sample 3; sample 4]) as [Hq Hs].
    + repeat constructor.
    + exists []. vm_compute. reflexivity.
    + vm_compute. reflexivity.
    + vm_compute. reflexivity.
    + vm_compute. reflexivity.
    + split; [rewrite Hq; vm_compute; reflexivity |].
      change (device_address (sample 3)) with "AA:BB" in Hs. rewrite Hs. reflexivity.
Defined.



End IMUWriterFacts.

(* ===================================================================== *)
(** * Facts about the device managers *)
(* ===================================================================== *)

Module IMUManagerFacts.
Import IMUManager.

(** ** The reconnection loop *)

Lemma manual_flag_update (m : Manager) (a b : string) (f : IMUDevice -> IMUDevice) :
  (forall d, manual_disconnect (f d) = manual_disconnect d) ->
  manual_flag (update_device b f m) a = manual_flag m a.
Proof.
  intros Hf. unfold manual_flag, update_device. cbn.
  destruct (decide (b = a)) as [-> | Hne].
  - rewrite lookup_alter_eq. destruct (devices m !! a); cbn; [apply Hf | reflexivity].
  - rewrite lookup_alter_ne by exact Hne. reflexivity.
Qed.





Lemma callback_manual (m : Manager) (a : string) :
  manual_flag m a = true -> disconnected_callback m a =
    (false, notify (on_device_disconnected a)
              (update_device a (fun d => set_client false (set_state DISCONNECTED d)) m)).
Proof.
  intros Hflag. unfold disconnected_callback.
  replace (manual_flag _ a) with true; [reflexivity |].
  symmetry. rewrite <- Hflag.
  apply (manual_flag_update m a a). reflexivity.
Qed.



(** ** Scanning *)








(** With every attempt failing the task uses all its attempts, each after
    a sleep of the configured delay. *)
Example reconnect_exhausts :
  (_reconnect_device_task example_manager "CC:DD" failing_env).1.2 =
    [Sleep (2 # 1)%Q; Attempt "CC:DD" false;
     Sleep (2 # 1)%Q; Attempt "CC:DD" false;
     Sleep (2 # 1)%Q; Attempt "CC:DD" false] /\
  (_reconnect_device_task example_manager "CC:DD" failing_env).2 = RetriesExhausted.
Proof. vm_compute. split; reflexivity. Qed.

End IMUManagerFacts.

Module ConnectFacts.

Lemma camera_count_insert_disconnected (m : CameraManager.Manager) (i : Z)
    (c : CameraManager.CameraDevice) :
  CameraManager.cameras m !! i = None ->
  CameraManager.state c = CameraManager.DISCONNECTED ->
  CameraManager.connected_count
    (CameraManager.set_cameras (<[i := c]> (CameraManager.cameras m)) m)
  = CameraManager.connected_count m.
Proof.
  intros Hnone Hstate. unfold CameraManager.connected_count. cbn.
  f_equal. apply Permutation_length.
  rewrite map_to_list_insert by exact Hnone.
  rewrite filter_cons_False; [reflexivity |].
  cbn. rewrite Hstate. intros [? | ?]; discriminate.
Qed.

(** C7. [connect_device] (IMU) and [connect_camera] return success and
    change nothing when the device is already CONNECTED, return failure
    and change nothing when it is CONNECTING, and return failure when the
    number of connected devices has reached the configured maximum (for a
    device that is not itself connected); in that case no record known
    before the call is changed. *)
Theorem connect_guards :
  (forall m a dev o,
     IMUManager.devices m !! a = Some dev ->
     IMUManager.state dev = IMUManager.CONNECTED ->
     IMUManager.connect_device m a o = (Some true, m)) /\
  (forall m a dev o,
     IMUManager.devices m !! a = Some dev ->
     IMUManager.state dev = IMUManager.CONNECTING ->
     IMUManager.connect_device m a o = (Some false, m)) /\
  (forall m a o,
     IMUManager.max_devices m <= IMUManager.connected_count m ->
     (forall dev, IMUManager.devices m !! a = Some dev ->
                  IMUManager.state dev <> IMUManager.CONNECTED) ->
     IMUManager.connect_device m a o = (Some false, m)) /\
  (forall m i dev w h f o,
     CameraManager.cameras m !! i = Some dev ->
     CameraManager.state dev = CameraManager.CONNECTED ->
     CameraManager.connect_camera m i w h f o = (true, m)) /\
  (forall m i dev w h f o,
     CameraManager.cameras m !! i = Some dev ->
     CameraManager.state dev = CameraManager.CONNECTING ->
     CameraManager.connect_camera m i w h f o = (false, m)) /\
  (forall m i w h f o,
     CameraManager.max_cameras m <= CameraManager.connected_count m ->
     (forall dev, CameraManager.cameras m !! i = Some dev ->
                  CameraManager.state dev <> CameraManager.CONNECTED) ->
     (CameraManager.connect_camera m i w h f o).1 = false /\
     forall i' dev',
       CameraManager.cameras m !! i' = Some dev' ->
       CameraManager.cameras (CameraManager.connect_camera m i w h f o).2 !! i'
         = Some dev').
Proof.
  split; [| split; [| split; [| split; [| split]]]].
  - intros m a dev o Hdev Hst. unfold IMUManager.connect_device.
    rewrite Hdev. now rewrite bool_decide_eq_true_2.
  - intros m a dev o Hdev Hst. unfold IMUManager.connect_device.
    rewrite Hdev. rewrite bool_decide_eq_false_2 by (rewrite Hst; discriminate).
    now rewrite bool_decide_eq_true_2.
  - intros m a o Hmax Hnot. unfold IMUManager.connect_device.
    destruct (IMUManager.devices m !! a) as [dev |] eqn:Hdev; [| reflexivity].
    rewrite bool_decide_eq_false_2 by (now apply Hnot).
    case_bool_decide; [reflexivity |].
    replace (IMUManager.max_devices m <=? IMUManager.connected_count m) with true
      by (symmetry; now apply Z.leb_le).
    reflexivity.
  - intros m i dev w h f o Hdev Hst. unfold CameraManager.connect_camera.
    rewrite Hdev. cbn zeta. rewrite Hdev. now rewrite bool_decide_eq_true_2.
  - intros m i dev w h f o Hdev Hst. unfold CameraManager.connect_camera.
    rewrite Hdev. cbn zeta. rewrite Hdev.
    rewrite bool_decide_eq_false_2 by (rewrite Hst; discriminate).
    now rewrite bool_decide_eq_true_2.
  - intros m i w h f o Hmax Hnot. unfold CameraManager.connect_camera.
    destruct (CameraManager.cameras m !! i) as [dev |] eqn:Hdev.
    + cbn zeta. rewrite Hdev.
      rewrite bool_decide_eq_false_2 by (now apply Hnot).
      replace (CameraManager.max_cameras m <=? CameraManager.connected_count m)
        with true by (symmetry; now apply Z.leb_le).
      case_bool_decide; cbn; auto.
    + cbn zeta. cbn [CameraManager.cameras CameraManager.set_cameras].
      rewrite lookup_insert_eq.
      rewrite bool_decide_eq_false_2 by discriminate.
      rewrite bool_decide_eq_false_2 by discriminate.
      rewrite camera_count_insert_disconnected by (exact Hdev || reflexivity).
      replace (CameraManager.max_cameras _ <=? CameraManager.connected_count m)
        with true by (symmetry; now apply Z.leb_le).
      cbn. split; [reflexivity |].
      intros i' dev' Hdev'. rewrite lookup_insert_ne; [exact Hdev' | congruence].
Qed.

Lemma connect_guards_witness :
  IMUManager.connect_device IMUManager.example_manager "AA:BB"
    (IMUManager.ConnectOk 5) = (Some true, IMUManager.example_manager) /\
  (CameraManager.connect_camera CameraManager.full_manager 1 None None None
     (CameraManager.Opened 640 480 (30 # 1)%Q 5)).1 = false /\
  CameraManager.cameras
    (CameraManager.connect_camera CameraManager.full_manager 1 None None None
       (CameraManager.Opened 640 480 (30 # 1)%Q 5)).2 !! 0
    = Some CameraManager.connected_camera.
Proof.
  split; [| split].
  - apply (proj1 connect_guards IMUManager.example_manager "AA:BB"
             IMUManager.known_imu); reflexivity.
  - apply (proj2 (proj2 (proj2 (proj2 (proj2 connect_guards))))).
    + vm_compute. discriminate.
    + intros dev Hdev. vm_compute in Hdev. discriminate.
  - apply (proj2 (proj2 (proj2 (proj2 (proj2 connect_guards))))).
    + vm_compute. discriminate.
    + intros dev Hdev. vm_compute in Hdev. discriminate.
    + reflexivity.
Defined.

End ConnectFacts.

(* ===================================================================== *)
(** * Facts about the process supervisor *)
(* ===================================================================== *)

Module ProcessFacts.
Import ProcessManager.

(** [send_command] on a running process whose handle has a pipe succeeds
    exactly when the write does; other processes are not touched. *)
Lemma send_command_running (ps : Processes) pid info msg write_ok :
  ps !! pid = Some info -> status info = RUNNING ->
  (forall p, process info = Some p -> is_Some (stdin p)) ->
  ((send_command ps pid msg write_ok).1 = true <-> accepts write_ok pid info) /\
  (forall j, j <> pid -> (send_command ps pid msg write_ok).2 !! j = ps !! j).
Proof.
  intros Hinfo Hrun Hpipe. unfold send_command, accepts. rewrite Hinfo.
  rewrite bool_decide_eq_true_2 by exact Hrun.
  destruct (process info) as [[sin] |] eqn:Hproc.
  - destruct (Hpipe _ eq_refl) as [lines Hlines]. cbn in Hlines.
    subst sin. cbn. destruct (write_ok pid) eqn:Hw; cbn.
    + split; [| intros j Hj; rewrite lookup_insert_ne; [reflexivity | congruence]].
      split; [intros _ | reflexivity]. repeat split; eauto.
    + split; [| reflexivity].
      split; [discriminate | intros (_ & _ & ?); discriminate].
  - cbn. split; [| reflexivity].
    split; [discriminate | intros (_ & [lines ?] & _); discriminate].
Qed.

Lemma lookup_insert_fresh_Some (sub : Processes) i x pid info :
  sub !! i = None ->
  (<[i := x]> sub !! pid = Some info <->
   (pid = i /\ info = x) \/ (pid <> i /\ sub !! pid = Some info)).
Proof.
  intros Hnone. destruct (decide (pid = i)) as [-> | Hne].
  - rewrite lookup_insert_eq. split.
    + intros Heq. inversion Heq. now left.
    + intros [[_ ->] | [Hc _]]; [reflexivity | contradiction].
  - rewrite lookup_insert_ne by congruence. split.
    + intros Heq. now right.
    + intros [[Hc _] | [_ Heq]]; [contradiction | exact Heq].
Qed.

Lemma broadcast_fold (ps : Processes) (msg : Message) (write_ok : string -> bool) :
  piped ps ->
  forall sub : Processes, sub ⊆ ps ->
    let '(success_count, total_running, ps') :=
      map_fold (broadcast_step msg write_ok) (0, 0, ps) sub in
    0 <= success_count /\ 0 <= total_running /\
    (total_running = 0 <->
       forall pid info, sub !! pid = Some info -> status info <> RUNNING) /\
    (0 < success_count <->
       exists pid info, sub !! pid = Some info /\ accepts write_ok pid info) /\
    (forall pid, sub !! pid = None -> ps' !! pid = ps !! pid).
Proof.
  intros Hpiped sub.
  apply (map_fold_weak_ind
    (fun (acc : Z * Z * Processes) (sub : Processes) =>
       sub ⊆ ps ->
       let '(success_count, total_running, ps') := acc in
       0 <= success_count /\ 0 <= total_running /\
       (total_running = 0 <->
          forall pid info, sub !! pid = Some info -> status info <> RUNNING) /\
       (0 < success_count <->
          exists pid info, sub !! pid = Some info /\ accepts write_ok pid info) /\
       (forall pid, sub !! pid = None -> ps' !! pid = ps !! pid))).
  - intros _. split; [lia |]. split; [lia |]. split; [| split].
    + split; [| reflexivity].
      intros _ pid info Hl. rewrite lookup_empty in Hl. discriminate.
    + split; [lia |].
      intros (pid & info & Hl & _). rewrite lookup_empty in Hl. discriminate.
    + reflexivity.
  - clear sub. intros i x sub [[sc tr] acc] Hnone IH Hsub.
    assert (Hps : ps !! i = Some x).
    { eapply map_subseteq_spec; [exact Hsub |]. apply lookup_insert_eq. }
    assert (Hsub' : sub ⊆ ps).
    { apply map_subseteq_spec. intros j y Hj.
      eapply map_subseteq_spec; [exact Hsub |].
      rewrite lookup_insert_ne; [exact Hj | congruence]. }
    destruct (IH Hsub') as (Hsc & Htr & Hzero & Hpos & Hkeep).
    assert (Hacc : acc !! i = Some x) by (rewrite Hkeep by exact Hnone; exact Hps).
    unfold broadcast_step.
    destruct (decide (status x = RUNNING)) as [Hrun | Hrun].
    + rewrite bool_decide_eq_true_2 by exact Hrun.
      destruct (send_command_running acc i x msg write_ok Hacc Hrun)
        as [Hsent Hother].
      { intros p Hp. eapply Hpiped; eauto. }
      destruct (send_command acc i msg write_ok) as [sent acc'] eqn:Hsend.
      cbn [fst snd] in Hsent, Hother.
      split; [destruct sent; lia |]. split; [lia |]. split; [| split].
      * split; [lia |]. intros Hall. exfalso.
        apply (Hall i x); [apply lookup_insert_eq | exact Hrun].
      * split.
        -- intros Hlt. destruct sent.
           ++ exists i, x. split; [apply lookup_insert_eq | now apply Hsent].
           ++ apply Hpos in Hlt as (pid & info & Hl & Hacpt).
              exists pid, info. split; [| exact Hacpt].
              apply lookup_insert_fresh_Some; [exact Hnone |].
              right. split; [congruence | exact Hl].
        -- intros (pid & info & Hl & Hacpt).
           apply lookup_insert_fresh_Some in Hl as [[-> ->] | [Hne Hl]];
             [| | exact Hnone].
           ++ apply Hsent in Hacpt. subst sent. lia.
           ++ assert (0 < sc) by (apply Hpos; eauto). destruct sent; lia.
      * intros pid Hl. apply lookup_insert_None in Hl as [Hl Hne].
        rewrite Hother by congruence. now apply Hkeep.
    + rewrite bool_decide_eq_false_2 by exact Hrun.
      split; [exact Hsc |]. split; [exact Htr |]. split; [| split].
      * rewrite Hzero. split.
        -- intros Hall pid info Hl.
           apply lookup_insert_fresh_Some in Hl as [[-> ->] | [Hne Hl]];
             [exact Hrun | eauto | exact Hnone].
        -- intros Hall pid info Hl. apply (Hall pid info).
           apply lookup_insert_fresh_Some; [exact Hnone |].
           right. split; [congruence | exact Hl].
      * rewrite Hpos. split.
        -- intros (pid & info & Hl & Hacpt). exists pid, info.
           split; [| exact Hacpt].
           apply lookup_insert_fresh_Some; [exact Hnone |].
           right. split; [congruence | exact Hl].
        -- intros (pid & info & Hl & Hacpt).
           apply lookup_insert_fresh_Some in Hl as [[-> ->] | [Hne Hl]];
             [| eauto | exact Hnone].
           destruct Hacpt as [Hr _]. contradiction.
      * intros pid Hl. apply lookup_insert_None in Hl as [Hl Hne].
        now apply Hkeep.
Qed.

(** C8. With every process handle created with a standard-input pipe (as
    [start_process] does), [send_command_to_all] returns failure when no
    tracked process is RUNNING, and returns success exactly when some
    RUNNING process took the written line, whatever the other processes
    do. *)
Theorem broadcast_result (ps : Processes) (msg : Message)
    (write_ok : string -> bool) :
  piped ps ->
  ((forall pid info, ps !! pid = Some info -> status info <> RUNNING) ->
   (send_command_to_all ps msg write_ok).1 = false) /\
  ((send_command_to_all ps msg write_ok).1 = true <->
   exists pid info, ps !! pid = Some info /\ accepts write_ok pid info).
Proof.
  intros Hpiped. pose proof (broadcast_fold ps msg write_ok Hpiped ps) as Hfold.
  unfold send_command_to_all.
  destruct (map_fold (broadcast_step msg write_ok) (0, 0, ps) ps)
    as [[sc tr] ps'].
  destruct Hfold as (Hsc & Htr & Hzero & Hpos & _); [reflexivity |].
  split.
  - intros Hnone. rewrite (proj2 Hzero Hnone). reflexivity.
  - destruct (tr =? 0) eqn:Htr0; cbn [fst].
    + apply Z.eqb_eq in Htr0. split; [discriminate |].
      intros (pid & info & Hl & Hr & _). exfalso.
      exact (proj1 Hzero Htr0 pid info Hl Hr).
    + rewrite <- Hpos. apply Z.ltb_lt.
Qed.

(** The handles created by [start_process] have a pipe. *)
Lemma piped_empty : piped ∅.
Proof. intros pid info p Hl. rewrite lookup_empty in Hl. discriminate. Qed.

Lemma piped_insert (ps : Processes) pid info :
  piped ps ->
  (forall p, process info = Some p -> is_Some (stdin p)) ->
  piped (<[pid := info]> ps).
Proof.
  intros Hps Hinfo j info' p Hl Hp.
  destruct (decide (pid = j)) as [-> | Hne].
  - rewrite lookup_insert_eq in Hl. inversion Hl; subst. now apply Hinfo.
  - rewrite lookup_insert_ne in Hl by exact Hne. eapply Hps; eauto.
Qed.

Lemma start_process_piped (ps : Processes) pid now spawn_ok :
  piped ps -> piped (start_process ps pid now spawn_ok).2.
Proof.
  intros Hps. unfold start_process.
  destruct (ps !! pid) as [info |] eqn:Hinfo; [| exact Hps].
  case_bool_decide; [| exact Hps].
  destruct spawn_ok; cbn; apply piped_insert; try exact Hps; cbn.
  - intros p Hp. inversion Hp; subst. cbn. eauto.
  - intros p Hp. eapply Hps; eauto.
Qed.

Lemma example_processes_piped : piped example_processes.
Proof.
  unfold example_processes.
  repeat apply piped_insert; try apply piped_empty; cbn;
    intros p Hp; inversion Hp; subst; cbn; eauto.
Qed.

Lemma broadcast_result_witness :
  (send_command_to_all example_processes start_recording (fun _ => true)).1 = true /\
  (send_command_to_all (delete "imu_1" example_processes) start_recording
     (fun _ => true)).1 = false.
Proof.
  split.
  - apply (proj2 (broadcast_result example_processes start_recording
                    (fun _ => true) example_processes_piped)).
    eexists "imu_1", _. split; [vm_compute; reflexivity |].
    repeat split; cbn; eauto.
  - assert (Hpiped : piped (delete "imu_1" example_processes)).
    { intros pid info p Hl Hp.
      apply lookup_delete_Some in Hl as [_ Hl].
      eapply example_processes_piped; eauto. }
    apply (proj1 (broadcast_result (delete "imu_1" example_processes)
                    start_recording (fun _ => true) Hpiped)).
    intros pid info Hl. apply lookup_delete_Some in Hl as [Hne Hl].
      unfold example_processes in Hl.
      rewrite lookup_insert_ne in Hl by exact Hne.
    apply lookup_insert_Some in Hl as [[_ <-] | [_ Hl]]; [discriminate |].
    rewrite lookup_empty in Hl. discriminate.
Defined.

(** The broadcast on the example writes the line to the running process
    and to no other. *)
Example broadcast_example :
  let r := send_command_to_all example_processes start_recording (fun _ => true) in
  r.1 = true /\
  (process <$> (r.2 !! "imu_1")) = Some (Some (mkPopen (Some [start_recording]))) /\
  r.2 !! "camera_1" = example_processes !! "camera_1".
Proof. vm_compute. repeat split; reflexivity. Qed.

End ProcessFacts.

(* ===================================================================== *)
(** * Further facts about the decoder and the configuration block *)
(* ===================================================================== *)

Module ProtocolExtra.
Import IMUProtocol ProtocolFacts.

Lemma getitem_at (buf : list Z) (offset b : Z) :
  0 <= offset -> nth_error buf (Z.to_nat offset) = Some b ->
  getitem buf offset = Ok b.
Proof.
  intros Hoff Hnth. rewrite <- (Z2Nat.id offset) by lia. now apply getitem_nth.
Qed.

Lemma nth_error_in_len (buf : list Z) (offset b : Z) :
  0 <= offset -> nth_error buf (Z.to_nat offset) = Some b -> offset < len buf.
Proof.
  intros Hoff Hnth. unfold len.
  assert ((Z.to_nat offset < length buf)%nat) by (apply nth_error_Some; congruence).
  lia.
Qed.

(** X1. On two bytes inside the buffer the 16-bit reader returns the
    two's-complement value of the little-endian pair. *)
Theorem int16_twos_complement (buf : list Z) (offset lo hi : Z) :
  0 <= offset ->
  nth_error buf (Z.to_nat offset) = Some lo ->
  nth_error buf (Z.to_nat (offset + 1)) = Some hi ->
  0 <= lo < 256 -> 0 <= hi < 256 ->
  exists v,
    _parse_int16_from_buffer buf offset = Ok v /\
    -32768 <= v < 32768 /\
    v mod 65536 = lo + 256 * hi.
Proof.
  intros Hoff Hlo Hhi Rlo Rhi. unfold _parse_int16_from_buffer.
  pose proof (nth_error_in_len buf (offset + 1) hi ltac:(lia) Hhi) as Hlen.
  replace (offset + 1 >=? len buf) with false
    by (symmetry; rewrite Z.geb_leb; apply Z.leb_gt; lia).
  rewrite (getitem_at buf (offset + 1) hi), (getitem_at buf offset lo)
    by (assumption || lia).
  cbn [rbind]. rewrite (lor_shiftl_add hi lo 8) by lia.
  change (2 ^ 8) with 256.
  eexists. split; [reflexivity |].
  destruct (hi * 256 + lo >=? 32768) eqn:Hge; rewrite Z.geb_leb in Hge.
  - apply Z.leb_le in Hge. split; [lia |].
    replace (hi * 256 + lo - 65536) with (hi * 256 + lo + (-1) * 65536) by lia.
    rewrite Z.mod_add by lia. rewrite Z.mod_small by lia. lia.
  - apply Z.leb_gt in Hge. split; [lia |]. rewrite Z.mod_small by lia. lia.
Qed.

Lemma int16_twos_complement_witness :
  exists v,
    _parse_int16_from_buffer [0x11; 0xfe; 0xff] 1 = Ok v /\
    -32768 <= v < 32768 /\
    v mod 65536 = 0xfe + 256 * 0xff.
Proof.
  apply (int16_twos_complement [0x11; 0xfe; 0xff] 1 0xfe 0xff);
    try reflexivity; lia.
Defined.




(** ** The configuration block *)

Lemma bytearray_set_ok (i : nat) (v : Z) (ba : list Z) :
  0 <= v < 256 -> bytearray_set i v ba = Some (<[i := v]> ba).
Proof.
  intros Hv. unfold bytearray_set.
  replace ((0 <=? v) && (v <? 256))%bool with true; [reflexivity |].
  symmetry. apply andb_true_iff. split; [apply Z.leb_le | apply Z.ltb_lt]; lia.
Qed.

Lemma land_byte (x : Z) : Z.land x 0xff = x mod 256.
Proof. change 0xff with (Z.ones 8). rewrite Z.land_ones by lia. reflexivity. Qed.

(** X3. For a report rate in 0..255 the configuration sequence is the
    four commands 0x29, 0x46, an 11-byte parameter block and 0x19; the
    block holds bytes only, its tag is 0x12, byte 4 packs the barometer
    filter (two bits) above the compass flag (one bit), byte 5 is the
    report rate and bytes 9-10 are the subscription bitmask, little-endian,
    reduced to 16 bits.  For any other report rate building the block
    fails. *)
Theorem configuration_block
    (is_compass_on barometer_filter report_tag report_rate : Z) :
  (0 <= report_rate < 256 ->
   exists params,
     create_configuration_sequence is_compass_on barometer_filter report_tag
       report_rate = Some [[0x29]; [0x46]; params; [0x19]] /\
     length params = 11%nat /\
     Forall (fun b => 0 <= b < 256) params /\
     nth 0 params 0 = 0x12 /\
     nth 4 params 0 = 2 * (barometer_filter mod 4) + is_compass_on mod 2 /\
     nth 5 params 0 = report_rate /\
     nth 9 params 0 + 256 * nth 10 params 0 = report_tag mod 65536) /\
  (~ 0 <= report_rate < 256 ->
   create_configuration_sequence is_compass_on barometer_filter report_tag
     report_rate = None).
Proof.
  assert (Hpack : Z.lor (Z.shiftl (Z.land barometer_filter 3) 1)
                    (Z.land is_compass_on 1)
                  = 2 * (barometer_filter mod 4) + is_compass_on mod 2).
  { assert (H3 : Z.land barometer_filter 3 = barometer_filter mod 4).
    { change 3 with (Z.ones 2). rewrite Z.land_ones by lia. reflexivity. }
    assert (H1 : Z.land is_compass_on 1 = is_compass_on mod 2).
    { change 1 with (Z.ones 1). rewrite Z.land_ones by lia. reflexivity. }
    rewrite H3, H1.
    pose proof (Z.mod_pos_bound is_compass_on 2 ltac:(lia)).
    rewrite (lor_shiftl_add (barometer_filter mod 4) (is_compass_on mod 2) 1)
      by (change (2 ^ 1) with 2; lia).
    change (2 ^ 1) with 2. lia. }
  assert (Hb4 : 0 <= 2 * (barometer_filter mod 4) + is_compass_on mod 2 < 256).
  { pose proof (Z.mod_pos_bound barometer_filter 4).
    pose proof (Z.mod_pos_bound is_compass_on 2). lia. }
  assert (Hlo : 0 <= report_tag mod 256 < 256) by (apply Z.mod_pos_bound; lia).
  assert (Hhi : 0 <= (report_tag / 256) mod 256 < 256)
    by (apply Z.mod_pos_bound; lia).
  unfold create_configuration_sequence.
  rewrite Hpack, !land_byte, Z.shiftr_div_pow2 by lia. change (2 ^ 8) with 256.
  remember (2 * (barometer_filter mod 4) + is_compass_on mod 2) as b4 eqn:E4.
  remember (report_tag mod 256) as lo eqn:Elo.
  remember ((report_tag / 256) mod 256) as hi eqn:Ehi.
  split.
  - intros Hrate.
    repeat (rewrite bytearray_set_ok by lia; cbn).
    eexists. split; [reflexivity |].
    cbn. split; [reflexivity |].
    split; [repeat constructor; lia |].
    repeat split. subst lo hi.
    pose proof (Z.div_mod report_tag 256 ltac:(lia)).
    pose proof (Z.div_mod (report_tag / 256) 256 ltac:(lia)).
    pose proof (Z.div_mod report_tag 65536 ltac:(lia)).
    pose proof (Z.mod_pos_bound report_tag 65536 ltac:(lia)).
    lia.
  - intros Hrate.
    assert (Hnone : forall ba, bytearray_set 5 report_rate ba = None).
    { intros ba. unfold bytearray_set.
      replace ((0 <=? report_rate) && (report_rate <? 256))%bool with false;
        [reflexivity |].
      symmetry. apply andb_false_iff.
      destruct (Z.leb_spec 0 report_rate); [| now left].
      right. apply Z.ltb_ge. lia. }
    repeat (rewrite bytearray_set_ok by lia; cbn).
    rewrite Hnone. reflexivity.
Qed.

Lemma configuration_block_witness :
  (exists params,
     create_configuration_sequence 0 2 0x0FFF 60
       = Some [[0x29]; [0x46]; params; [0x19]] /\
     length params = 11%nat /\
     Forall (fun b => 0 <= b < 256) params /\
     nth 0 params 0 = 0x12 /\
     nth 4 params 0 = 2 * (2 mod 4) + 0 mod 2 /\
     nth 5 params 0 = 60 /\
     nth 9 params 0 + 256 * nth 10 params 0 = 0x0FFF mod 65536) /\
  create_configuration_sequence 0 2 0x0FFF 256 = None.
Proof.
  split.
  - apply (proj1 (configuration_block 0 2 0x0FFF 60)). lia.
  - apply (proj2 (configuration_block 0 2 0x0FFF 256)). lia.
Defined.

(** The block sent with the default arguments, as
    [_configure_imu_device] uses it. *)
Example default_configuration :
  create_configuration_sequence 0 2 0x0FFF 60 =
    Some [[0x29]; [0x46];
          [0x12; 5; 255; 0; 4; 60; 1; 3; 5; 0xff; 0x0f]; [0x19]].
Proof. vm_compute. reflexivity. Qed.

(** ** The header entries and full packets *)














End ProtocolExtra.

(* ===================================================================== *)
(** * Further facts about the writer threads *)
(* ===================================================================== *)

Module WriterExtra.
Import Writer WriterFacts.

Section Facts.

Context {K : Type} `{Countable K}.
Context {U : Type}.
Variable device_of : U -> K.
Variable timestamp_of : U -> Z.

Abbreviation WT := (WriterThread K U).
Abbreviation add_data := (add_data device_of).
Abbreviation _process_data := (_process_data device_of timestamp_of).
Abbreviation run_iteration := (run_iteration device_of timestamp_of).
Abbreviation run := (run device_of timestamp_of).
Abbreviation apply_op := (apply_op device_of timestamp_of).
Abbreviation units_of := (units_of device_of).

(** ** Processing one unit *)

Lemma process_data_other (w : WT) u ok d :
  device_of u <> d ->
  writers (_process_data w u ok) !! d = writers w !! d /\
  writer_states (_process_data w u ok) !! d = writer_states w !! d /\
  writer_stats (_process_data w u ok) !! d = writer_stats w !! d.
Proof.
  intros Hne. unfold Writer._process_data.
  destruct (writers w !! device_of u); [| auto].
  destruct (writer_states w !! device_of u); [| auto].
  case_bool_decide; [auto |].
  destruct ok; cbn.
  - destruct (writer_stats w !! device_of u); cbn;
      rewrite ?lookup_insert_ne by exact Hne; auto.
  - rewrite ?lookup_insert_ne by exact Hne. auto.
Qed.

Lemma process_data_written (w : WT) u rows st s :
  writers w !! device_of u = Some rows ->
  writer_states w !! device_of u = Some st -> st <> STOPPING ->
  writer_stats w !! device_of u = Some s ->
  writers (_process_data w u true) !! device_of u = Some (rows ++ [u]) /\
  writer_states (_process_data w u true) !! device_of u = Some st /\
  writer_stats (_process_data w u true) !! device_of u =
    Some (mkStats (start_time s) (data_count s + 1) (dropped_data s)
            (Some (timestamp_of u))).
Proof.
  intros Hd Hst Hne Hs. unfold Writer._process_data.
  rewrite Hd, Hst. rewrite bool_decide_eq_false_2 by exact Hne.
  cbn. rewrite Hs. cbn. rewrite !lookup_insert_eq. auto.
Qed.

(** X6. With no write failing, one pass of the loop over the queue
    appends to the output of a device whose job is not stopping exactly
    the queued units of that device, in queue order, after what was
    already written, and adds their number to its sample count. *)
Theorem queue_written_in_order (d : K) (now : Z) : forall (w : WT) rows st s,
  consistent w -> should_stop w = false ->
  writers w !! d = Some rows ->
  writer_states w !! d = Some st -> st <> STOPPING ->
  writer_stats w !! d = Some s ->
  let w' := run w (repeat true (length (data_queue w))) now in
  data_queue w' = [] /\
  writers w' !! d = Some (rows ++ units_of d (data_queue w)) /\
  writer_states w' !! d = Some st /\
  data_count <$> (writer_stats w' !! d) =
    Some (data_count s + Z.of_nat (length (units_of d (data_queue w)))).
Proof.
  intros w. remember (data_queue w) as q eqn:Hq. revert w Hq.
  induction q as [| u q IH]; intros w Hq rows st s Hw Hstop Hd Hst Hne Hs; cbn zeta.
  - cbn. rewrite <- Hq, Hd, Hst, Hs, app_nil_r. cbn.
    repeat split; try reflexivity. do 2 f_equal. lia.
  - cbn [length repeat Writer.run]. rewrite Hstop.
    unfold Writer.run_iteration. rewrite <- Hq.
    set (w0 := set_queue q w).
    destruct (process_data_frame device_of timestamp_of w0 u true)
      as (Hq1 & _ & Hs1).
    assert (Hw1 : consistent (_process_data w0 u true))
      by (apply process_data_consistent; exact Hw).
    destruct (decide (device_of u = d)) as [Heq | Hneq].
    + subst d.
      destruct (process_data_written w0 u rows st s Hd Hst Hne Hs)
        as (Hd1 & Hst1 & Hstat1).
      specialize (IH (_process_data w0 u true) (eq_sym Hq1) _ _ _ Hw1
                    (eq_trans Hs1 Hstop) Hd1 Hst1 Hne Hstat1).
      cbn zeta in IH. destruct IH as (Ha & Hb & Hc & He).
      unfold Writer.units_of. cbn [List.filter].
      rewrite bool_decide_eq_true_2 by reflexivity.
      fold (units_of (device_of u) q).
      rewrite Ha, Hb, Hc, He, <- app_assoc.
      split; [reflexivity |]. split; [reflexivity |]. split; [reflexivity |].
      cbn [data_count length]. rewrite Nat2Z.inj_succ. f_equal. lia.
    + destruct (process_data_other w0 u true d Hneq) as (Hd1 & Hst1 & Hstat1).
      specialize (IH (_process_data w0 u true) (eq_sym Hq1) rows st s Hw1
                    (eq_trans Hs1 Hstop)
                    (eq_trans Hd1 Hd) (eq_trans Hst1 Hst) Hne (eq_trans Hstat1 Hs)).
      cbn zeta in IH. destruct IH as (Ha & Hb & Hc & He).
      unfold Writer.units_of. cbn [List.filter].
      rewrite bool_decide_eq_false_2 by exact Hneq.
      fold (units_of d q). auto.
Qed.

(** ** The sample count *)

Lemma finalize_writer_lookup (w : WT) d d' now :
  writers (_finalize_writer w d' now) !! d = None \/
  (writers (_finalize_writer w d' now) !! d = writers w !! d /\
   (writer_stats (_finalize_writer w d' now) !! d = writer_stats w !! d \/
    writer_stats (_finalize_writer w d' now) !! d = None)).
Proof.
  unfold _finalize_writer.
  destruct (writers w !! d') eqn:Hw; [| right; auto].
  destruct (writer_configs w !! d'); [| right; auto].
  destruct (writer_stats w !! d'); [| right; auto]. cbn.
  destruct (decide (d = d')) as [-> | Hne].
  - left. destruct (writer_states w !! d'); cbn; apply lookup_delete_eq.
  - right. destruct (writer_states w !! d'); cbn;
      rewrite ?lookup_delete_ne by congruence; auto.
Qed.

Lemma finalize_writer_counted (w : WT) d now :
  counted w -> counted (_finalize_writer w d now).
Proof.
  intros Hc d0 rows st Hrows Hst.
  destruct (finalize_writer_lookup w d0 d now) as [Hnone | [Hsame [Hs | Hs]]].
  - rewrite Hnone in Hrows. discriminate.
  - rewrite Hsame in Hrows. rewrite Hs in Hst. eapply Hc; eauto.
  - rewrite Hs in Hst. discriminate.
Qed.

Lemma foldl_finalize_counted (l : list K) (w : WT) now :
  counted w -> counted (foldl (fun w d => _finalize_writer w d now) w l).
Proof.
  revert w. induction l as [| d l IH]; intros w Hw; cbn; [exact Hw |].
  apply IH, finalize_writer_counted, Hw.
Qed.

Lemma foldl_set_stopping_frame (l : list K) : forall (w : WT),
  let w' :=
    foldl (fun w d => set_states (<[d := STOPPING]> (writer_states w)) w) w l in
  writers w' = writers w /\ writer_stats w' = writer_stats w /\
  writer_configs w' = writer_configs w /\
  data_queue w' = data_queue w /\ queue_size w' = queue_size w /\
  should_stop w' = should_stop w /\ closed_files w' = closed_files w /\
  (forall d, d ∈ l -> writer_states w' !! d = Some STOPPING).
Proof.
  induction l as [| d l IH]; intros w; cbn zeta; cbn [foldl].
  - repeat split. intros d Hd. inversion Hd.
  - destruct (IH (set_states (<[d := STOPPING]> (writer_states w)) w))
      as (H1 & H2 & H3 & H4 & H5 & H6 & H7 & H8).
    cbn zeta in *. rewrite H1, H2, H3, H4, H5, H6, H7. repeat split.
    intros d0 Hd0. destruct (decide (d0 ∈ l)) as [Hin | Hnin]; [now apply H8 |].
    apply elem_of_cons in Hd0 as [-> | Hd0]; [| contradiction].
    clear -Hnin. revert w Hnin.
    induction l as [| d' l IHl]; intros w Hnin; cbn.
    + apply lookup_insert_eq.
    + apply not_elem_of_cons in Hnin as [Hne Hnin].
      specialize (IHl (set_states (<[d' := STOPPING]> (writer_states w)) w) Hnin).
      cbn in IHl. rewrite insert_insert_ne in IHl by congruence.
      set (w2 := set_states (<[d':=STOPPING]> (<[d:=STOPPING]> (writer_states w))) w).
      change (set_states (<[d' := STOPPING]>
                (writer_states (set_states (<[d := STOPPING]> (writer_states w)) w)))
                (set_states (<[d := STOPPING]> (writer_states w)) w))
        with w2.
      exact IHl.
Qed.

Lemma stop_thread_frame (w : WT) :
  writers (stop_thread w) = writers w /\
  writer_stats (stop_thread w) = writer_stats w /\
  writer_configs (stop_thread w) = writer_configs w /\
  data_queue (stop_thread w) = data_queue w /\
  queue_size (stop_thread w) = queue_size w /\
  should_stop (stop_thread w) = true /\
  closed_files (stop_thread w) = closed_files w /\
  (forall d, is_Some (writers w !! d) ->
             writer_states (stop_thread w) !! d = Some STOPPING).
Proof.
  pose proof (foldl_set_stopping_frame
                (map_to_list (writers (set_should_stop true w))).*1
                (set_should_stop true w)) as Hf.
  cbv zeta in Hf. destruct Hf as (H1 & H2 & H3 & H4 & H5 & H6 & H7 & H8).
  unfold stop_thread. cbv zeta.
  split; [exact H1 |]. split; [exact H2 |]. split; [exact H3 |].
  split; [exact H4 |]. split; [exact H5 |]. split; [exact H6 |].
  split; [exact H7 |].
  intros d [rows Hd]. apply H8.
  apply list_elem_of_fmap. exists (d, rows). split; [reflexivity |].
  apply elem_of_map_to_list. exact Hd.
Qed.

(** X7. The sample count of every job equals the number of units written
    to its output: this holds initially and is kept by every operation
    of the writer; hence the final statistics emitted by a finalization
    report exactly the length of the closed output. *)
Theorem count_matches_output :
  (forall n, counted (init n : WT)) /\
  (forall (w : WT) (op : Op K U),
     consistent w -> counted w -> counted (apply_op w op)) /\
  (forall (w : WT) d rows now,
     consistent w -> counted w -> writers w !! d = Some rows ->
     exists fs,
       signals (_finalize_writer w d now) = signals w ++ [writer_stopped d fs] /\
       final_data_count fs = Z.of_nat (length rows) /\
       closed_files (_finalize_writer w d now) = closed_files w ++ [(d, rows)]).
Proof.
  split; [| split].
  - intros n d rows st Hrows. cbn in Hrows. rewrite lookup_empty in Hrows.
    discriminate.
  - intros w op Hw Hc. destruct op as [d now ok | d | u | ok now | | now]; cbn.
    + unfold start_writer. destruct (has_writer w d) eqn:Hd; [exact Hc |].
      destruct ok; [| exact Hc]. cbn.
      intros d0 rows st Hrows Hst. cbn in Hrows, Hst.
      destruct (decide (d = d0)) as [-> | Hne].
      * rewrite lookup_insert_eq in Hrows. rewrite lookup_insert_eq in Hst.
        inversion Hrows; inversion Hst; subst. reflexivity.
      * rewrite lookup_insert_ne in Hrows by exact Hne.
        rewrite lookup_insert_ne in Hst by exact Hne. eapply Hc; eauto.
    + unfold stop_writer. destruct (has_writer w d); exact Hc.
    + unfold Writer.add_data. destruct (has_writer w (device_of u)); [| exact Hc].
      destruct (writer_states w !! device_of u); [| exact Hc].
      case_bool_decide; [| exact Hc].
      destruct (queue_full w); [| exact Hc].
      destruct (writer_stats w !! device_of u) as [s |] eqn:Hs; [| exact Hc]. cbn.
      intros d0 rows st Hrows Hst. cbn in Hrows, Hst.
      destruct (decide (device_of u = d0)) as [Heq | Hne].
      * subst d0. rewrite lookup_insert_eq in Hst. inversion Hst; subst. cbn.
        eapply Hc; eauto.
      * rewrite lookup_insert_ne in Hst by exact Hne. eapply Hc; eauto.
    + unfold Writer.run_iteration. destruct (data_queue w) as [| u q].
      * apply foldl_finalize_counted, Hc.
      * assert (Hc0 : counted (set_queue q w)) by exact Hc.
        assert (Hw0 : consistent (set_queue q w)) by exact Hw.
        revert Hc0 Hw0. generalize (set_queue q w). clear w Hw Hc. intros w Hc Hw.
        intros d0 rows st Hrows Hst.
        destruct (decide (device_of u = d0)) as [Heq | Hne].
        -- subst d0. unfold Writer._process_data in Hrows, Hst.
           destruct (writers w !! device_of u) as [rows0 |] eqn:Hd;
             [| rewrite Hd in Hrows; discriminate].
           destruct (consistent_lookup w (device_of u) Hw)
             as (_ & [st0 Hst0] & [s0 Hs0]); [eauto |].
           rewrite Hst0 in Hrows, Hst.
           case_bool_decide.
           ++ eapply Hc; eauto.
           ++ destruct ok; cbn in Hrows, Hst.
              ** rewrite Hs0 in Hrows, Hst. cbn in Hrows, Hst.
                 rewrite lookup_insert_eq in Hrows.
                 rewrite lookup_insert_eq in Hst.
                 inversion Hrows; inversion Hst; subst. cbn.
                 rewrite length_app, (Hc _ _ _ Hd Hs0). cbn. lia.
              ** eapply Hc; eauto.
        -- destruct (process_data_other w u ok d0 Hne) as (H1 & _ & H3).
           rewrite H1 in Hrows. rewrite H3 in Hst. eapply Hc; eauto.
    + change (counted (stop_thread w)).
      destruct (stop_thread_frame w) as (H1 & H2 & _).
      intros d0 rows st Hrows Hst.
      rewrite H1 in Hrows. rewrite H2 in Hst. eapply Hc; eauto.
    + apply foldl_finalize_counted, Hc.
  - intros w d rows now Hw Hc Hd.
    destruct (consistent_lookup w d Hw) as ([c Hcf] & [s Hs] & [t Ht]); [eauto |].
    unfold _finalize_writer. rewrite Hd, Hcf, Ht. cbn. rewrite Hs. cbn.
    eexists. split; [reflexivity |]. split; [| reflexivity].
    cbn. eapply Hc; eauto.
Qed.

(** X8. A bounded queue never grows past its maximum size: the bound
    holds for the empty queue and is kept by every operation (a full
    queue drops the unit instead of growing). *)
Theorem queue_never_exceeds_maxsize :
  (forall n, queue_bounded (init n : WT)) /\
  (forall (w : WT) (op : Op K U), queue_bounded w -> queue_bounded (apply_op w op)).
Proof.
  split.
  - intros n Hn. cbn in *. lia.
  - intros w op Hb. destruct op as [d now ok | d | u | ok now | | now]; cbn.
    + unfold start_writer. destruct (has_writer w d); [exact Hb |].
      destruct ok; exact Hb.
    + unfold stop_writer. destruct (has_writer w d); exact Hb.
    + unfold Writer.add_data. destruct (has_writer w (device_of u)); [| exact Hb].
      destruct (writer_states w !! device_of u); [| exact Hb].
      case_bool_decide; [| exact Hb].
      destruct (queue_full w) eqn:Hfull.
      * destruct (writer_stats w !! device_of u); exact Hb.
      * intros Hpos. cbn in *. rewrite length_app. cbn.
        unfold queue_full in Hfull. apply andb_false_iff in Hfull as [Hf | Hf].
        -- apply Z.ltb_ge in Hf. lia.
        -- apply Z.leb_gt in Hf. lia.
    + unfold Writer.run_iteration. destruct (data_queue w) as [| u q] eqn:Hq.
      * destruct (foldl_finalize_frame (stopping_writers w) now w) as (H1 & _).
        unfold _check_stopping_writers. intros Hpos.
        assert (Hsize : forall l (w0 : WT),
          queue_size (foldl (fun w d => _finalize_writer w d now) w0 l)
            = queue_size w0).
        { induction l as [| d l IHl]; intros w0; cbn; [reflexivity |].
          rewrite IHl. unfold _finalize_writer.
          destruct (writers w0 !! d); [| reflexivity].
          destruct (writer_configs w0 !! d); [| reflexivity].
          destruct (writer_stats w0 !! d); [| reflexivity]. cbn.
          destruct (writer_states w0 !! d); reflexivity. }
        cbn zeta in H1. rewrite Hsize in Hpos |- *. rewrite H1. now apply Hb.
      * destruct (process_data_frame device_of timestamp_of (set_queue q w) u ok)
          as (H1 & _).
        assert (Hsize : queue_size (_process_data (set_queue q w) u ok)
                        = queue_size w).
        { unfold Writer._process_data. cbn.
          destruct (writers w !! device_of u); [| reflexivity].
          destruct (writer_states w !! device_of u); [| reflexivity].
          case_bool_decide; [reflexivity |].
          destruct ok; cbn; [| reflexivity].
          destruct (writer_stats w !! device_of u); reflexivity. }
        intros Hpos. rewrite Hsize in Hpos |- *. rewrite H1. cbn.
        specialize (Hb Hpos). rewrite Hq in Hb. cbn in Hb. lia.
    + change (queue_bounded (stop_thread w)).
      destruct (stop_thread_frame w) as (_ & _ & _ & H4 & H5 & _).
      intros Hpos. rewrite H5 in Hpos |- *. rewrite H4. now apply Hb.
    + destruct (foldl_finalize_frame (map_to_list (writers w)).*1 now w) as (H1 & _).
      assert (Hsize : forall l (w0 : WT),
        queue_size (foldl (fun w d => _finalize_writer w d now) w0 l)
          = queue_size w0).
      { induction l as [| d l IHl]; intros w0; cbn; [reflexivity |].
        rewrite IHl. unfold _finalize_writer.
        destruct (writers w0 !! d); [| reflexivity].
        destruct (writer_configs w0 !! d); [| reflexivity].
        destruct (writer_stats w0 !! d); [| reflexivity]. cbn.
        destruct (writer_states w0 !! d); reflexivity. }
      unfold _cleanup_all_writers. intros Hpos.
      cbn zeta in H1. rewrite Hsize in Hpos |- *. rewrite H1. now apply Hb.
Qed.

(** ** A failed write *)

Lemma finalize_writer_states_other (w : WT) d d' now :
  d <> d' ->
  writer_states (_finalize_writer w d' now) !! d = writer_states w !! d.
Proof.
  intros Hne. unfold _finalize_writer.
  destruct (writers w !! d'); [| reflexivity].
  destruct (writer_configs w !! d'); [| reflexivity].
  destruct (writer_stats w !! d'); [| reflexivity]. cbn.
  destruct (writer_states w !! d'); cbn;
    rewrite ?lookup_delete_ne by congruence; reflexivity.
Qed.

Lemma stopping_writers_inv (w : WT) (d : K) :
  d ∈ stopping_writers w -> writer_states w !! d = Some STOPPING.
Proof.
  unfold stopping_writers. intros Hd.
  apply list_elem_of_fmap in Hd as ([d' st] & -> & Hd).
  apply elem_of_map_to_list, map_lookup_filter_Some in Hd as [Hd Hst].
  cbn in *. subst st. exact Hd.
Qed.

Lemma foldl_finalize_skips (l : list K) now d : forall (w : WT),
  d ∉ l ->
  let w' := foldl (fun w d => _finalize_writer w d now) w l in
  writers w' !! d = writers w !! d /\
  writer_states w' !! d = writer_states w !! d.
Proof.
  induction l as [| d' l IH]; intros w Hd; cbn; [auto |].
  apply not_elem_of_cons in Hd as [Hne Hd].
  destruct (IH (_finalize_writer w d' now) Hd) as [H1 H2]. cbn zeta in H1, H2.
  rewrite H1, H2.
  rewrite finalize_writer_other by exact Hne.
  rewrite finalize_writer_states_other by exact Hne. auto.
Qed.

Lemma process_data_error (w : WT) u ok rows :
  writers w !! device_of u = Some rows ->
  writer_states w !! device_of u = Some ERROR ->
  writer_states (_process_data w u ok) !! device_of u = Some ERROR /\
  is_Some (writers (_process_data w u ok) !! device_of u).
Proof.
  intros Hd Hst. unfold Writer._process_data. rewrite Hd, Hst.
  rewrite bool_decide_eq_false_2 by discriminate.
  destruct ok; cbn.
  - destruct (writer_stats w !! device_of u); cbn;
      rewrite ?lookup_insert_eq; eauto.
  - rewrite lookup_insert_eq, Hd. eauto.
Qed.

Lemma run_keeps_error (oks : list bool) now d : forall (w : WT),
  is_Some (writers w !! d) -> writer_states w !! d = Some ERROR ->
  writer_states (run w oks now) !! d = Some ERROR /\
  is_Some (writers (run w oks now) !! d).
Proof.
  induction oks as [| ok oks IH]; intros w Hd Hst; cbn [Writer.run]; [auto |].
  destruct (should_stop w); [auto |].
  unfold Writer.run_iteration. destruct (data_queue w) as [| u q].
  - assert (Hnin : d ∉ stopping_writers w).
    { intros Hin. apply stopping_writers_inv in Hin. congruence. }
    destruct (foldl_finalize_skips (stopping_writers w) now d w Hnin) as [H1 H2].
    cbn zeta in H1, H2. unfold _check_stopping_writers.
    apply IH; [rewrite H1 | rewrite H2]; assumption.
  - destruct (decide (device_of u = d)) as [<- | Hne].
    + destruct Hd as [rows Hd].
      destruct (process_data_error (set_queue q w) u ok rows Hd Hst) as [H1 H2].
      apply IH; assumption.
    + destruct (process_data_other (set_queue q w) u ok d Hne) as (H1 & H2 & _).
      apply IH; [rewrite H1 | rewrite H2]; assumption.
Qed.

(** X9. A write that fails puts the job of its device in state ERROR and
    emits the error signal; nothing is written, the statistics and the
    jobs of the other devices are untouched.  From then on the job is
    stuck: however long the loop runs it neither finalizes the job nor
    puts it back to WRITING, every add for the device is rejected, and a
    new job cannot be started for the device. *)
Theorem write_failure_blocks_job (w : WT) (u : U) (rows : list U) (st : WriterState) :
  writers w !! device_of u = Some rows ->
  writer_states w !! device_of u = Some st -> st <> STOPPING ->
  let d := device_of u in
  let w1 := _process_data w u false in
  writers w1 = writers w /\
  writer_stats w1 = writer_stats w /\
  signals w1 = signals w ++ [writer_error d] /\
  writer_states w1 !! d = Some ERROR /\
  (forall d', d' <> d -> writer_states w1 !! d' = writer_states w !! d') /\
  (forall oks now,
     let w2 := run w1 oks now in
     writer_states w2 !! d = Some ERROR /\
     is_Some (writers w2 !! d) /\
     (forall u', device_of u' = d -> add_data w2 u' = (Ok false, w2)) /\
     (forall now' ok, start_writer w2 d now' ok = (false, w2))).
Proof.
  intros Hd Hst Hne. cbn zeta.
  assert (Hw1 : _process_data w u false =
                emit (writer_error (device_of u))
                  (set_states (<[device_of u := ERROR]> (writer_states w)) w)).
  { unfold Writer._process_data. rewrite Hd, Hst.
    rewrite bool_decide_eq_false_2 by exact Hne. reflexivity. }
  rewrite Hw1. cbn [writers writer_stats signals writer_states emit set_states].
  split; [reflexivity |]. split; [reflexivity |]. split; [reflexivity |].
  split; [apply lookup_insert_eq |].
  split; [intros d' Hd'; apply lookup_insert_ne; congruence |].
  intros oks now.
  set (w1 := emit _ _).
  destruct (run_keeps_error oks now (device_of u) w1) as [He Hs].
  { cbn. rewrite Hd. eauto. }
  { cbn. apply lookup_insert_eq. }
  split; [exact He |]. split; [exact Hs |]. split.
  - intros u' Hu'. unfold Writer.add_data. rewrite Hu'.
    replace (has_writer (run w1 oks now) (device_of u)) with true
      by (symmetry; now apply has_writer_true).
    rewrite He. rewrite bool_decide_eq_false_2 by discriminate. reflexivity.
  - intros now' ok. unfold start_writer.
    replace (has_writer (run w1 oks now) (device_of u)) with true
      by (symmetry; now apply has_writer_true).
    reflexivity.
Qed.

(** ** Stopping the thread *)





(** ** Starting again after a stop *)

(** X11. A device whose job has been asked to stop cannot be given a new
    job while the old one waits for the queue to drain: [start_writer]
    fails and changes nothing.  Once the loop has finalized the job,
    [start_writer] succeeds and the new job starts from an empty output
    and zeroed statistics. *)
Theorem restart_needs_finalization (w : WT) (d : K) (rows : list U)
    (oks : list bool) (now now' : Z) :
  consistent w -> should_stop w = false ->
  writers w !! d = Some rows ->
  length oks = S (length (data_queue w)) ->
  let w1 := (stop_writer w d).2 in
  let w2 := run w1 oks now in
  let w3 := (start_writer w2 d now' true).2 in
  (forall t ok, start_writer w1 d t ok = (false, w1)) /\
  (start_writer w2 d now' true).1 = true /\
  writers w3 !! d = Some [] /\
  writer_states w3 !! d = Some WRITING /\
  writer_stats w3 !! d = Some (mkStats now' 0 0 None) /\
  signals w3 = signals w2 ++ [writer_started d].
Proof.
  intros Hw Hstop Hd Hlen. cbn zeta.
  assert (Hhas : has_writer w d = true) by (apply has_writer_true; eauto).
  assert (Hsw : stop_writer w d =
                (true, set_states (<[d := STOPPING]> (writer_states w)) w)).
  { unfold stop_writer. now rewrite Hhas. }
  pose proof (stop_writer_consistent w d Hw) as Hc1.
  rewrite Hsw in Hc1 |- *. cbn [fst snd] in *.
  set (w1 := set_states (<[d := STOPPING]> (writer_states w)) w) in *.
  split.
  { intros t ok. unfold start_writer.
    change (has_writer w1 d) with (has_writer w d). now rewrite Hhas. }
  assert (Hst1 : writer_states w1 !! d = Some STOPPING) by apply lookup_insert_eq.
  destruct (run_drains_then_finalizes device_of timestamp_of oks now d rows w1)
    as (_ & Hnone & _); try assumption.
  unfold start_writer.
  replace (has_writer (run w1 oks now) d) with false
    by (symmetry; now apply has_writer_false).
  cbn. rewrite !lookup_insert_eq. auto.
Qed.

End Facts.

End WriterExtra.

(** ** The further facts on the IMU writer's recording session *)

Module IMUWriterExtra.
Import Writer IMUWriter.

Lemma queue_written_in_order_witness :
  let w' := run (two_queued 1000) [true; true] 50 in
  data_queue w' = [] /\
  writers w' !! "AA:BB" = Some [sample 1; sample 2] /\
  writer_states w' !! "AA:BB" = Some WRITING /\
  Writer.data_count <$> (writer_stats w' !! "AA:BB") = Some 2.
Proof.
  apply (WriterExtra.queue_written_in_order device_address timestamp "AA:BB" 50
           (two_queued 1000) [] WRITING (mkStats 0 0 0 None)).
  - apply IMUWriterFacts.two_queued_consistent.
  - reflexivity.
  - vm_compute. reflexivity.
  - vm_compute. reflexivity.
  - discriminate.
  - vm_compute. reflexivity.
Defined.

Lemma count_matches_output_witness :
  counted (apply_op (started 1000) (OpAdd (sample 1))) /\
  exists fs,
    signals (_finalize_writer (started 1000) "AA:BB" 50)
      = signals (started 1000) ++ [writer_stopped "AA:BB" fs] /\
    final_data_count fs = Z.of_nat (length (@nil IMUData)) /\
    closed_files (_finalize_writer (started 1000) "AA:BB" 50)
      = closed_files (started 1000) ++ [("AA:BB", [])].
Proof.
  pose proof (WriterExtra.count_matches_output device_address timestamp)
    as (Hinit & Hop & Hfin).
  assert (Hs : counted (started 1000)).
  { apply (Hop (init 1000) (OpStart "AA:BB" 0 true));
      [apply WriterFacts.init_consistent | apply Hinit]. }
  split.
  - apply Hop; [apply IMUWriterFacts.started_consistent | exact Hs].
  - apply Hfin; [apply IMUWriterFacts.started_consistent | exact Hs |].
    vm_compute. reflexivity.
Defined.

Lemma queue_never_exceeds_maxsize_witness :
  queue_bounded (init 2 : IMUWriterThread) /\
  queue_bounded (apply_op (two_queued 2) (OpAdd (sample 3))).
Proof.
  pose proof (WriterExtra.queue_never_exceeds_maxsize device_address timestamp)
    as (Hinit & Hop).
  split; [apply Hinit |].
  apply Hop. intros _. vm_compute. discriminate.
Defined.

Lemma write_failure_blocks_job_witness :
  let d := device_address (sample 1) in
  let w1 := _process_data (two_queued 1000) (sample 1) false in
  writers w1 = writers (two_queued 1000) /\
  writer_stats w1 = writer_stats (two_queued 1000) /\
  signals w1 = signals (two_queued 1000) ++ [writer_error d] /\
  writer_states w1 !! d = Some ERROR /\
  (forall d', d' <> d ->
     writer_states w1 !! d' = writer_states (two_queued 1000) !! d') /\
  (forall oks now,
     let w2 := run w1 oks now in
     writer_states w2 !! d = Some ERROR /\
     is_Some (writers w2 !! d) /\
     (forall u', device_address u' = d -> add_data w2 u' = (Ok false, w2)) /\
     (forall now' ok, start_writer w2 d now' ok = (false, w2))).
Proof.
  apply (WriterExtra.write_failure_blocks_job device_address timestamp
           (two_queued 1000) (sample 1) [] WRITING).
  - vm_compute. reflexivity.
  - vm_compute. reflexivity.
  - discriminate.
Defined.


Lemma restart_needs_finalization_witness :
  let w1 := (stop_writer (two_queued 1000) "AA:BB").2 in
  let w2 := run w1 [true; true; true] 50 in
  let w3 := (start_writer w2 "AA:BB" 60 true).2 in
  (forall t ok, start_writer w1 "AA:BB" t ok = (false, w1)) /\
  (start_writer w2 "AA:BB" 60 true).1 = true /\
  writers w3 !! "AA:BB" = Some [] /\
  writer_states w3 !! "AA:BB" = Some WRITING /\
  writer_stats w3 !! "AA:BB" = Some (mkStats 60 0 0 None) /\
  signals w3 = signals w2 ++ [writer_started "AA:BB"].
Proof.
  apply (WriterExtra.restart_needs_finalization device_address timestamp
           (two_queued 1000) "AA:BB" [] [true; true; true] 50 60).
  - apply IMUWriterFacts.two_queued_consistent.
  - reflexivity.
  - vm_compute. reflexivity.
  - vm_compute. reflexivity.
Defined.

(** The session of the stop example, at thread level: two accepted
    samples are still queued when the thread is stopped; the file is
    closed empty and the samples stay in the queue. *)
Example stop_thread_loses_queued :
  let w2 := _cleanup_all_writers (run (stop_thread (two_queued 1000)) [true] 50) 50 in
  closed_files w2 = [("AA:BB", [])] /\
  data_queue w2 = [sample 1; sample 2].
Proof. vm_compute. split; reflexivity. Qed.

End IMUWriterExtra.

(* ===================================================================== *)
(** * Further facts about the process supervisor *)
(* ===================================================================== *)

Module ProcessExtra.
Import ProcessManager.

(** ** The single operations act on one record *)

Lemma start_process_outcome (ps : Processes) pid now spawn_ok info :
  ps !! pid = Some info ->
  start_process ps pid now spawn_ok =
    ((start_outcome now spawn_ok info).1,
     <[pid := (start_outcome now spawn_ok info).2]> ps).
Proof.
  intros Hinfo. unfold start_process, start_outcome. rewrite Hinfo.
  case_bool_decide; [destruct spawn_ok; reflexivity |].
  cbn. now rewrite insert_id.
Qed.

Lemma stop_request_writes_nothing (ps : Processes) pid info write_ok :
  stop_request ps pid info write_ok = <[pid := set_status STOPPING info]> ps.
Proof.
  unfold stop_request.
  destruct (process info) as [[[lines |]] |]; cbn; try reflexivity.
  unfold send_command. rewrite lookup_insert_eq. cbn.
  rewrite bool_decide_eq_false_2 by discriminate. reflexivity.
Qed.

Lemma stop_process_outcome (ps : Processes) pid write_ok wait info :
  ps !! pid = Some info ->
  stop_process ps pid write_ok wait =
    ((stop_outcome wait info).1, <[pid := (stop_outcome wait info).2]> ps).
Proof.
  intros Hinfo. unfold stop_process, stop_outcome. rewrite Hinfo.
  case_bool_decide; [| cbn; now rewrite insert_id].
  cbn zeta. rewrite stop_request_writes_nothing, lookup_insert_eq. cbn.
  destruct (process info), wait; cbn; rewrite insert_insert_eq; reflexivity.
Qed.

(** X12. [stop_process] never writes the stop command: by the time it
    calls [send_command] the status is STOPPING, which [send_command]
    rejects.  So the call does not depend on whether the pipe can be
    written; it waits for the subprocess and leaves the record STOPPED
    with no handle, or, when the wait raises, ERROR with the old handle,
    whose pipe holds the lines it held before.  No other record changes. *)
Theorem stop_never_sends_stop (ps : Processes) (pid : string) (info : ProcessInfo)
    (write_ok : string -> bool) (wait : WaitOutcome) :
  ps !! pid = Some info -> status info = RUNNING ->
  stop_request ps pid info write_ok = <[pid := set_status STOPPING info]> ps /\
  (forall j, j <> pid -> (stop_process ps pid write_ok wait).2 !! j = ps !! j) /\
  match process info, wait with
  | Some p, WaitRaised msg =>
      stop_process ps pid write_ok wait =
        (false,
         <[pid := mkProcessInfo (process_id info) (process_type info)
                    (instance_id info) ERROR (Some p) (start_time info)
                    (Some msg)]> ps)
  | _, _ =>
      stop_process ps pid write_ok wait = (true, <[pid := stopped_info info]> ps)
  end.
Proof.
  intros Hinfo Hrun. split; [apply stop_request_writes_nothing |].
  rewrite (stop_process_outcome ps pid write_ok wait info Hinfo).
  split; [intros j Hj; cbn; now rewrite lookup_insert_ne by congruence |].
  unfold stop_outcome. rewrite bool_decide_eq_true_2 by exact Hrun.
  destruct (process info) as [p |] eqn:Hp, wait; cbn; rewrite ?Hp; reflexivity.
Qed.

(** ** Loops over the tracked processes *)

Section Pointwise.

Variable f : Processes -> string -> bool * Processes.
Variable g : string -> ProcessInfo -> bool * ProcessInfo.
Hypothesis f_spec : forall ps pid info,
  ps !! pid = Some info ->
  f ps pid = ((g pid info).1, <[pid := (g pid info).2]> ps).

Lemma pointwise_fold (ps : Processes) :
  let r :=
    map_fold (fun pid (_ : ProcessInfo) (acc : bool * Processes) =>
                let '(success, ps) := acc in
                let '(ok, ps') := f ps pid in
                (if ok then success else false, ps'))
      (true, ps) ps in
  (r.1 = true <-> forall pid info, ps !! pid = Some info -> (g pid info).1 = true) /\
  (forall pid, r.2 !! pid = (fun info => (g pid info).2) <$> (ps !! pid)).
Proof.
  cbn zeta.
  assert (Hgen : forall sub : Processes, sub ⊆ ps ->
    let r :=
      map_fold (fun pid (_ : ProcessInfo) (acc : bool * Processes) =>
                  let '(success, ps) := acc in
                  let '(ok, ps') := f ps pid in
                  (if ok then success else false, ps'))
        (true, ps) sub in
    (r.1 = true <->
       forall pid info, sub !! pid = Some info -> (g pid info).1 = true) /\
    (forall pid info, sub !! pid = Some info -> r.2 !! pid = Some (g pid info).2) /\
    (forall pid, sub !! pid = None -> r.2 !! pid = ps !! pid)).
  { intros sub.
    apply (map_fold_weak_ind
      (fun (r : bool * Processes) (sub : Processes) =>
         sub ⊆ ps ->
         (r.1 = true <->
            forall pid info, sub !! pid = Some info -> (g pid info).1 = true) /\
         (forall pid info, sub !! pid = Some info ->
            r.2 !! pid = Some (g pid info).2) /\
         (forall pid, sub !! pid = None -> r.2 !! pid = ps !! pid))).
    - intros _. cbn. split; [| split].
      + split; [| reflexivity]. intros _ pid info Hl.
        rewrite lookup_empty in Hl. discriminate.
      + intros pid info Hl. rewrite lookup_empty in Hl. discriminate.
      + reflexivity.
    - clear sub. intros i x sub [success acc] Hnone IH Hsub.
      assert (Hps : ps !! i = Some x).
      { eapply map_subseteq_spec; [exact Hsub |]. apply lookup_insert_eq. }
      assert (Hsub' : sub ⊆ ps).
      { apply map_subseteq_spec. intros j y Hj.
        eapply map_subseteq_spec; [exact Hsub |].
        rewrite lookup_insert_ne; [exact Hj | congruence]. }
      destruct (IH Hsub') as (Hres & Hin & Hout). cbn [fst snd] in *.
      assert (Hacc : acc !! i = Some x) by (rewrite Hout by exact Hnone; exact Hps).
      rewrite (f_spec acc i x Hacc). cbn [fst snd].
      split; [| split].
      + split.
        * intros Hok pid info Hl.
          destruct (decide (pid = i)) as [-> | Hne].
          -- rewrite lookup_insert_eq in Hl. inversion Hl; subst.
             destruct (g i info).1; [reflexivity | discriminate].
          -- rewrite lookup_insert_ne in Hl by congruence.
             destruct (g i x).1; [| discriminate].
             apply (proj1 Hres Hok pid info Hl).
        * intros Hall.
          rewrite (Hall i x) by apply lookup_insert_eq.
          apply Hres. intros pid info Hl. apply Hall.
          rewrite lookup_insert_ne; [exact Hl | congruence].
      + intros pid info Hl. destruct (decide (pid = i)) as [-> | Hne].
        * rewrite lookup_insert_eq in Hl. inversion Hl; subst.
          apply lookup_insert_eq.
        * rewrite lookup_insert_ne in Hl by congruence.
          rewrite lookup_insert_ne by congruence. now apply Hin.
      + intros pid Hl. apply lookup_insert_None in Hl as [Hl Hne].
        rewrite lookup_insert_ne by congruence. now apply Hout. }
  destruct (Hgen ps) as (Hres & Hin & Hout); [reflexivity |].
  split; [exact Hres |].
  intros pid. destruct (ps !! pid) as [info |] eqn:Hl; cbn.
  - now apply Hin.
  - rewrite Hout by exact Hl. exact Hl.
Qed.

End Pointwise.

Lemma start_all_pointwise (ps : Processes) now spawn_ok :
  let r := start_all_processes ps now spawn_ok in
  (r.1 = true <->
     forall pid info, ps !! pid = Some info ->
       (start_outcome (now pid) (spawn_ok pid) info).1 = true) /\
  (forall pid,
     r.2 !! pid =
       (fun info => (start_outcome (now pid) (spawn_ok pid) info).2) <$> (ps !! pid)).
Proof.
  apply (pointwise_fold
           (fun ps pid => start_process ps pid (now pid) (spawn_ok pid))
           (fun pid info => start_outcome (now pid) (spawn_ok pid) info)).
  intros ps0 pid info Hl. now apply start_process_outcome.
Qed.

Lemma stop_all_pointwise (ps : Processes) write_ok wait :
  let r := stop_all_processes ps write_ok wait in
  (r.1 = true <->
     forall pid info, ps !! pid = Some info ->
       (stop_outcome (wait pid) info).1 = true) /\
  (forall pid,
     r.2 !! pid = (fun info => (stop_outcome (wait pid) info).2) <$> (ps !! pid)).
Proof.
  apply (pointwise_fold
           (fun ps pid => stop_process ps pid write_ok (wait pid))
           (fun pid info => stop_outcome (wait pid) info)).
  intros ps0 pid info Hl. now apply stop_process_outcome.
Qed.

(** X13. [start_all_processes] reports success exactly when every tracked
    process was STOPPED and could be spawned: one process that is
    already running makes it report failure, although that process is
    left as it is.  Each STOPPED process is started on its own,
    whatever happens to the others. *)
Theorem start_all_result (ps : Processes) (now : string -> Z)
    (spawn_ok : string -> bool) :
  let r := start_all_processes ps now spawn_ok in
  (r.1 = true <->
     forall pid info, ps !! pid = Some info ->
       status info = STOPPED /\ spawn_ok pid = true) /\
  (forall pid info, ps !! pid = Some info -> status info <> STOPPED ->
     r.2 !! pid = Some info) /\
  (forall pid info, ps !! pid = Some info -> status info = STOPPED ->
     spawn_ok pid = true ->
     r.2 !! pid =
       Some (mkProcessInfo (process_id info) (process_type info) (instance_id info)
               RUNNING (Some (mkPopen (Some []))) (Some (now pid)) None)) /\
  (forall pid info, ps !! pid = Some info -> status info = STOPPED ->
     spawn_ok pid = false ->
     status <$> (r.2 !! pid) = Some ERROR) /\
  (forall pid, ps !! pid = None -> r.2 !! pid = None).
Proof.
  destruct (start_all_pointwise ps now spawn_ok) as [Hres Hat]. cbn zeta in *.
  split; [| split; [| split; [| split]]].
  - rewrite Hres. split; intros Hall pid info Hl; specialize (Hall pid info Hl).
    + unfold start_outcome in Hall. case_bool_decide; [| discriminate].
      destruct (spawn_ok pid); [auto | discriminate].
    + destruct Hall as [Hst Hok]. unfold start_outcome.
      rewrite bool_decide_eq_true_2 by exact Hst. now rewrite Hok.
  - intros pid info Hl Hst. rewrite Hat, Hl. cbn. unfold start_outcome.
    now rewrite bool_decide_eq_false_2 by exact Hst.
  - intros pid info Hl Hst Hok. rewrite Hat, Hl. cbn. unfold start_outcome.
    rewrite bool_decide_eq_true_2 by exact Hst. now rewrite Hok.
  - intros pid info Hl Hst Hok. rewrite Hat, Hl. cbn. unfold start_outcome.
    rewrite bool_decide_eq_true_2 by exact Hst. now rewrite Hok.
  - intros pid Hl. now rewrite Hat, Hl.
Qed.

(** X14. [stop_all_processes], which is all that [cleanup] does, leaves no
    tracked process RUNNING; it does not touch a process that was not
    RUNNING, and for that very process it reports failure: it returns
    success exactly when every tracked process was RUNNING and no wait
    raised. *)
Theorem stop_all_result (ps : Processes) (write_ok : string -> bool)
    (wait : string -> WaitOutcome) :
  let r := stop_all_processes ps write_ok wait in
  (forall pid info, r.2 !! pid = Some info -> status info <> RUNNING) /\
  (forall pid info, ps !! pid = Some info -> status info <> RUNNING ->
     r.2 !! pid = Some info) /\
  (forall pid info, ps !! pid = Some info -> status info = RUNNING ->
     (forall msg, wait pid <> WaitRaised msg) ->
     r.2 !! pid = Some (stopped_info info)) /\
  (r.1 = true <->
     forall pid info, ps !! pid = Some info ->
       status info = RUNNING /\
       (process info = None \/ forall msg, wait pid <> WaitRaised msg)).
Proof.
  destruct (stop_all_pointwise ps write_ok wait) as [Hres Hat]. cbn zeta in *.
  split; [| split; [| split]].
  - intros pid info Hl. rewrite Hat in Hl.
    destruct (ps !! pid) as [info0 |]; [| discriminate]. cbn in Hl.
    inversion Hl; subst. unfold stop_outcome. case_bool_decide; [| assumption].
    destruct (process info0), (wait pid); cbn; discriminate.
  - intros pid info Hl Hst. rewrite Hat, Hl. cbn. unfold stop_outcome.
    now rewrite bool_decide_eq_false_2 by exact Hst.
  - intros pid info Hl Hst Hwait. rewrite Hat, Hl. cbn. unfold stop_outcome.
    rewrite bool_decide_eq_true_2 by exact Hst.
    destruct (process info), (wait pid) as [| | msg] eqn:Hw; try reflexivity.
    now destruct (Hwait msg).
  - rewrite Hres. split; intros Hall pid info Hl; specialize (Hall pid info Hl).
    + unfold stop_outcome in Hall. case_bool_decide; [| discriminate].
      split; [assumption |].
      destruct (process info); [right | now left].
      intros msg Hw. rewrite Hw in Hall. discriminate.
    + destruct Hall as [Hst Hwait]. unfold stop_outcome.
      rewrite bool_decide_eq_true_2 by exact Hst.
      destruct (process info), (wait pid) as [| | msg] eqn:Hw; try reflexivity.
      destruct Hwait as [Hnone | Hwait]; [discriminate | now destruct (Hwait msg)].
Qed.

(** ** A process in ERROR *)

Lemma send_command_keeps (ps : Processes) pid j msg write_ok info :
  ps !! j = Some info -> status info <> RUNNING ->
  (send_command ps pid msg write_ok).2 !! j = Some info.
Proof.
  intros Hj Hst. unfold send_command.
  destruct (ps !! pid) as [x |] eqn:Hx; [| exact Hj].
  case_bool_decide as Hrun; [| exact Hj].
  destruct (process x) as [[[lines |]] |]; cbn; try exact Hj.
  destruct (write_ok pid); cbn; [| exact Hj].
  rewrite lookup_insert_ne; [exact Hj |]. intros ->. congruence.
Qed.

Lemma send_command_to_all_keeps (ps : Processes) j msg write_ok info :
  ps !! j = Some info -> status info <> RUNNING ->
  (send_command_to_all ps msg write_ok).2 !! j = Some info.
Proof.
  intros Hj Hst. unfold send_command_to_all.
  assert (Hfold : (map_fold (broadcast_step msg write_ok) (0, 0, ps) ps).2 !! j
                  = Some info).
  { apply (map_fold_weak_ind
      (fun (acc : Z * Z * Processes) (_ : Processes) => acc.2 !! j = Some info)).
    - exact Hj.
    - intros i x sub [[sc tr] acc] _ IH. cbn [snd] in *.
      unfold broadcast_step. case_bool_decide; [| exact IH].
      pose proof (send_command_keeps acc i j msg write_ok info IH Hst) as Hk.
      destruct (send_command acc i msg write_ok) as [sent acc']. exact Hk. }
  destruct (map_fold (broadcast_step msg write_ok) (0, 0, ps) ps) as [[sc tr] ps'].
  cbn [snd] in Hfold. destruct (tr =? 0); exact Hfold.
Qed.

Lemma monitor_processes_lookup (ps : Processes) poll j :
  monitor_processes ps poll !! j =
    (fun info => default info (monitor_step poll j info ps !! j)) <$> (ps !! j).
Proof.
  unfold monitor_processes.
  assert (Hgen : forall sub : Processes, sub ⊆ ps ->
    (forall pid info, sub !! pid = Some info ->
       map_fold (monitor_step poll) ps sub !! pid
         = monitor_step poll pid info ps !! pid) /\
    (forall pid, sub !! pid = None ->
       map_fold (monitor_step poll) ps sub !! pid = ps !! pid)).
  { intros sub.
    apply (map_fold_weak_ind
      (fun (r : Processes) (sub : Processes) =>
         sub ⊆ ps ->
         (forall pid info, sub !! pid = Some info ->
            r !! pid = monitor_step poll pid info ps !! pid) /\
         (forall pid, sub !! pid = None -> r !! pid = ps !! pid))).
    - intros _. split; [| reflexivity].
      intros pid info Hl. rewrite lookup_empty in Hl. discriminate.
    - clear sub. intros i x sub r Hnone IH Hsub.
      assert (Hsub' : sub ⊆ ps).
      { apply map_subseteq_spec. intros k y Hk.
        eapply map_subseteq_spec; [exact Hsub |].
        rewrite lookup_insert_ne; [exact Hk | congruence]. }
      destruct (IH Hsub') as [Hin Hout].
      assert (Hstep : forall (q : Processes) k, k <> i ->
                monitor_step poll i x q !! k = q !! k).
      { intros q k Hk. unfold monitor_step.
        case_bool_decide; [| reflexivity].
        destruct (process x); [| reflexivity].
        destruct (poll i); [| reflexivity].
        case_bool_decide; now rewrite lookup_insert_ne by congruence. }
      assert (Hself : forall (q1 q2 : Processes), q1 !! i = q2 !! i ->
                monitor_step poll i x q1 !! i = monitor_step poll i x q2 !! i).
      { intros q1 q2 Hq. unfold monitor_step.
        case_bool_decide; [| exact Hq].
        destruct (process x); [| exact Hq].
        destruct (poll i); [| exact Hq].
        case_bool_decide; now rewrite !lookup_insert_eq. }
      split.
      + intros pid info Hl. destruct (decide (pid = i)) as [-> | Hne].
        * rewrite lookup_insert_eq in Hl. inversion Hl; subst.
          apply Hself. now apply Hout.
        * rewrite lookup_insert_ne in Hl by congruence.
          rewrite Hstep by exact Hne. now apply Hin.
      + intros pid Hl. apply lookup_insert_None in Hl as [Hl Hne].
        rewrite Hstep by congruence. now apply Hout. }
  destruct (Hgen ps) as [Hin Hout]; [reflexivity |].
  destruct (ps !! j) as [info |] eqn:Hl; cbn.
  - rewrite (Hin j info Hl).
    destruct (monitor_step poll j info ps !! j) eqn:Hm; [reflexivity |].
    exfalso. unfold monitor_step in Hm.
    case_bool_decide; [| congruence].
    destruct (process info); [| congruence].
    destruct (poll j); [| congruence].
    case_bool_decide; rewrite lookup_insert_eq in Hm; discriminate.
  - rewrite Hout by exact Hl. exact Hl.
Qed.

Lemma apply_op_keeps_error (ps : Processes) (op : Op) pid info :
  ps !! pid = Some info -> status info = ERROR ->
  apply_op ps op !! pid = Some info.
Proof.
  intros Hl Hst.
  destruct op as [j now ok | j w wait | now ok | w wait | j msg w | msg w | poll]; cbn.
  - destruct (decide (j = pid)) as [-> | Hne].
    + rewrite (start_process_outcome ps pid now ok info Hl). cbn.
      unfold start_outcome. rewrite bool_decide_eq_false_2 by congruence.
      cbn. now rewrite insert_id.
    + destruct (ps !! j) as [x |] eqn:Hx.
      * rewrite (start_process_outcome ps j now ok x Hx). cbn.
        now rewrite lookup_insert_ne by exact Hne.
      * unfold start_process. now rewrite Hx.
  - destruct (decide (j = pid)) as [-> | Hne].
    + rewrite (stop_process_outcome ps pid w wait info Hl). cbn.
      unfold stop_outcome. rewrite bool_decide_eq_false_2 by congruence.
      cbn. now rewrite insert_id.
    + destruct (ps !! j) as [x |] eqn:Hx.
      * rewrite (stop_process_outcome ps j w wait x Hx). cbn.
        now rewrite lookup_insert_ne by exact Hne.
      * unfold stop_process. now rewrite Hx.
  - rewrite (proj2 (start_all_pointwise ps now ok) pid), Hl. cbn.
    unfold start_outcome. now rewrite bool_decide_eq_false_2 by congruence.
  - rewrite (proj2 (stop_all_pointwise ps w wait) pid), Hl. cbn.
    unfold stop_outcome. now rewrite bool_decide_eq_false_2 by congruence.
  - apply send_command_keeps; [exact Hl | congruence].
  - apply send_command_to_all_keeps; [exact Hl | congruence].
  - rewrite monitor_processes_lookup, Hl. cbn. unfold monitor_step.
    rewrite bool_decide_eq_false_2 by congruence. now rewrite Hl.
Qed.

(** X15. A process in state ERROR (a spawn that failed, a wait that
    raised, a subprocess that exited with a non-zero code) stays as it
    is under every operation of the supervisor: it is never started
    again, stopped, written to or reset, and [start_process] and
    [stop_process] both return failure for it. *)
Theorem error_is_final (ps : Processes) (ops : list Op) (pid : string)
    (info : ProcessInfo) :
  ps !! pid = Some info -> status info = ERROR ->
  let ps' := foldl apply_op ps ops in
  ps' !! pid = Some info /\
  (forall now spawn_ok, start_process ps' pid now spawn_ok = (false, ps')) /\
  (forall write_ok wait, stop_process ps' pid write_ok wait = (false, ps')) /\
  (forall msg write_ok, send_command ps' pid msg write_ok = (false, ps')).
Proof.
  intros Hl Hst. cbn zeta.
  assert (Hkeep : foldl apply_op ps ops !! pid = Some info).
  { revert ps Hl. induction ops as [| op ops IH]; intros ps Hl; cbn; [exact Hl |].
    apply IH. now apply apply_op_keeps_error. }
  split; [exact Hkeep |]. split; [| split].
  - intros now spawn_ok. unfold start_process. rewrite Hkeep.
    now rewrite bool_decide_eq_false_2 by congruence.
  - intros write_ok wait. unfold stop_process. rewrite Hkeep.
    now rewrite bool_decide_eq_false_2 by congruence.
  - intros msg write_ok. unfold send_command. rewrite Hkeep.
    now rewrite bool_decide_eq_false_2 by congruence.
Qed.

(** ** Monitoring *)

(** X16. [monitor_processes] changes only the RUNNING processes whose
    subprocess has ended: exit code 0 gives STOPPED, from which the
    process can be started again; any other code gives ERROR; in both
    cases the handle is dropped.  Every other record is left as it is. *)
Theorem monitor_result (ps : Processes) (poll : string -> option Z)
    (pid : string) (info : ProcessInfo) :
  ps !! pid = Some info ->
  let ps' := monitor_processes ps poll in
  (status info <> RUNNING \/ process info = None \/ poll pid = None ->
   ps' !! pid = Some info) /\
  (status info = RUNNING -> is_Some (process info) -> poll pid = Some 0 ->
   ps' !! pid = Some (stopped_info info) /\
   forall now, (start_process ps' pid now true).1 = true) /\
  (forall code, status info = RUNNING -> is_Some (process info) ->
   poll pid = Some code -> code <> 0 ->
   (exists info', ps' !! pid = Some info' /\ status info' = ERROR /\
                  process info' = None) /\
   forall now spawn_ok, start_process ps' pid now spawn_ok = (false, ps')).
Proof.
  intros Hl. cbn zeta.
  pose proof (monitor_processes_lookup ps poll pid) as Hm. rewrite Hl in Hm.
  cbn in Hm. unfold monitor_step in Hm.
  split; [| split].
  - intros Hcase. rewrite Hm.
    destruct (decide (status info = RUNNING)) as [Hr | Hr].
    + rewrite bool_decide_eq_true_2 by exact Hr.
      destruct (process info) as [p |] eqn:Hp; [| now rewrite Hl].
      destruct Hcase as [Hc | [Hc | Hc]]; [contradiction | discriminate |].
      rewrite Hc. now rewrite Hl.
    + rewrite bool_decide_eq_false_2 by exact Hr. now rewrite Hl.
  - intros Hr [p Hp] Hpoll.
    rewrite bool_decide_eq_true_2, Hp, Hpoll in Hm by exact Hr.
    rewrite bool_decide_eq_true_2, lookup_insert_eq in Hm by reflexivity.
    cbn in Hm. split; [exact Hm |].
    intros now. rewrite (start_process_outcome _ pid now true _ Hm).
    reflexivity.
  - intros code Hr [p Hp] Hpoll Hcode.
    rewrite bool_decide_eq_true_2, Hp, Hpoll in Hm by exact Hr.
    rewrite bool_decide_eq_false_2, lookup_insert_eq in Hm by exact Hcode.
    cbn in Hm. split; [eauto |].
    intros now spawn_ok. unfold start_process. rewrite Hm. reflexivity.
Qed.

(** ** The status summary *)

Lemma count_status_insert (st : ProcessStatus) (m : Processes) i x :
  m !! i = None ->
  count_status st (<[i := x]> m) =
    count_status st m + (if bool_decide (status x = st) then 1 else 0).
Proof.
  intros Hnone. unfold count_status. case_bool_decide as Hst.
  - rewrite map_filter_insert_True by exact Hst.
    rewrite map_size_insert_None; [lia |].
    apply map_lookup_filter_None. now left.
  - rewrite map_filter_insert_False by exact Hst.
    rewrite delete_id by exact Hnone. lia.
Qed.

(** X17. The summary counts every tracked process once: each of its five
    counters is the number of processes with that status, and the
    counters add up to the total. *)
Theorem summary_counts (ps : Processes) :
  let s := get_process_status_summary ps in
  total s = Z.of_nat (size ps) /\
  running s = count_status RUNNING ps /\
  stopped s = count_status STOPPED ps /\
  error s = count_status ERROR ps /\
  starting s = count_status STARTING ps /\
  stopping s = count_status STOPPING ps /\
  total s = running s + stopped s + error s + starting s + stopping s.
Proof.
  cbn zeta. unfold get_process_status_summary.
  set (n := Z.of_nat (size ps)).
  assert (Hfold :
    let s := map_fold (fun (_ : string) info s => summary_step info s)
               (mkSummary n 0 0 0 0 0) ps in
    total s = n /\
    running s = count_status RUNNING ps /\
    stopped s = count_status STOPPED ps /\
    error s = count_status ERROR ps /\
    starting s = count_status STARTING ps /\
    stopping s = count_status STOPPING ps /\
    running s + stopped s + error s + starting s + stopping s
      = Z.of_nat (size ps)).
  { apply (map_fold_weak_ind
      (fun (s : Summary) (m : Processes) =>
         total s = n /\
         running s = count_status RUNNING m /\
         stopped s = count_status STOPPED m /\
         error s = count_status ERROR m /\
         starting s = count_status STARTING m /\
         stopping s = count_status STOPPING m /\
         running s + stopped s + error s + starting s + stopping s
           = Z.of_nat (size m))).
    - cbn. unfold count_status. rewrite !map_filter_empty, !map_size_empty.
      repeat split; reflexivity.
    - intros i x m s Hnone (Ht & Hr & Hs & He & Ha & Ho & Hsum).
      rewrite !count_status_insert by exact Hnone.
      rewrite map_size_insert_None, Nat2Z.inj_succ by exact Hnone.
      unfold summary_step.
      destruct (status x);
        repeat first [ rewrite bool_decide_eq_true_2 by reflexivity
                     | rewrite bool_decide_eq_false_2 by discriminate ];
        cbn [total running stopped error starting stopping];
        repeat split; lia. }
  cbn zeta in Hfold. destruct Hfold as (Ht & Hr & Hs & He & Ha & Ho & Hsum).
  repeat split; try assumption. unfold n in *. lia.
Qed.

(** ** The facts on the two example processes *)

Lemma stop_never_sends_stop_witness :
  let info := mkProcessInfo "imu_1" "imu" 1 RUNNING (Some (mkPopen (Some [])))
                (Some 0) None in
  stop_request example_processes "imu_1" info (fun _ => true)
    = <["imu_1" := set_status STOPPING info]> example_processes /\
  (forall j, j <> "imu_1" ->
     (stop_process example_processes "imu_1" (fun _ => true) Terminated).2 !! j
       = example_processes !! j) /\
  stop_process example_processes "imu_1" (fun _ => true) Terminated
    = (true, <["imu_1" := stopped_info info]> example_processes).
Proof.
  cbv zeta.
  apply (stop_never_sends_stop example_processes "imu_1"
           (mkProcessInfo "imu_1" "imu" 1 RUNNING (Some (mkPopen (Some [])))
              (Some 0) None) (fun _ => true) Terminated).
  - vm_compute. reflexivity.
  - reflexivity.
Defined.

Lemma start_all_result_witness :
  let r := start_all_processes example_processes (fun _ => 7) (fun _ => true) in
  r.2 !! "imu_1" = example_processes !! "imu_1" /\
  r.2 !! "camera_1" =
    Some (mkProcessInfo "camera_1" "camera" 1 RUNNING (Some (mkPopen (Some [])))
            (Some 7) None).
Proof.
  cbv zeta.
  pose proof (start_all_result example_processes (fun _ => 7) (fun _ => true))
    as (_ & Hkeep & Hstart & _).
  split.
  - apply (Hkeep "imu_1"
             (mkProcessInfo "imu_1" "imu" 1 RUNNING (Some (mkPopen (Some [])))
                (Some 0) None)); [vm_compute; reflexivity | discriminate].
  - apply (Hstart "camera_1"
             (mkProcessInfo "camera_1" "camera" 1 STOPPED None None None));
      [vm_compute; reflexivity | reflexivity | reflexivity].
Defined.

Lemma stop_all_result_witness :
  let r := stop_all_processes example_processes (fun _ => true) (fun _ => Exited) in
  (forall pid info, r.2 !! pid = Some info -> status info <> RUNNING) /\
  r.2 !! "camera_1" = example_processes !! "camera_1".
Proof.
  cbv zeta.
  pose proof (stop_all_result example_processes (fun _ => true) (fun _ => Exited))
    as (Hnone & Hkeep & _).
  split; [exact Hnone |].
  apply (Hkeep "camera_1"
           (mkProcessInfo "camera_1" "camera" 1 STOPPED None None None));
    [vm_compute; reflexivity | discriminate].
Defined.

Lemma error_is_final_witness :
  let ps := (start_process example_processes "camera_1" 5 false).2 in
  let info := mkProcessInfo "camera_1" "camera" 1 ERROR None None (Some "spawn") in
  let ps' :=
    foldl apply_op ps
      [OpStartAll (fun _ => 6) (fun _ => true); OpMonitor (fun _ => Some 0);
       OpStart "camera_1" 9 true] in
  ps' !! "camera_1" = Some info /\
  (forall now spawn_ok, start_process ps' "camera_1" now spawn_ok = (false, ps')) /\
  (forall write_ok wait, stop_process ps' "camera_1" write_ok wait = (false, ps')) /\
  (forall msg write_ok, send_command ps' "camera_1" msg write_ok = (false, ps')).
Proof.
  cbv zeta.
  apply (error_is_final (start_process example_processes "camera_1" 5 false).2).
  - vm_compute. reflexivity.
  - reflexivity.
Defined.

Lemma monitor_result_witness :
  let ps' := monitor_processes example_processes (fun _ => Some 0) in
  ps' !! "imu_1" =
    Some (stopped_info
            (mkProcessInfo "imu_1" "imu" 1 RUNNING (Some (mkPopen (Some [])))
               (Some 0) None)) /\
  forall now, (start_process ps' "imu_1" now true).1 = true.
Proof.
  cbv zeta.
  apply (monitor_result example_processes (fun _ => Some 0) "imu_1"
           (mkProcessInfo "imu_1" "imu" 1 RUNNING (Some (mkPopen (Some [])))
              (Some 0) None)).
  - vm_compute. reflexivity.
  - reflexivity.
  - cbn. eauto.
  - reflexivity.
Defined.

Lemma summary_counts_witness :
  let s := get_process_status_summary example_processes in
  total s = running s + stopped s + error s + starting s + stopping s.
Proof.
  cbv zeta. apply (summary_counts example_processes).
Defined.

(** The summary of the two example processes. *)
Example summary_example :
  get_process_status_summary example_processes = mkSummary 2 1 1 0 0 0.
Proof. vm_compute. reflexivity. Qed.

(** ** What a broadcast writes *)

Lemma send_command_lookup (ps : Processes) i x msg write_ok :
  ps !! i = Some x ->
  (send_command ps i msg write_ok).2 !! i =
    Some (if bool_decide (status x = RUNNING) then
            match process x with
            | Some (mkPopen (Some lines)) =>
                if write_ok i
                then set_process (Some (mkPopen (Some (lines ++ [msg])))) x
                else x
            | _ => x
            end
          else x) /\
  forall j, j <> i -> (send_command ps i msg write_ok).2 !! j = ps !! j.
Proof.
  intros Hx. unfold send_command. rewrite Hx.
  case_bool_decide; [| auto].
  destruct (process x) as [[[lines |]] |]; cbn; auto.
  destruct (write_ok i); cbn; [| auto].
  rewrite lookup_insert_eq. split; [reflexivity |].
  intros j Hj. now rewrite lookup_insert_ne by congruence.
Qed.

Lemma broadcast_lookup (ps : Processes) (msg : Message) (write_ok : string -> bool)
    (pid : string) :
  (send_command_to_all ps msg write_ok).2 !! pid =
    (fun x =>
       if bool_decide (status x = RUNNING) then
         match process x with
         | Some (mkPopen (Some lines)) =>
             if write_ok pid
             then set_process (Some (mkPopen (Some (lines ++ [msg])))) x
             else x
         | _ => x
         end
       else x) <$> (ps !! pid).
Proof.
  set (deliver := fun (pid : string) (x : ProcessInfo) =>
         if bool_decide (status x = RUNNING) then
           match process x with
           | Some (mkPopen (Some lines)) =>
               if write_ok pid
               then set_process (Some (mkPopen (Some (lines ++ [msg])))) x
               else x
           | _ => x
           end
         else x).
  change ((send_command_to_all ps msg write_ok).2 !! pid
          = deliver pid <$> (ps !! pid)).
  assert (Hgen : forall sub : Processes, sub ⊆ ps ->
    (forall j x, sub !! j = Some x ->
       (map_fold (broadcast_step msg write_ok) (0, 0, ps) sub).2 !! j
         = Some (deliver j x)) /\
    (forall j, sub !! j = None ->
       (map_fold (broadcast_step msg write_ok) (0, 0, ps) sub).2 !! j = ps !! j)).
  { intros sub.
    apply (map_fold_weak_ind
      (fun (acc : Z * Z * Processes) (sub : Processes) =>
         sub ⊆ ps ->
         (forall j x, sub !! j = Some x -> acc.2 !! j = Some (deliver j x)) /\
         (forall j, sub !! j = None -> acc.2 !! j = ps !! j))).
    - intros _. split; [| reflexivity].
      intros j x Hj. rewrite lookup_empty in Hj. discriminate.
    - clear sub. intros i x sub [[sc tr] acc] Hnone IH Hsub. cbn [snd] in *.
      assert (Hps : ps !! i = Some x).
      { eapply map_subseteq_spec; [exact Hsub |]. apply lookup_insert_eq. }
      assert (Hsub' : sub ⊆ ps).
      { apply map_subseteq_spec. intros j y Hj.
        eapply map_subseteq_spec; [exact Hsub |].
        rewrite lookup_insert_ne; [exact Hj | congruence]. }
      destruct (IH Hsub') as [Hin Hout].
      assert (Hacc : acc !! i = Some x) by (rewrite Hout by exact Hnone; exact Hps).
      assert (Hstep : forall j,
                (broadcast_step msg write_ok i x (sc, tr, acc)).2 !! j
                = if decide (j = i) then Some (deliver i x) else acc !! j).
      { intros j. unfold broadcast_step.
        destruct (send_command_lookup acc i x msg write_ok Hacc) as [Hself Hother].
        case_bool_decide as Hrun.
        - destruct (send_command acc i msg write_ok) as [sent acc'].
          cbn [snd] in *. destruct (decide (j = i)) as [-> | Hne].
          + rewrite Hself. unfold deliver.
            now rewrite bool_decide_eq_true_2 by exact Hrun.
          + now apply Hother.
        - cbn [snd]. destruct (decide (j = i)) as [-> | Hne]; [| reflexivity].
          rewrite Hacc. unfold deliver.
          now rewrite bool_decide_eq_false_2 by exact Hrun. }
      split.
      + intros j y Hj. rewrite Hstep. destruct (decide (j = i)) as [-> | Hne].
        * rewrite lookup_insert_eq in Hj. now inversion Hj.
        * rewrite lookup_insert_ne in Hj by congruence. now apply Hin.
      + intros j Hj. apply lookup_insert_None in Hj as [Hj Hne].
        rewrite Hstep, decide_False by congruence. now apply Hout. }
  destruct (Hgen ps) as [Hin Hout]; [reflexivity |].
  unfold send_command_to_all.
  destruct (map_fold (broadcast_step msg write_ok) (0, 0, ps) ps)
    as [[sc tr] ps'] eqn:Hfold.
  cbn [snd] in Hin, Hout.
  assert (Hres : (if tr =? 0 then (false, ps') else (0 <? sc, ps')).2 = ps')
    by (destruct (tr =? 0); reflexivity).
  rewrite Hres. destruct (ps !! pid) as [x |] eqn:Hl; cbn.
  - now apply Hin.
  - rewrite Hout by exact Hl. exact Hl.
Qed.

(** X28. A broadcast writes its line exactly once, at the end of the
    pipe, to every process that is RUNNING with a pipe and whose write
    succeeds; every other record is left exactly as it was (a failed
    write, a process that is not running), and no status changes. *)
Theorem broadcast_writes_once (ps : Processes) (msg : Message)
    (write_ok : string -> bool) :
  let r := send_command_to_all ps msg write_ok in
  (forall pid info lines,
     ps !! pid = Some info -> status info = RUNNING ->
     process info = Some (mkPopen (Some lines)) -> write_ok pid = true ->
     r.2 !! pid = Some (set_process (Some (mkPopen (Some (lines ++ [msg])))) info)) /\
  (forall pid info,
     ps !! pid = Some info -> ~ accepts write_ok pid info ->
     r.2 !! pid = Some info) /\
  (forall pid, status <$> (r.2 !! pid) = status <$> (ps !! pid)).
Proof.
  cbn zeta. split; [| split].
  - intros pid info lines Hl Hrun Hp Hw. rewrite broadcast_lookup, Hl. cbn.
    now rewrite bool_decide_eq_true_2, Hp, Hw by exact Hrun.
  - intros pid info Hl Hna. rewrite broadcast_lookup, Hl. cbn.
    case_bool_decide as Hrun; [| reflexivity].
    destruct (process info) as [[[lines |]] |] eqn:Hp; try reflexivity.
    destruct (write_ok pid) eqn:Hw; [| reflexivity].
    exfalso. apply Hna. unfold accepts. eauto.
  - intros pid. rewrite broadcast_lookup.
    destruct (ps !! pid) as [info |]; [| reflexivity]. cbn.
    case_bool_decide; [| reflexivity].
    destruct (process info) as [[[lines |]] |]; try reflexivity.
    destruct (write_ok pid); reflexivity.
Qed.

Lemma broadcast_writes_once_witness :
  let r := send_command_to_all example_processes start_recording (fun _ => true) in
  r.2 !! "imu_1" =
    Some (mkProcessInfo "imu_1" "imu" 1 RUNNING
            (Some (mkPopen (Some [start_recording]))) (Some 0) None) /\
  r.2 !! "camera_1" = example_processes !! "camera_1".
Proof.
  cbv zeta.
  pose proof (broadcast_writes_once example_processes start_recording (fun _ => true))
    as (Hsent & Hkept & _).
  split.
  - apply (Hsent "imu_1"
             (mkProcessInfo "imu_1" "imu" 1 RUNNING (Some (mkPopen (Some [])))
                (Some 0) None) []);
      [vm_compute; reflexivity | reflexivity | reflexivity | reflexivity].
  - apply (Hkept "camera_1"
             (mkProcessInfo "camera_1" "camera" 1 STOPPED None None None));
      [vm_compute; reflexivity |].
    intros (Hrun & _). discriminate.
Defined.

End ProcessExtra.

(* ===================================================================== *)
(** * Further facts about the camera manager *)
(* ===================================================================== *)

Module CameraExtra.
Import CameraManager.

(** ** The lock *)

Lemma disconnect_all_held (ids : list Z) release_ok (m : Manager) events :
  ids <> [] -> disconnect_all true ids release_ok m events = Blocks.
Proof. destruct ids; [congruence | reflexivity]. Qed.

(** X18. [cleanup] takes the lock and, still holding it, calls
    [disconnect_camera], which takes the same lock: with at least one
    known camera the call blocks on itself, before any capture is
    released or any record cleared.  It returns only when there is no
    camera to clean up. *)
Theorem cleanup_blocks_on_itself (m : Manager) (release_ok : Z -> bool) :
  (cameras m <> ∅ -> cleanup false m release_ok = Blocks) /\
  (cameras m = ∅ -> cleanup false m release_ok = Returns (set_cameras ∅ m, [])).
Proof.
  unfold cleanup, with_lock. split; intros Hm.
  - rewrite disconnect_all_held; [reflexivity |].
    intros Hnil. apply fmap_nil_inv in Hnil.
    apply map_to_list_empty_iff in Hnil. contradiction.
  - rewrite Hm, map_to_list_empty. reflexivity.
Qed.

(** ** Capturing *)

(** X19. [capture_frame] gives no frame and changes nothing unless the
    camera is CONNECTED with a capture attached (a camera in state
    RECORDING gives none).  A failed read disconnects the camera: its
    capture is released, its record is DISCONNECTED with no timestamps,
    the disconnect callback is told; later calls give no frame until
    the camera is connected again.  When releasing fails too the camera
    is left CONNECTED. *)
Theorem failed_read_disconnects (m : Manager) (camera_id : Z) (camera : CameraDevice) :
  cameras m !! camera_id = Some camera ->
  (state camera <> CONNECTED \/ capture camera = false ->
   forall read release_ok,
     capture_frame false m camera_id read release_ok = Returns (None, m, [])) /\
  (state camera = CONNECTED -> capture camera = true ->
   let m' :=
     set_cameras (<[camera_id := disconnected_device camera]> (cameras m)) m in
   capture_frame false m camera_id ReadFailed true
     = Returns (None, m', [camera_disconnected camera_id]) /\
   (forall read release_ok,
      capture_frame false m' camera_id read release_ok = Returns (None, m', [])) /\
   capture_frame false m camera_id ReadFailed false = Returns (None, m, [])).
Proof.
  intros Hl. split.
  - intros Hcase read release_ok. unfold capture_frame, with_lock. rewrite Hl.
    destruct Hcase as [Hst | Hcap].
    + now rewrite bool_decide_eq_false_2 by exact Hst.
    + rewrite Hcap. now rewrite orb_true_r.
  - intros Hst Hcap. cbn zeta. split; [| split].
    + unfold capture_frame, disconnect_camera, with_lock. rewrite Hl, Hcap.
      rewrite bool_decide_eq_true_2 by exact Hst. reflexivity.
    + intros read release_ok. unfold capture_frame, with_lock. cbn.
      rewrite lookup_insert_eq. reflexivity.
    + unfold capture_frame, disconnect_camera, with_lock. rewrite Hl, Hcap.
      rewrite bool_decide_eq_true_2 by exact Hst. reflexivity.
Qed.

(** ** Counting the cameras in use *)

Lemma count_size (cs : gmap Z CameraDevice) :
  length (filter (fun kv : Z * CameraDevice =>
                    state kv.2 = CONNECTED \/ state kv.2 = RECORDING)
            (map_to_list cs))
  = size (filter (fun kv : Z * CameraDevice => in_use kv.2) cs).
Proof.
  induction cs as [| i x cs Hnone IH] using map_ind.
  - now rewrite map_to_list_empty, map_filter_empty, map_size_empty.
  - transitivity
      (length (filter (fun kv : Z * CameraDevice =>
                         state kv.2 = CONNECTED \/ state kv.2 = RECORDING)
                 ((i, x) :: map_to_list cs))).
    { apply Permutation_length. now rewrite map_to_list_insert. }
    destruct (decide (in_use x)) as [Hin | Hout].
    + rewrite filter_cons_True by exact Hin.
      rewrite map_filter_insert_True by exact Hin.
      rewrite map_size_insert_None; [cbn; now rewrite IH |].
      apply map_lookup_filter_None. now left.
    + rewrite filter_cons_False by exact Hout.
      rewrite map_filter_insert_False by exact Hout.
      rewrite delete_id by exact Hnone. exact IH.
Qed.

Lemma connected_count_size (m : Manager) :
  connected_count m
  = Z.of_nat (size (filter (fun kv : Z * CameraDevice => in_use kv.2) (cameras m))).
Proof. unfold connected_count. now rewrite count_size. Qed.

Lemma size_delete_lookup (cs : gmap Z CameraDevice) i :
  Z.of_nat (size (delete i cs))
  = Z.of_nat (size cs) - (match cs !! i with Some _ => 1 | None => 0 end).
Proof.
  destruct (cs !! i) as [x |] eqn:Hl.
  - rewrite <- (insert_delete_id cs i x Hl) at 2.
    rewrite map_size_insert_None by apply lookup_delete_eq. lia.
  - rewrite delete_id by exact Hl. lia.
Qed.

Lemma count_insert (m : Manager) i (y : CameraDevice) :
  connected_count (set_cameras (<[i := y]> (cameras m)) m)
  = connected_count m
    - (match cameras m !! i with
       | Some x => if decide (in_use x) then 1 else 0
       | None => 0
       end)
    + (if decide (in_use y) then 1 else 0).
Proof.
  rewrite !connected_count_size. cbn [cameras set_cameras].
  set (P := fun kv : Z * CameraDevice => in_use kv.2).
  assert (Hdel : Z.of_nat (size (filter P (delete i (cameras m))))
                 = Z.of_nat (size (filter P (cameras m)))
                   - match cameras m !! i with
                     | Some x => if decide (in_use x) then 1 else 0
                     | None => 0
                     end).
  { rewrite map_filter_delete, size_delete_lookup.
    destruct (cameras m !! i) as [x |] eqn:Hl.
    - destruct (decide (in_use x)) as [Hin | Hout].
      + rewrite (proj2 (map_lookup_filter_Some P (cameras m) i x)); [reflexivity |].
        split; [exact Hl | exact Hin].
      + rewrite (proj2 (map_lookup_filter_None P (cameras m) i)); [reflexivity |].
        right. intros x' Hx'. rewrite Hl in Hx'. inversion Hx'; subst. exact Hout.
    - rewrite (proj2 (map_lookup_filter_None P (cameras m) i)); [reflexivity |].
      now left. }
  rewrite <- insert_delete_eq.
  destruct (decide (in_use y)) as [Hin | Hout].
  - rewrite map_filter_insert_True by exact Hin.
    rewrite map_size_insert_None.
    + rewrite Nat2Z.inj_succ, Hdel. lia.
    + apply map_lookup_filter_None. left. apply lookup_delete_eq.
  - rewrite map_filter_insert_False by exact Hout.
    rewrite delete_delete_eq, Hdel. lia.
Qed.

(** ** Scanning *)

Section Scan.

Variable probe : Z -> option (Z * Z * Q).

Lemma scan_probe_step (m : Manager) (found : gset Z) events i :
  exists m1 found1 events1,
    scan_probe probe (m, found, events) i = (m1, found1, events1) /\
    (forall j, j ∈ found1 <-> j ∈ found \/ (j = i /\ is_Some (probe i))) /\
    (forall j, j ∈ found -> cameras m1 !! j = cameras m !! j) /\
    (forall j c, cameras m !! j = Some c ->
       exists c', cameras m1 !! j = Some c' /\ state c' = state c /\
                  capture c' = capture c /\
                  frame_timestamps c' = frame_timestamps c) /\
    (forall j c', cameras m1 !! j = Some c' -> cameras m !! j = None ->
       j ∈ found1 /\ state c' = DISCONNECTED /\ frame_timestamps c' = []) /\
    (forall j, j ∈ found1 -> j ∉ found -> is_Some (cameras m1 !! j)) /\
    max_cameras m1 = max_cameras m.
Proof.
  assert (Hsame : (i ∈ found \/ probe i = None) ->
    (forall j, j ∈ found <-> j ∈ found \/ (j = i /\ is_Some (probe i))) /\
    (forall j, j ∈ found -> cameras m !! j = cameras m !! j) /\
    (forall j c, cameras m !! j = Some c ->
       exists c', cameras m !! j = Some c' /\ state c' = state c /\
                  capture c' = capture c /\
                  frame_timestamps c' = frame_timestamps c) /\
    (forall j c', cameras m !! j = Some c' -> cameras m !! j = None ->
       j ∈ found /\ state c' = DISCONNECTED /\ frame_timestamps c' = []) /\
    (forall j, j ∈ found -> j ∉ found -> is_Some (cameras m !! j)) /\
    max_cameras m = max_cameras m).
  { intros Hcase. split; [| split; [| split; [| split; [| split]]]].
    - intros j. split; [now left |].
      intros [? | [-> [x Hx]]]; [assumption |].
      destruct Hcase as [? | Hnone]; [assumption | congruence].
    - reflexivity.
    - intros j c Hj. exists c. auto.
    - intros j c' Hj Hn. congruence.
    - intros j Hj Hn. contradiction.
    - reflexivity. }
  unfold scan_probe. case_bool_decide as Hin.
  { exists m, found, events. split; [reflexivity | apply Hsame; now left]. }
  destruct (probe i) as [[[w h] f] |] eqn:Hp.
  2:{ exists m, found, events. split; [reflexivity | apply Hsame; now right]. }
  clear Hsame.
  destruct (cameras m !! i) as [device |] eqn:Hl;
    eexists _, _, _; (split; [reflexivity |]); cbn [cameras set_cameras max_cameras].
  - split; [| split; [| split; [| split; [| split]]]].
    + intros j. rewrite elem_of_union, elem_of_singleton. split.
      * intros [? | ->]; [now left | right; eauto].
      * intros [? | [-> _]]; [now left | now right].
    + intros j Hj. rewrite lookup_insert_ne; [reflexivity |]. intros ->. contradiction.
    + intros j c Hj. destruct (decide (j = i)) as [-> | Hne].
      * rewrite lookup_insert_eq. rewrite Hl in Hj. inversion Hj; subst.
        eexists. split; [reflexivity |]. cbn. auto.
      * rewrite lookup_insert_ne by congruence. eauto.
    + intros j c' Hj Hn. destruct (decide (j = i)) as [-> | Hne]; [congruence |].
      rewrite lookup_insert_ne in Hj by congruence. congruence.
    + intros j Hj Hn. apply elem_of_union in Hj as [? | Hj]; [contradiction |].
      apply elem_of_singleton in Hj as ->. rewrite lookup_insert_eq. eauto.
    + reflexivity.
  - split; [| split; [| split; [| split; [| split]]]].
    + intros j. rewrite elem_of_union, elem_of_singleton. split.
      * intros [? | ->]; [now left | right; eauto].
      * intros [? | [-> _]]; [now left | now right].
    + intros j Hj. rewrite lookup_insert_ne; [reflexivity |]. intros ->. contradiction.
    + intros j c Hj. destruct (decide (j = i)) as [-> | Hne]; [congruence |].
      rewrite lookup_insert_ne by congruence. eauto.
    + intros j c' Hj Hn. destruct (decide (j = i)) as [-> | Hne].
      * rewrite lookup_insert_eq in Hj. inversion Hj; subst. cbn.
        split; [| auto]. apply elem_of_union. right. now apply elem_of_singleton.
      * rewrite lookup_insert_ne in Hj by congruence. congruence.
    + intros j Hj Hn. apply elem_of_union in Hj as [? | Hj]; [contradiction |].
      apply elem_of_singleton in Hj as ->. rewrite lookup_insert_eq. eauto.
    + reflexivity.
Qed.

Lemma scan_fold (ids : list Z) : forall (m : Manager) (found : gset Z) events,
  exists m' found' events',
    foldl (scan_probe probe) (m, found, events) ids = (m', found', events') /\
    (forall j, j ∈ found' <-> j ∈ found \/ (j ∈ ids /\ is_Some (probe j))) /\
    (forall j, j ∈ found -> cameras m' !! j = cameras m !! j) /\
    (forall j c, cameras m !! j = Some c ->
       exists c', cameras m' !! j = Some c' /\ state c' = state c /\
                  capture c' = capture c /\
                  frame_timestamps c' = frame_timestamps c) /\
    (forall j c', cameras m' !! j = Some c' -> cameras m !! j = None ->
       j ∈ found' /\ state c' = DISCONNECTED /\ frame_timestamps c' = []) /\
    (forall j, j ∈ found' -> j ∉ found -> is_Some (cameras m' !! j)) /\
    max_cameras m' = max_cameras m.
Proof.
  induction ids as [| i ids IH]; intros m found events.
  - exists m, found, events. split; [reflexivity |].
    split; [| split; [| split; [| split; [| split]]]]; eauto.
    + intros j. split; [now left |]. intros [? | [Hj _]]; [assumption | inversion Hj].
    + intros j c' Hj Hn. congruence.
    + intros j Hj Hn. contradiction.
  - destruct (scan_probe_step m found events i)
      as (m1 & found1 & events1 & Hstep & F1 & K1 & S1 & N1 & D1 & M1).
    destruct (IH m1 found1 events1)
      as (m' & found' & events' & Hfold & F2 & K2 & S2 & N2 & D2 & M2).
    exists m', found', events'. cbn [foldl]. rewrite Hstep.
    split; [exact Hfold |].
    split; [| split; [| split; [| split; [| split]]]].
    + intros j. rewrite F2, F1, elem_of_cons. split.
      * intros [[? | [-> ?]] | [? ?]]; auto.
      * intros [? | [[-> | ?] ?]]; auto.
    + intros j Hj. rewrite K2 by (apply F1; now left). now apply K1.
    + intros j c Hj. destruct (S1 j c Hj) as (c1 & Hc1 & E1 & E2 & E3).
      destruct (S2 j c1 Hc1) as (c' & Hc' & E1' & E2' & E3').
      exists c'. split; [exact Hc' |]. repeat split; congruence.
    + intros j c' Hj Hn. destruct (cameras m1 !! j) as [c1 |] eqn:Hc1.
      * destruct (N1 j c1 Hc1 Hn) as (Hf & Hs & Ht).
        destruct (S2 j c1 Hc1) as (c2 & Hc2 & E1 & E2 & E3).
        rewrite Hj in Hc2. inversion Hc2; subst c2.
        split; [apply F2; now left |]. split; congruence.
      * now apply N2.
    + intros j Hj Hn. destruct (decide (j ∈ found1)) as [Hj1 | Hj1].
      * destruct (D1 j Hj1 Hn) as [c1 Hc1].
        destruct (S2 j c1 Hc1) as (c2 & Hc2 & _). eauto.
      * now apply D2.
    + congruence.
Qed.

Lemma scan_cameras_spec (m : Manager) :
  exists m' events,
    scan_cameras false m probe = Returns (m', events) /\
    (forall j c, cameras m !! j = Some c -> in_use c -> cameras m' !! j = Some c) /\
    (forall j c', cameras m' !! j = Some c' -> state c' = DISCONNECTED ->
       0 <= j <= 10 /\ is_Some (probe j)) /\
    (forall j c, cameras m !! j = Some c -> state c <> DISCONNECTED ->
       exists c', cameras m' !! j = Some c' /\ state c' = state c /\
                  capture c' = capture c /\
                  frame_timestamps c' = frame_timestamps c) /\
    (forall j, 0 <= j <= 10 -> is_Some (probe j) -> is_Some (cameras m' !! j)) /\
    connected_count m' = connected_count m /\
    (forall j c', cameras m' !! j = Some c' ->
       frame_timestamps c' = [] \/
       exists c, cameras m !! j = Some c /\
                 frame_timestamps c' = frame_timestamps c) /\
    max_cameras m' = max_cameras m.
Proof.
  unfold scan_cameras, with_lock.
  set (found0 := dom (filter (fun kv : Z * CameraDevice => in_use kv.2) (cameras m))).
  destruct (scan_fold (seqZ 0 11) m found0 [])
    as (m1 & found1 & events1 & Hfold & F & K & S & N & D & M).
  rewrite Hfold.
  assert (Hfound0 : forall j, j ∈ found0 <->
                      exists c, cameras m !! j = Some c /\ in_use c).
  { intros j. unfold found0. rewrite elem_of_dom. split.
    - intros [c Hc]. apply map_lookup_filter_Some in Hc as [Hc Hin]. eauto.
    - intros (c & Hc & Hin). exists c. apply map_lookup_filter_Some. auto. }
  assert (Hrange : forall j, j ∈ seqZ 0 11 <-> 0 <= j <= 10).
  { intros j. rewrite elem_of_seqZ. lia. }
  assert (Huse : forall j c, cameras m !! j = Some c -> in_use c ->
                   cameras m1 !! j = Some c /\ j ∈ found1).
  { intros j c Hj Hin.
    assert (Hf : j ∈ found0) by (apply Hfound0; eauto).
    split; [rewrite K by exact Hf; exact Hj | apply F; now left]. }
  eexists _, _. split; [reflexivity |]. cbn [cameras set_cameras].
  split; [| split; [| split; [| split; [| split; [| split]]]]].
  - intros j c Hj Hin. destruct (Huse j c Hj Hin) as [Hj1 Hf].
    apply map_lookup_filter_Some. split; [exact Hj1 |].
    cbn. intros [Hnf _]. contradiction.
  - intros j c' Hj Hst.
    apply map_lookup_filter_Some in Hj as [Hj Hkeep]. cbn in Hkeep.
    assert (Hf : j ∈ found1).
    { destruct (decide (j ∈ found1)); [assumption |]. exfalso. apply Hkeep. auto. }
    apply F in Hf as [Hf | [Hf Hp]]; [| split; [now apply Hrange | exact Hp]].
    exfalso. apply Hfound0 in Hf as (c & Hc & Hin).
    destruct (Huse j c Hc Hin) as [Hj1 _].
    rewrite Hj in Hj1. inversion Hj1; subst.
    destruct Hin as [Hin | Hin]; congruence.
  - intros j c Hj Hst. destruct (S j c Hj) as (c' & Hc' & E1 & E2 & E3).
    exists c'. split; [| auto].
    apply map_lookup_filter_Some. split; [exact Hc' |].
    cbn. intros [_ Hd]. congruence.
  - intros j Hr Hp.
    assert (Hf : j ∈ found1) by (apply F; right; split; [now apply Hrange | exact Hp]).
    assert (Hsome : is_Some (cameras m1 !! j)).
    { destruct (decide (j ∈ found0)) as [Hf0 | Hf0]; [| now apply D].
      apply Hfound0 in Hf0 as (c & Hc & Hin).
      destruct (Huse j c Hc Hin) as [Hj1 _]. eauto. }
    destruct Hsome as [c1 Hc1]. exists c1.
    apply map_lookup_filter_Some. split; [exact Hc1 |].
    cbn. intros [Hnf _]. contradiction.
  - rewrite !connected_count_size. cbn [cameras set_cameras]. f_equal. f_equal.
    apply map_eq. intros j. apply option_eq. intros c.
    rewrite !map_lookup_filter_Some. cbn. split.
    + intros [[Hj Hkeep] Hin].
      destruct (cameras m !! j) as [c0 |] eqn:Hc0.
      * destruct (S j c0 Hc0) as (c' & Hc' & E1 & _).
        rewrite Hj in Hc'. inversion Hc'; subst c'.
        assert (Hin0 : in_use c0) by (unfold in_use in *; rewrite <- E1; exact Hin).
        destruct (Huse j c0 Hc0 Hin0) as [Hj1 _].
        rewrite Hj in Hj1. inversion Hj1; subst. auto.
      * destruct (N j c Hj Hc0) as (_ & Hd & _).
        destruct Hin as [Hin | Hin]; congruence.
    + intros [Hj Hin]. destruct (Huse j c Hj Hin) as [Hj1 Hf].
      split; [| exact Hin]. split; [exact Hj1 |]. intros [Hnf _]. contradiction.
  - intros j c' Hj. apply map_lookup_filter_Some in Hj as [Hj _].
    destruct (cameras m !! j) as [c |] eqn:Hc.
    + right. exists c. split; [reflexivity |].
      destruct (S j c Hc) as (c2 & Hc2 & _ & _ & E3).
      rewrite Hj in Hc2. inversion Hc2; subst. exact E3.
    + left. now destruct (N j c' Hj Hc) as (_ & _ & Ht).
  - exact M.
Qed.


(** X20. [scan_cameras] never touches a camera in use (CONNECTED or
    RECORDING).  Afterwards every DISCONNECTED record is one of the
    indices 0..10 that answered this scan: a DISCONNECTED camera that
    did not answer, or whose index is above 10, is forgotten.  Records
    in any other state are never removed, found or not, and keep their
    state, capture and timestamps; every index that answered has a
    record.  The number of cameras in use is unchanged. *)
Theorem scan_prunes_stale (m : Manager) :
  exists m' events,
    scan_cameras false m probe = Returns (m', events) /\
    (forall j c, cameras m !! j = Some c -> in_use c -> cameras m' !! j = Some c) /\
    (forall j c', cameras m' !! j = Some c' -> state c' = DISCONNECTED ->
       0 <= j <= 10 /\ is_Some (probe j)) /\
    (forall j c, cameras m !! j = Some c -> state c <> DISCONNECTED ->
       exists c', cameras m' !! j = Some c' /\ state c' = state c /\
                  capture c' = capture c /\
                  frame_timestamps c' = frame_timestamps c) /\
    (forall j, 0 <= j <= 10 -> is_Some (probe j) -> is_Some (cameras m' !! j)) /\
    connected_count m' = connected_count m.
Proof.
  destruct (scan_cameras_spec m)
    as (m' & events & Hscan & Huse & Hstale & Hkeep & Hfound & Hcount & _).
  exists m', events. auto 10.
Qed.

End Scan.

(** ** What every call keeps *)

Lemma deque_append_bounded (t : Z) (ts : list Z) :
  (length (deque_append t ts) <= maxlen)%nat.
Proof. unfold deque_append. rewrite length_drop. lia. Qed.

Lemma deque_append_last (t : Z) (ts : list Z) :
  last (deque_append t ts) = Some t.
Proof.
  unfold deque_append.
  assert (Hlen : (length (ts ++ [t]) - maxlen <= length ts)%nat).
  { rewrite length_app. cbn. unfold maxlen. lia. }
  rewrite drop_app_le by exact Hlen. apply last_snoc.
Qed.

Lemma bounded_insert (m : Manager) i (y : CameraDevice) :
  timestamps_bounded m -> (length (frame_timestamps y) <= maxlen)%nat ->
  timestamps_bounded (set_cameras (<[i := y]> (cameras m)) m).
Proof.
  intros Hb Hy j c Hj. cbn in Hj.
  destruct (decide (i = j)) as [-> | Hne].
  - rewrite lookup_insert_eq in Hj. inversion Hj; subst. exact Hy.
  - rewrite lookup_insert_ne in Hj by exact Hne. eapply Hb; eauto.
Qed.

Lemma limit_insert (m : Manager) i (x y : CameraDevice) :
  within_limit m -> cameras m !! i = Some x -> (in_use y -> in_use x) ->
  within_limit (set_cameras (<[i := y]> (cameras m)) m).
Proof.
  intros Hl Hx Himp. unfold within_limit in *. rewrite count_insert, Hx.
  cbn [max_cameras set_cameras].
  destruct (decide (in_use y)) as [Hy | Hy], (decide (in_use x)) as [Hx' | Hx'];
    try lia.
  now destruct Hx'; apply Himp.
Qed.

Lemma disconnect_keeps (m : Manager) i release_ok :
  within_limit m -> timestamps_bounded m ->
  exists r m' events,
    disconnect_camera false m i release_ok = Returns (r, m', events) /\
    within_limit m' /\ timestamps_bounded m'.
Proof.
  intros Hl Hb. unfold disconnect_camera, with_lock.
  destruct (cameras m !! i) as [camera |] eqn:Hc; [| eauto 6].
  destruct (capture camera && negb release_ok); [eauto 6 |].
  eexists _, _, _. split; [reflexivity |]. split.
  - apply (limit_insert m i camera); [exact Hl | exact Hc |].
    intros [Hu | Hu]; discriminate.
  - apply bounded_insert; [exact Hb | cbn; lia].
Qed.

Lemma apply_op_keeps (m : Manager) (op : Op) :
  within_limit m -> timestamps_bounded m ->
  within_limit (apply_op m op) /\ timestamps_bounded (apply_op m op).
Proof.
  intros Hl Hb.
  destruct op as [i w h f outcome | i r | i read r | probe]; cbn [apply_op].
  - unfold connect_camera.
    set (m0 := match cameras m !! i with Some _ => m | None => _ end).
    assert (H0 : within_limit m0 /\ timestamps_bounded m0 /\
                 max_cameras m0 = max_cameras m).
    { unfold m0. destruct (cameras m !! i) eqn:Hc; [auto |].
      split; [| split; [| reflexivity]].
      - unfold within_limit. rewrite count_insert, Hc. cbn [max_cameras set_cameras].
        rewrite decide_False; [unfold within_limit in Hl; lia |].
        intros [Hu | Hu]; discriminate.
      - apply bounded_insert; [exact Hb | cbn; lia]. }
    destruct H0 as (Hl0 & Hb0 & Hmax). clearbody m0.
    destruct (cameras m0 !! i) as [camera |] eqn:Hc; [| auto].
    case_bool_decide as Hconn; [auto |].
    case_bool_decide as Hcing; [auto |].
    destruct (max_cameras m0 <=? connected_count m0) eqn:Hfull; [auto |].
    apply Z.leb_gt in Hfull.
    destruct outcome as [aw ah af now | msg]; cbn [snd].
    + split.
      * unfold within_limit, notify. cbn [max_cameras].
        change (connected_count _) with
          (connected_count
             (set_cameras
                (<[i := mkCameraDevice (id camera) (name camera) aw ah af
                          CONNECTED true None [now]]> (cameras m0)) m0)).
        rewrite count_insert, Hc.
        destruct (decide (in_use camera)), (decide (in_use _)); cbn; lia.
      * apply (bounded_insert m0); [exact Hb0 | cbn; unfold maxlen; lia].
    + split.
      * apply (limit_insert m0 i camera); [exact Hl0 | exact Hc |].
        intros [Hu | Hu]; discriminate.
      * apply (bounded_insert m0); [exact Hb0 | cbn; eapply Hb0; eauto].
  - destruct (disconnect_keeps m i r Hl Hb) as (b & m' & ev & -> & Hl' & Hb'). auto.
  - unfold capture_frame, with_lock.
    destruct (cameras m !! i) as [camera |] eqn:Hc; [| auto].
    destruct (negb (bool_decide (state camera = CONNECTED)) || negb (capture camera));
      [auto |].
    destruct read as [frame now |].
    + split.
      * apply (limit_insert m i camera); [exact Hl | exact Hc | auto].
      * apply bounded_insert; [exact Hb | apply deque_append_bounded].
    + destruct (disconnect_keeps m i r Hl Hb) as (b & m' & ev & -> & Hl' & Hb').
      auto.
  - destruct (scan_cameras_spec probe m)
      as (m' & events & -> & _ & _ & _ & _ & Hcount & Hts & Hmax).
    split.
    + unfold within_limit in *. rewrite Hcount, Hmax. exact Hl.
    + intros j c' Hj. destruct (Hts j c' Hj) as [-> | (c & Hc & ->)].
      * cbn. lia.
      * eapply Hb; eauto.
Qed.

(** X21. Whatever sequence of connects, disconnects, captures and scans
    is made on a manager that starts with no camera, no more than
    [max_cameras] cameras are ever CONNECTED or RECORDING, and no camera
    ever holds more than 30 frame timestamps (so the measured frame
    rate is always over the last 30 frames at most). *)
Theorem limit_and_window_kept (m : Manager) (ops : list Op) :
  cameras m = ∅ -> 0 <= max_cameras m ->
  let m' := foldl apply_op m ops in
  connected_count m' <= max_cameras m' /\
  forall camera_id c,
    cameras m' !! camera_id = Some c -> (length (frame_timestamps c) <= 30)%nat.
Proof.
  intros Hempty Hmax. cbn zeta.
  assert (Hinit : within_limit m /\ timestamps_bounded m).
  { split.
    - unfold within_limit, connected_count. rewrite Hempty, map_to_list_empty.
      cbn. exact Hmax.
    - intros j c Hj. rewrite Hempty, lookup_empty in Hj. discriminate. }
  clear Hempty Hmax. revert m Hinit.
  induction ops as [| op ops IH]; intros m [Hl Hb]; cbn [foldl].
  - split; [exact Hl | exact Hb].
  - apply IH. now apply apply_op_keeps.
Qed.

(** ** The facts on a manager with one connected camera *)

Lemma cleanup_blocks_on_itself_witness :
  cleanup false full_manager (fun _ => true) = Blocks /\
  cleanup false (set_cameras ∅ full_manager) (fun _ => true)
    = Returns (set_cameras ∅ (set_cameras ∅ full_manager), []).
Proof.
  split.
  - apply (proj1 (cleanup_blocks_on_itself full_manager (fun _ => true))).
    intros Hm. apply (f_equal (fun cs => cs !! 0)) in Hm. vm_compute in Hm.
    discriminate.
  - apply (proj2 (cleanup_blocks_on_itself (set_cameras ∅ full_manager)
                    (fun _ => true))).
    reflexivity.
Defined.

Lemma failed_read_disconnects_witness :
  let m' :=
    set_cameras (<[0 := disconnected_device connected_camera]> (cameras full_manager))
      full_manager in
  capture_frame false full_manager 0 ReadFailed true
    = Returns (None, m', [camera_disconnected 0]) /\
  (forall read release_ok,
     capture_frame false m' 0 read release_ok = Returns (None, m', [])) /\
  capture_frame false full_manager 0 ReadFailed false
    = Returns (None, full_manager, []).
Proof.
  cbv zeta.
  apply (proj2 (failed_read_disconnects full_manager 0 connected_camera
                  ltac:(vm_compute; reflexivity))); reflexivity.
Defined.

Lemma scan_prunes_stale_witness :
  exists m' events,
    scan_cameras false full_manager (fun _ => None) = Returns (m', events) /\
    cameras m' !! 0 = Some connected_camera /\
    connected_count m' = connected_count full_manager.
Proof.
  destruct (scan_prunes_stale (fun _ => None) full_manager)
    as (m' & events & Hscan & Huse & _ & _ & _ & Hcount).
  exists m', events. split; [exact Hscan |]. split; [| exact Hcount].
  apply Huse; [vm_compute; reflexivity | left; reflexivity].
Defined.

Lemma limit_and_window_kept_witness :
  let m' :=
    foldl apply_op (set_cameras ∅ full_manager)
      [OpConnect 0 None None None (Opened 1920 1080 (30 # 1)%Q 5);
       OpCapture 0 (FrameRead [] 6) true;
       OpConnect 1 None None None (Opened 640 480 (30 # 1)%Q 7)] in
  connected_count m' <= max_cameras m' /\
  forall camera_id c,
    cameras m' !! camera_id = Some c -> (length (frame_timestamps c) <= 30)%nat.
Proof.
  cbv zeta. apply (limit_and_window_kept (set_cameras ∅ full_manager)).
  - reflexivity.
  - vm_compute. discriminate.
Defined.

(** On the manager whose one allowed connection is taken, connecting a
    second camera is refused and leaves one camera in use. *)
Example second_camera_refused :
  let r := connect_camera full_manager 1 None None None
             (Opened 640 480 (30 # 1)%Q 7) in
  r.1 = false /\ connected_count r.2 = 1.
Proof. vm_compute. split; reflexivity. Qed.

End CameraExtra.

(* ===================================================================== *)
(** * Further facts about the IMU manager *)
(* ===================================================================== *)

Module IMUManagerExtra.
Import IMUManager.

Lemma update_device_lookup (m : Manager) (a : string) (f : IMUDevice -> IMUDevice)
    (d : IMUDevice) :
  devices m !! a = Some d -> devices (update_device a f m) !! a = Some (f d).
Proof. intros Hd. unfold update_device. cbn. now rewrite lookup_alter_eq, Hd. Qed.

Lemma manual_flag_lookup (m : Manager) (a : string) (d : IMUDevice) :
  devices m !! a = Some d -> manual_flag m a = manual_disconnect d.
Proof. intros Hd. unfold manual_flag. now rewrite Hd. Qed.

(** The record of the device after a [connect_device] that passes the
    guards has the manual-disconnect flag cleared. *)
Lemma connect_device_clears_flag (m : Manager) (a : string) (dev : IMUDevice)
    (outcome : ConnectOutcome) :
  devices m !! a = Some dev ->
  state dev <> CONNECTED -> state dev <> CONNECTING ->
  connected_count m < max_devices m ->
  exists dev',
    devices (connect_device m a outcome).2 !! a = Some dev' /\
    manual_disconnect dev' = false /\
    reconnect_tasks (connect_device m a outcome).2 = reconnect_tasks m.
Proof.
  intros Hd Hc Hcing Hroom. unfold connect_device. rewrite Hd.
  rewrite !bool_decide_eq_false_2 by assumption.
  replace (max_devices m <=? connected_count m) with false
    by (symmetry; apply Z.leb_gt; exact Hroom).
  set (f := fun d => set_error_message None
                       (set_state CONNECTING (set_manual_disconnect false d))).
  pose proof (update_device_lookup m a f dev Hd) as H1.
  destruct outcome as [now | msg | now msg |]; cbn [snd];
    eexists; (split; [| split; [| reflexivity]]);
    try (cbn [devices notify]; eapply update_device_lookup; exact H1);
    try exact H1; reflexivity.
Qed.

(** X22. A [connect_device] that passes the guards clears the
    manual-disconnect flag before it tries to connect, whatever the
    outcome of the connection: after it, a disconnect reported by the
    device schedules the reconnection task again; while that task is
    registered a second report schedules nothing. *)
Theorem connect_rearms_reconnection (m : Manager) (a : string) (dev : IMUDevice)
    (outcome : ConnectOutcome) :
  devices m !! a = Some dev ->
  state dev <> CONNECTED -> state dev <> CONNECTING ->
  connected_count m < max_devices m ->
  a ∉ reconnect_tasks m ->
  let m1 := (connect_device m a outcome).2 in
  let r := disconnected_callback m1 a in
  manual_flag m1 a = false /\
  r.1 = true /\ a ∈ reconnect_tasks r.2 /\
  (disconnected_callback r.2 a).1 = false.
Proof.
  intros Hd Hc Hcing Hroom Htask. cbn zeta.
  destruct (connect_device_clears_flag m a dev outcome Hd Hc Hcing Hroom)
    as (dev' & Hd' & Hflag & Htasks).
  set (m1 := (connect_device m a outcome).2) in *.
  split; [now rewrite (manual_flag_lookup m1 a dev' Hd') |].
  assert (Hcb : disconnected_callback m1 a =
    (true,
     set_reconnect_tasks (reconnect_tasks m1 ∪ {[a]})
       (notify (on_device_disconnected a)
          (update_device a (fun d => set_client false (set_state DISCONNECTED d))
             m1)))).
  { assert (Hmf :
      manual_flag
        (notify (on_device_disconnected a)
           (update_device a (fun d => set_client false (set_state DISCONNECTED d))
              m1)) a = false).
    { transitivity
        (manual_disconnect (set_client false (set_state DISCONNECTED dev')));
        [| exact Hflag].
      apply manual_flag_lookup. cbn [devices notify].
      exact (update_device_lookup m1 a
               (fun d => set_client false (set_state DISCONNECTED d)) dev' Hd'). }
    unfold disconnected_callback. cbn zeta. rewrite Hmf.
    rewrite bool_decide_eq_true_2; [reflexivity |].
    cbn [reconnect_tasks notify update_device set_devices].
    rewrite Htasks. exact Htask. }
  rewrite Hcb. cbn [fst snd]. split; [reflexivity |].
  split; [cbn; set_solver |].
  unfold disconnected_callback.
  match goal with
  | |- (if ?c then _ else _).1 = false =>
      replace c with false; [reflexivity |]
  end.
  symmetry. apply andb_false_iff. right.
  apply bool_decide_eq_false_2. cbn. set_solver.
Qed.

(** X23. When the manual disconnect of a connected device fails (the
    client raises), the call returns failure and the device stays
    CONNECTED, but the manual-disconnect flag is already set: a later
    [connect_device] returns success at once without clearing it, and a
    disconnect reported by the device makes no reconnection attempt. *)
Theorem failed_disconnect_disables_reconnect (m : Manager) (a : string)
    (dev : IMUDevice) (outcome : ConnectOutcome) (env : nat -> Tick) :
  devices m !! a = Some dev -> state dev = CONNECTED -> client dev = true ->
  let r := disconnect_device m a false in
  r.1 = false /\
  state <$> (devices r.2 !! a) = Some CONNECTED /\
  manual_flag r.2 a = true /\
  connect_device r.2 a outcome = (Some true, r.2) /\
  device_disconnects r.2 a env
    = ((disconnected_callback r.2 a).2, [], NotScheduled).
Proof.
  intros Hd Hst Hcl. cbn zeta.
  assert (Hr : disconnect_device m a false =
    (false,
     set_reconnect_tasks (reconnect_tasks m ∖ {[a]})
       (update_device a (set_manual_disconnect true) m))).
  { unfold disconnect_device. rewrite Hd, Hcl. reflexivity. }
  rewrite Hr. cbn [fst snd].
  set (m1 := set_reconnect_tasks _ _).
  assert (Hd1 : devices m1 !! a = Some (set_manual_disconnect true dev)).
  { unfold m1. cbn [devices set_reconnect_tasks].
    now apply update_device_lookup. }
  split; [reflexivity |]. split; [rewrite Hd1; cbn; now rewrite Hst |].
  assert (Hflag : manual_flag m1 a = true)
    by now rewrite (manual_flag_lookup m1 a _ Hd1).
  split; [exact Hflag |]. split.
  - unfold connect_device. rewrite Hd1. cbn [state set_manual_disconnect].
    now rewrite bool_decide_eq_true_2 by exact Hst.
  - unfold device_disconnects.
    rewrite (IMUManagerFacts.callback_manual m1 a Hflag). reflexivity.
Qed.

(** ** Data notifications *)




(** ** The facts on the example manager *)

Lemma connect_rearms_reconnection_witness :
  let m1 := (connect_device example_manager "CC:DD" (ConnectFailed "timeout")).2 in
  let r := disconnected_callback m1 "CC:DD" in
  manual_flag m1 "CC:DD" = false /\
  r.1 = true /\ "CC:DD" ∈ reconnect_tasks r.2 /\
  (disconnected_callback r.2 "CC:DD").1 = false.
Proof.
  cbv zeta.
  apply (connect_rearms_reconnection example_manager "CC:DD" other_imu
           (ConnectFailed "timeout")).
  - vm_compute. reflexivity.
  - discriminate.
  - discriminate.
  - vm_compute. reflexivity.
  - vm_compute. set_solver.
Defined.

Lemma failed_disconnect_disables_reconnect_witness :
  let r := disconnect_device example_manager "AA:BB" false in
  r.1 = false /\
  state <$> (devices r.2 !! "AA:BB") = Some CONNECTED /\
  manual_flag r.2 "AA:BB" = true /\
  connect_device r.2 "AA:BB" (ConnectOk 7) = (Some true, r.2) /\
  device_disconnects r.2 "AA:BB" failing_env
    = ((disconnected_callback r.2 "AA:BB").2, [], NotScheduled).
Proof.
  cbv zeta.
  apply (failed_disconnect_disables_reconnect example_manager "AA:BB" known_imu
           (ConnectOk 7) failing_env).
  - vm_compute. reflexivity.
  - reflexivity.
  - reflexivity.
Defined.


End IMUManagerExtra.

(* ===================================================================== *)
(** * Facts about the data buffers *)
(* ===================================================================== *)

Module BufferFacts.
Import Buffer.

Section Facts.

Context {K : Type} `{Countable K}.
Context {A : Type}.

Abbreviation Buf := (Buffer K A).

Lemma window_snoc (n : Z) (l : list A) (x : A) :
  (if n <? Z.of_nat (length (window n l ++ [x]))
   then drop 1 (window n l ++ [x]) else window n l ++ [x])
  = window n (l ++ [x]).
Proof.
  unfold window. rewrite !length_app, length_drop. cbn [length].
  destruct (decide (length l < Z.to_nat n)%nat) as [Hlt | Hge].
  - replace (length l - Z.to_nat n)%nat with 0%nat by lia.
    replace (length l + 1 - Z.to_nat n)%nat with 0%nat by lia.
    cbn [drop].
    replace (n <? Z.of_nat (length l - 0 + 1)) with false; [reflexivity |].
    symmetry. apply Z.ltb_ge. lia.
  - replace (n <? Z.of_nat (length l - (length l - Z.to_nat n) + 1)) with true
      by (symmetry; apply Z.ltb_lt; lia).
    destruct (decide (Z.to_nat n = 0)%nat) as [Hz | Hnz].
    + rewrite Hz, !Nat.sub_0_r. rewrite drop_all. cbn.
      rewrite drop_ge; [reflexivity |]. rewrite length_app. cbn. lia.
    + rewrite drop_app_le by (rewrite length_drop; lia).
      rewrite drop_drop.
      replace (length l + 1 - Z.to_nat n)%nat
        with (length l - Z.to_nat n + 1)%nat by lia.
      rewrite (drop_app_le l [x]) by lia. reflexivity.
Qed.

Lemma items_of_snoc (d k : K) (x : A) (xs : list (K * A)) :
  items_of d (xs ++ [(k, x)])
  = items_of d xs ++ (if bool_decide (k = d) then [x] else []).
Proof.
  unfold items_of. rewrite List.filter_app, fmap_app. cbn.
  destruct (bool_decide (k = d)); reflexivity.
Qed.

Lemma add_all_contents (n : Z) (xs : list (K * A)) :
  max_size (add_all (init n : Buf) xs) = n /\
  forall d, get_all_data (add_all (init n : Buf) xs) d = window n (items_of d xs).
Proof.
  induction xs as [| [k x] xs IH] using rev_ind.
  - split; [reflexivity |]. intros d. unfold get_all_data. cbn.
    now rewrite lookup_empty.
  - destruct IH as [Hmax Hall]. unfold add_all in *. rewrite foldl_app. cbn [foldl].
    set (b := foldl _ _ xs) in *. cbn [fst snd].
    split; [exact Hmax |]. intros d. rewrite items_of_snoc.
    unfold get_all_data, add_data. cbn [buffer].
    destruct (decide (k = d)) as [-> | Hne].
    + rewrite lookup_insert_eq. cbn [default].
      rewrite bool_decide_eq_true_2 by reflexivity.
      fold (get_all_data b d). rewrite Hall, Hmax. apply window_snoc.
    + rewrite lookup_insert_ne by exact Hne.
      rewrite bool_decide_eq_false_2 by exact Hne. rewrite app_nil_r.
      apply Hall.
Qed.

Lemma get_latest_last (b : Buf) (d : K) :
  get_latest_data b d = last (get_all_data b d).
Proof.
  unfold get_latest_data, get_all_data. destruct (buffer b !! d); reflexivity.
Qed.

(** X25. A buffer created with size [n] and filled by any sequence of
    additions holds, for each device, exactly the last [n] items added
    for that device, in the order of their arrival.  With [n] at least 1
    the latest item is the one added last for the device; with [n] zero
    or negative the buffer stays empty and there is never a latest
    item. *)
Theorem buffer_keeps_last_items (n : Z) (xs : list (K * A)) (d : K) :
  let b := add_all (init n : Buf) xs in
  get_all_data b d = window n (items_of d xs) /\
  (Z.of_nat (length (get_all_data b d)) <= Z.max 0 n) /\
  (1 <= n -> get_latest_data b d = last (items_of d xs)) /\
  (n <= 0 -> get_all_data b d = [] /\ get_latest_data b d = None).
Proof.
  cbn zeta. destruct (add_all_contents n xs) as [_ Hall].
  rewrite get_latest_last, (Hall d).
  split; [reflexivity |]. unfold window. split; [| split].
  - rewrite length_drop. lia.
  - intros Hn. destruct (items_of d xs) as [| y l] using rev_ind; [reflexivity |].
    rewrite length_app. cbn [length].
    rewrite drop_app_le by lia. now rewrite !last_snoc.
  - intros Hn. replace (Z.to_nat n) with 0%nat by lia.
    rewrite Nat.sub_0_r, drop_all. auto.
Qed.

End Facts.

(** The IMU buffer of size 2 after three samples of one device and one of
    another. *)
Lemma buffer_keeps_last_items_witness :
  let b := add_all (init 2 : Buffer string Z)
             [("AA:BB", 1); ("CC:DD", 7); ("AA:BB", 2); ("AA:BB", 3)] in
  get_all_data b "AA:BB" = [2; 3] /\ get_latest_data b "AA:BB" = Some 3.
Proof.
  cbv zeta.
  destruct (buffer_keeps_last_items 2
              [("AA:BB", 1); ("CC:DD", 7); ("AA:BB", 2); ("AA:BB", 3)] "AA:BB")
    as (Hall & _ & Hlast & _).
  split; [exact Hall | apply Hlast; lia].
Defined.

End BufferFacts.

(* ===================================================================== *)
(** * Facts about the recording coordinator *)
(* ===================================================================== *)

Module RecorderFacts.
Import Writer IMURecorder.

Abbreviation run_iteration :=
  (Writer.run_iteration IMUWriter.device_address IMUWriter.timestamp).
Abbreviation run := (Writer.run IMUWriter.device_address IMUWriter.timestamp).

Lemma add_data_keeps_jobs (w : IMUWriter.IMUWriterThread) (u : IMUWriter.IMUData) :
  writers (IMUWriter.add_data w u).2 = writers w /\
  writer_states (IMUWriter.add_data w u).2 = writer_states w.
Proof.
  unfold IMUWriter.add_data, Writer.add_data.
  destruct (has_writer w _); [| auto].
  destruct (writer_states w !! _); [| auto].
  case_bool_decide; [| auto].
  destruct (queue_full w); [| auto].
  destruct (writer_stats w !! _); auto.
Qed.

Lemma run_iteration_keeps_job (w : IMUWriter.IMUWriterThread) ok now a st :
  is_Some (writers w !! a) -> writer_states w !! a = Some st -> st <> STOPPING ->
  is_Some (writers (run_iteration w ok now) !! a) /\
  exists st', writer_states (run_iteration w ok now) !! a = Some st' /\
              st' <> STOPPING.
Proof.
  intros Hd Hst Hne. unfold Writer.run_iteration.
  destruct (data_queue w) as [| u q].
  - assert (Hnin : a ∉ stopping_writers w).
    { intros Hin. apply WriterExtra.stopping_writers_inv in Hin. congruence. }
    destruct (WriterExtra.foldl_finalize_skips (stopping_writers w) now a w Hnin)
      as [H1 H2].
    cbn zeta in H1, H2. unfold _check_stopping_writers.
    rewrite H1, H2. eauto.
  - destruct (decide (IMUWriter.device_address u = a)) as [<- | Hneq].
    + unfold Writer._process_data. cbn [writers writer_states set_queue].
      destruct Hd as [rows Hd]. rewrite Hd, Hst.
      rewrite bool_decide_eq_false_2 by exact Hne.
      destruct ok; cbn.
      * destruct (writer_stats w !! _); cbn; rewrite ?lookup_insert_eq.
        -- rewrite Hst. split; eauto.
        -- split; [eauto |]. eexists. split; [reflexivity | discriminate].
      * rewrite lookup_insert_eq, Hd. split; [eauto |].
        eexists. split; [reflexivity | discriminate].
    + destruct (WriterExtra.process_data_other IMUWriter.device_address
                  IMUWriter.timestamp (set_queue q w) u ok a Hneq)
        as (H1 & H2 & _).
      rewrite H1, H2. eauto.
Qed.

Lemma apply_op_keeps_jobs (r : Recorder) (op : Op) :
  recording_has_job r -> recording_has_job (apply_op r op).
Proof.
  intros Hr. destruct op as [m a now ok | a | a data now | ok now]; cbn [apply_op].
  - unfold start_recording.
    destruct (IMUManager.devices m !! a); [| exact Hr].
    case_bool_decide as Hrec; [exact Hr |].
    unfold start_writer.
    destruct (has_writer (imu_writer_thread r) a) eqn:Hhas.
    { destruct r; exact Hr. }
    destruct ok; [| exact Hr].
    intros b Hb. cbn in Hb |- *.
    destruct (decide (a = b)) as [<- | Hne].
    + rewrite !lookup_insert_eq. split; [eauto |].
      eexists. split; [reflexivity | discriminate].
    + rewrite !lookup_insert_ne by exact Hne. apply Hr. set_solver.
  - unfold stop_recording. case_bool_decide as Hrec; [| exact Hr].
    unfold stop_writer.
    destruct (has_writer (imu_writer_thread r) a); [| destruct r; exact Hr].
    intros b Hb. cbn in Hb |- *.
    assert (Hne : a <> b) by set_solver.
    rewrite lookup_insert_ne by exact Hne. apply Hr. set_solver.
  - unfold _on_data_received. case_bool_decide as Hrec; [| exact Hr].
    intros b Hb. cbn [recording_devices imu_writer_thread] in Hb |- *.
    destruct (add_data_keeps_jobs (imu_writer_thread r)
                (IMUWriter.mkIMUData a now data
                   (default 0 (data_counters r !! a) + 1))) as [-> ->].
    now apply Hr.
  - intros b Hb. cbn [writer_iteration recording_devices imu_writer_thread set_writer]
      in Hb |- *.
    destruct (Hr b Hb) as (Hd & st & Hst & Hne).
    now apply (run_iteration_keeps_job _ ok now b st).
Qed.

(** X26. However recordings are started and stopped, samples arrive and
    the writer loop runs, every device the coordinator lists as being
    recorded has a job in the writer thread that has not been asked to
    stop; so [stop_recording] for a listed device always succeeds. *)
Theorem recording_devices_have_jobs (queue_size : Z) (ops : list Op) :
  let r := foldl apply_op (init queue_size) ops in
  recording_has_job r /\
  forall a, a ∈ recording_devices r -> (stop_recording r a).1 = true.
Proof.
  cbn zeta.
  assert (Hinv : recording_has_job (foldl apply_op (init queue_size) ops)).
  { assert (Hinit : recording_has_job (init queue_size)).
    { intros a Ha. cbn in Ha. set_solver. }
    revert Hinit. generalize (init queue_size).
    induction ops as [| op ops IH]; intros r Hr; cbn [foldl]; [exact Hr |].
    apply IH. now apply apply_op_keeps_jobs. }
  split; [exact Hinv |].
  intros a Ha. destruct (Hinv a Ha) as (Hd & _).
  unfold stop_recording. rewrite bool_decide_eq_true_2 by exact Ha.
  unfold stop_writer.
  replace (has_writer _ a) with true; [reflexivity |].
  symmetry. now apply WriterFacts.has_writer_true.
Qed.

(** X27. [start_recording] only checks that the address is in the device
    table, whatever the state of the device.  After [stop_recording] the
    device is no longer listed, its samples are no longer forwarded, and
    a new [start_recording] fails for as long as the writer thread has
    not finalized the old job; once the loop has drained the queue and
    finalized it, [start_recording] succeeds again. *)
Theorem restart_waits_for_writer (r : Recorder) (m : IMUManager.Manager)
    (a : string) (dev : IMUManager.IMUDevice) (oks : list bool) (now now' : Z) :
  IMUManager.devices m !! a = Some dev ->
  a ∈ recording_devices r -> recording_has_job r ->
  consistent (imu_writer_thread r) -> should_stop (imu_writer_thread r) = false ->
  length oks = S (length (data_queue (imu_writer_thread r))) ->
  let r1 := (stop_recording r a).2 in
  let r2 := set_writer (run (imu_writer_thread r1) oks now) r1 in
  (stop_recording r a).1 = true /\
  (a ∉ recording_devices r1) /\
  (forall t open_ok, start_recording r1 m a t open_ok = (false, r1)) /\
  (forall data t, _on_data_received r1 a data t = r1) /\
  (start_recording r2 m a now' true).1 = true /\
  a ∈ recording_devices (start_recording r2 m a now' true).2.
Proof.
  intros Hdev Hrec Hjob Hcons Hstop Hlen. cbn zeta.
  destruct (Hjob a Hrec) as ([rows Hd] & st & Hst & Hne).
  assert (Hhas : has_writer (imu_writer_thread r) a = true)
    by (apply WriterFacts.has_writer_true; eauto).
  assert (Hsr : stop_recording r a =
    (true,
     mkRecorder (recording_devices r ∖ {[a]}) (delete a (data_counters r))
       (set_states (<[a := STOPPING]> (writer_states (imu_writer_thread r)))
          (imu_writer_thread r)))).
  { unfold stop_recording, stop_writer.
    rewrite bool_decide_eq_true_2 by exact Hrec. now rewrite Hhas. }
  rewrite Hsr. cbn [fst snd].
  set (w1 := set_states _ _).
  set (r1 := mkRecorder _ _ w1).
  assert (Hnot : a ∉ recording_devices r1) by (cbn; set_solver).
  split; [reflexivity |]. split; [exact Hnot |]. split; [| split].
  - intros t open_ok. unfold start_recording. rewrite Hdev.
    rewrite bool_decide_eq_false_2 by exact Hnot.
    unfold start_writer.
    change (has_writer (imu_writer_thread r1) a)
      with (has_writer (imu_writer_thread r) a).
    rewrite Hhas. reflexivity.
  - intros data t. unfold _on_data_received.
    now rewrite bool_decide_eq_false_2 by exact Hnot.
  - assert (Hc1 : consistent w1).
    { pose proof (WriterFacts.stop_writer_consistent (imu_writer_thread r) a Hcons)
        as Hc. unfold stop_writer in Hc. now rewrite Hhas in Hc. }
    destruct (WriterFacts.run_drains_then_finalizes IMUWriter.device_address
                IMUWriter.timestamp oks now a rows w1)
      as (_ & Hnone & _); try assumption.
    { apply lookup_insert_eq. }
    assert (Hhas2 : has_writer (run w1 oks now) a = false)
      by now apply WriterFacts.has_writer_false.
    unfold start_recording, start_writer. rewrite Hdev.
    cbn [recording_devices set_writer imu_writer_thread].
    rewrite bool_decide_eq_false_2 by exact Hnot.
    change (imu_writer_thread r1) with w1. rewrite Hhas2.
    cbn. split; [reflexivity | set_solver].
Qed.

Lemma recording_devices_have_jobs_witness :
  let r :=
    foldl apply_op (init 1000)
      [OpStartRecording IMUManager.example_manager "CC:DD" 5 true;
       OpData "CC:DD" [] 6; OpWriterIteration true 7] in
  recording_has_job r /\
  forall a, a ∈ recording_devices r -> (stop_recording r a).1 = true.
Proof.
  cbv zeta. apply (recording_devices_have_jobs 1000).
Defined.

Lemma restart_waits_for_writer_witness :
  let r := (start_recording (init 1000) IMUManager.example_manager "CC:DD" 5 true).2 in
  let r1 := (stop_recording r "CC:DD").2 in
  let r2 := set_writer (run (imu_writer_thread r1) [true] 9) r1 in
  (stop_recording r "CC:DD").1 = true /\
  ("CC:DD" ∉ recording_devices r1) /\
  (forall t open_ok,
     start_recording r1 IMUManager.example_manager "CC:DD" t open_ok = (false, r1)) /\
  (forall data t, _on_data_received r1 "CC:DD" data t = r1) /\
  (start_recording r2 IMUManager.example_manager "CC:DD" 11 true).1 = true /\
  "CC:DD" ∈
    recording_devices (start_recording r2 IMUManager.example_manager "CC:DD" 11 true).2.
Proof.
  cbv zeta.
  apply (restart_waits_for_writer
           (start_recording (init 1000) IMUManager.example_manager "CC:DD" 5 true).2
           IMUManager.example_manager "CC:DD" IMUManager.other_imu [true] 9 11).
  - vm_compute. reflexivity.
  - vm_compute. set_solver.
  - apply (apply_op_keeps_jobs (init 1000)
             (OpStartRecording IMUManager.example_manager "CC:DD" 5 true)).
    intros a Ha. cbn in Ha. set_solver.
  - apply (WriterFacts.start_writer_consistent (IMUWriter.init 1000) "CC:DD" 5 true).
    apply WriterFacts.init_consistent.
  - reflexivity.
  - reflexivity.
Defined.

End RecorderFacts.
